(** * CertificateRequest reconciliation, approval check and issuer lookup

    A shallow embedding of the certificate-request controller
    ([certificaterequests.Sync] and its helpers), of the approval admission
    check ([subjectaccessreview.Review]) and of the issuer getter
    ([issuers.getterImpl.Issuer]).

    Effects are explicit: a reconciliation round threads the controller's
    working copy of the request together with the list of calls it made to
    its collaborators (event recorder, issuer helper, issuer factory,
    signing backend, store client). *)

From stdpp Require Import base decidable option list strings gmap sorting.
From Stdlib Require Import ZArith Lia Ascii.

#[local] Open Scope string_scope.
#[local] Open Scope Z_scope.

(** ** Go values shared by the packages *)

(** A byte slice.  Go's nil and empty slices are identified: the code only
    takes [len] of them, copies them and serialises them with [omitempty]. *)
Abbreviation bytes := (list Byte.byte).

#[global] Instance byte_eq_dec : EqDecision Byte.byte := Byte.byte_eq_dec.

(** [time.Time] as an instant: nanoseconds since the Unix epoch. *)
Abbreviation Time := Z.

Definition time_Before (t u : Time) : bool := t <? u.

#[local] Set Warnings "-register-all".

(** Go [error] values.  A nil error is [None] in [option error].
    [fmt_Errorf] keeps the format string and its arguments apart so that the
    text handed to [fmt.Errorf] can be read off the value; [StatusError] is
    an API status error carrying its reason; [aggregate] is the
    [utilerrors] aggregate. *)
Inductive error : Type :=
  | errors_New (text : string)
  | fmt_Errorf (format : string) (args : list string)
  | StatusError (reason : string) (message : string)
  | aggregate (errs : list error).

(** [utilerrors.NewAggregate]: nil entries are dropped, an empty result is
    the nil error. *)
Definition NewAggregate (errlist : list (option error)) : option error :=
  match omap id errlist with
  | [] => None
  | errs => Some (aggregate errs)
  end.

(** [k8sErrors.IsNotFound]. *)
Definition IsNotFound (err : option error) : bool :=
  match err with
  | Some (StatusError reason _) => bool_decide (reason = "NotFound")
  | _ => false
  end.

(** [field.Error] values of a [field.ErrorList], as far as the code builds
    them. *)
Inductive field_Error : Type :=
  | field_InternalError (path : string) (err : error)
  | field_Forbidden (path : string) (detail : string)
  | field_Invalid (path : string) (detail : string).

(** ** API types *)

Module cmapi.

Inductive ConditionStatus := ConditionTrue | ConditionFalse | ConditionUnknown.

#[global] Instance ConditionStatus_eq_dec : EqDecision ConditionStatus.
Proof. solve_decision. Defined.

Definition CertificateRequestConditionReady : string := "Ready".
Definition CertificateRequestConditionApproved : string := "Approved".
Definition CertificateRequestConditionDenied : string := "Denied".
Definition IssuerConditionReady : string := "Ready".

Record CertificateRequestCondition := {
  Type_ : string;
  Status : ConditionStatus;
  LastTransitionTime : option Time;
  Reason : string;
  Message : string
}.

#[global] Instance CertificateRequestCondition_eq_dec :
  EqDecision CertificateRequestCondition.
Proof. solve_decision. Defined.

Record ObjectReference := {
  Name : string;
  Kind : string;
  Group : string
}.

Record CertificateRequestSpec := {
  IssuerRef : ObjectReference;
  CSRPem : bytes;
  IsCA : bool
}.

Record CertificateRequestStatus := {
  Conditions : list CertificateRequestCondition;
  Certificate : bytes;
  CA : bytes;
  NotAfter : option Time
}.

Record CertificateRequest := {
  ObjectMeta_Name : string;
  Namespace : string;
  Spec : CertificateRequestSpec;
  Status_ : CertificateRequestStatus
}.

Record IssuerCondition := {
  IssuerCondition_Type : string;
  IssuerCondition_Status : ConditionStatus
}.

(** What the controller reads of a [GenericIssuer]. *)
Record GenericIssuer := {
  Issuer_Name : string;
  Issuer_Conditions : list IssuerCondition
}.

End cmapi.
Import cmapi.

Definition set_Conditions (conds : list CertificateRequestCondition)
    (st : CertificateRequestStatus) : CertificateRequestStatus :=
  {| Conditions := conds; Certificate := Certificate st; CA := CA st;
     NotAfter := NotAfter st |}.

Definition set_NotAfter (t : option Time)
    (st : CertificateRequestStatus) : CertificateRequestStatus :=
  {| Conditions := Conditions st; Certificate := Certificate st; CA := CA st;
     NotAfter := t |}.

Definition set_Certificate (crt ca : bytes)
    (st : CertificateRequestStatus) : CertificateRequestStatus :=
  {| Conditions := Conditions st; Certificate := crt; CA := ca;
     NotAfter := NotAfter st |}.

Definition set_Status (st : CertificateRequestStatus)
    (cr : CertificateRequest) : CertificateRequest :=
  {| ObjectMeta_Name := ObjectMeta_Name cr; Namespace := Namespace cr;
     Spec := Spec cr; Status_ := st |}.

(** ** Condition store ([apiutil]) *)

Module apiutil.

(** Modelled from the spec: [apiutil.SetCertificateRequestCondition] is
    declared outside the sources at hand.  Section 4.3: find the existing
    condition of the type; if absent, append a new one with the current
    timestamp; if present and the status differs, update status and
    timestamp; always refresh reason and message.  [now] is the reading of
    the package-level [apiutil.Clock]. *)
Fixpoint setCondition (now : Time) (conds : list CertificateRequestCondition)
    (conditionType : string) (status : ConditionStatus)
    (reason message : string) : list CertificateRequestCondition :=
  match conds with
  | [] =>
      [ {| Type_ := conditionType; Status := status;
           LastTransitionTime := Some now;
           Reason := reason; Message := message |} ]
  | cond :: rest =>
      if bool_decide (Type_ cond = conditionType) then
        {| Type_ := conditionType; Status := status;
           LastTransitionTime :=
             (if bool_decide (Status cond = status)
              then LastTransitionTime cond else Some now);
           Reason := reason; Message := message |} :: rest
      else cond :: setCondition now rest conditionType status reason message
  end.

Definition SetCertificateRequestCondition (now : Time)
    (cr : CertificateRequest) (conditionType : string)
    (status : ConditionStatus) (reason message : string)
    : CertificateRequest :=
  set_Status
    (set_Conditions
       (setCondition now (Conditions (Status_ cr))
          conditionType status reason message)
       (Status_ cr))
    cr.

(** Modelled from the spec: [GetCertificateRequestCondition] is declared
    outside the sources at hand.  Section 2 and 4.3: read-by-type; the
    result is the condition of that type, or nil. *)
Fixpoint GetCertificateRequestCondition
    (conds : list CertificateRequestCondition) (conditionType : string)
    : option CertificateRequestCondition :=
  match conds with
  | [] => None
  | cond :: rest =>
      if bool_decide (Type_ cond = conditionType) then Some cond
      else GetCertificateRequestCondition rest conditionType
  end.

(** Modelled from the spec: [apiutil.IssuerHasCondition] is declared
    outside the sources at hand.  Section 4.3: an exact match on Type and
    Status only. *)
Definition IssuerHasCondition (i : GenericIssuer) (c : IssuerCondition)
    : bool :=
  existsb
    (fun cond =>
       bool_decide (IssuerCondition_Type cond = IssuerCondition_Type c)
       && bool_decide (IssuerCondition_Status cond = IssuerCondition_Status c))
    (Issuer_Conditions i).

End apiutil.

(** ** Standard-library and helper interfaces *)

Abbreviation url_URL := string.
Abbreviation net_IP := (list Byte.byte).

Record x509_CertificateRequest := {
  csr_Subject_CommonName : string;
  csr_DNSNames : list string;
  csr_URIs : list url_URL;
  csr_IPAddresses : list net_IP
}.

Record x509_Certificate := {
  SerialNumber : Z;
  Subject_CommonName : string;
  DNSNames : list string;
  URIs : list url_URL;
  IPAddresses : list net_IP;
  cert_NotAfter : Time
}.

(** Arguments of a [fmt] verb. *)
Inductive fmt_arg : Type :=
  | arg_string (s : string)
  | arg_strings (l : list string)
  | arg_error (e : option error)
  | arg_ErrorList (el : list field_Error).

(** The parts of Go's standard library the controller calls: PEM and X.509
    decoding, [fmt.Sprintf] and [Time.Format].  They are taken as they are;
    every statement below holds for any implementation of them. *)
Class GoLib := {
  (* [pem.Decode]: the bytes of the first PEM block, [None] for a nil
     block. *)
  pem_Decode : bytes -> option bytes;
  x509_ParseCertificateRequest : bytes -> x509_CertificateRequest + error;
  x509_ParseCertificate : bytes -> x509_Certificate + error;
  fmt_Sprintf : string -> list fmt_arg -> string;
  time_Format : Time -> string -> string;
  (* The [Error()] text of an error value. *)
  error_Error : error -> string
}.

Definition time_RFC822 : string := "02 Jan 06 15:04 MST".

(** The [pki] helpers and the validation functions are declared outside the
    sources at hand and are taken as parameters. *)
Class Helpers := {
  CommonNameForCertificateRequest : x509_CertificateRequest -> string;
  DNSNamesForCertificateRequest : x509_CertificateRequest -> list string;
  URLsToString : list url_URL -> list string;
  IPAddressesToString : list net_IP -> list string;
  ValidateCertificateRequest : CertificateRequest -> list field_Error;
  ValidateCertificateRequestForIssuer :
    CertificateRequest -> GenericIssuer -> list field_Error
}.

Module util.

Fixpoint remove_first (x : string) (l : list string) : option (list string) :=
  match l with
  | [] => None
  | y :: l' =>
      if bool_decide (x = y) then Some l'
      else option_map (cons y) (remove_first x l')
  end.

(** Modelled from the spec: [util.EqualUnsorted] is declared outside the
    sources at hand.  Section 4.2: order-independent equality of the two
    lists. *)
Fixpoint EqualUnsorted (s1 s2 : list string) : bool :=
  match s1 with
  | [] => match s2 with [] => true | _ => false end
  | x :: s1' =>
      match remove_first x s2 with
      | Some s2' => EqualUnsorted s1' s2'
      | None => false
      end
  end.

End util.

(** [big.Int.Int64]: the low 64 bits of the magnitude read as a two's
    complement [int64], negated for a negative number. *)
Definition wrap_int64 (z : Z) : Z :=
  let m := z mod 2 ^ 64 in
  if m <? 2 ^ 63 then m else m - 2 ^ 64.

Definition big_Int_Int64 (x : Z) : Z :=
  let v := wrap_int64 (Z.abs x) in
  if x <? 0 then wrap_int64 (- v) else v.

(** ** Serialised status

    [json.Marshal] of a [CertificateRequestStatus], as the JSON document it
    denotes.  Every field is [omitempty]; byte slices are base64 strings;
    a [metav1.Time] is [null] for the zero time and its RFC 3339 rendering
    in UTC, to the second, otherwise.  The encoder is deterministic and
    injective on documents, so comparing the marshalled bytes is comparing
    the documents. *)

Inductive json_Time := json_absent | json_null | json_seconds (s : Z).

#[global] Instance json_Time_eq_dec : EqDecision json_Time.
Proof. solve_decision. Defined.

(** The zero [time.Time], January 1 of year 1, in Unix nanoseconds. *)
Definition time_zero : Time := -62135596800 * 1000000000.

Definition json_metav1_Time (t : option Time) : json_Time :=
  match t with
  | None => json_absent
  | Some t =>
      if bool_decide (t = time_zero) then json_null
      else json_seconds (t / 1000000000)
  end.

Record json_Condition := {
  json_type : string;
  json_status : ConditionStatus;
  json_lastTransitionTime : json_Time;
  json_reason : string;
  json_message : string
}.

#[global] Instance json_Condition_eq_dec : EqDecision json_Condition.
Proof. solve_decision. Defined.

Record json_Status := {
  json_conditions : list json_Condition;
  json_certificate : bytes;
  json_ca : bytes;
  json_notAfter : json_Time
}.

#[global] Instance json_Status_eq_dec : EqDecision json_Status.
Proof. solve_decision. Defined.

Definition json_Marshal_Condition (c : CertificateRequestCondition)
    : json_Condition :=
  {| json_type := Type_ c; json_status := Status c;
     json_lastTransitionTime := json_metav1_Time (LastTransitionTime c);
     json_reason := Reason c; json_message := Message c |}.

Definition json_Marshal (st : CertificateRequestStatus) : json_Status :=
  {| json_conditions := map json_Marshal_Condition (Conditions st);
     json_certificate := Certificate st;
     json_ca := CA st;
     json_notAfter := json_metav1_Time (NotAfter st) |}.

(** ** The signing backend and the controller *)

Module issuer.

Record IssueResponse := {
  resp_Certificate : bytes;
  resp_CA : bytes
}.

(** [issuer.Interface]: [Sign] answers with a response, which may be nil,
    and an error, which may be nil.  A backend reads the request and does
    not write to it. *)
Record Interface := {
  Sign : CertificateRequest -> option IssueResponse * option error
}.

End issuer.

(** The collaborators held by a [Controller], with the two clock readings a
    round takes (the controller's injected clock and the package-level clock
    of the condition store). *)
Record Controller := {
  clock_Now : Time;
  apiutil_Clock_Now : Time;
  helper_GetGenericIssuer :
    ObjectReference -> string -> GenericIssuer + error;
  issuerFactory_IssuerFor : GenericIssuer -> issuer.Interface + error;
  CMClient_Update : CertificateRequest -> CertificateRequest + error
}.

(** Calls a round makes to its collaborators, in the order they are made. *)
Inductive Call : Type :=
  | IncrementSyncCallCount
  | Recorder_Event (eventtype reason message : string)
  | GetGenericIssuer_call (ref : ObjectReference) (ns : string)
  | IssuerFor_call (i : GenericIssuer)
  | Sign_call (cr : CertificateRequest)
  | Update_call (cr : CertificateRequest).

Definition is_Sign_call (c : Call) : bool :=
  match c with Sign_call _ => true | _ => false end.

Definition is_Update_call (c : Call) : bool :=
  match c with Update_call _ => true | _ => false end.

(** A round's state: the working copy [crCopy] and the calls made so far. *)
Record RoundState := {
  crCopy : CertificateRequest;
  calls : list Call
}.

Definition Round (A : Type) : Type := RoundState -> A * RoundState.

Definition ret {A} (a : A) : Round A := fun s => (a, s).

Definition bind {A B} (m : Round A) (k : A -> Round B) : Round B :=
  fun s => let '(a, s') := m s in k a s'.

Definition call (c : Call) : Round unit :=
  fun s => (tt, {| crCopy := crCopy s; calls := calls s ++ [c] |}).

Definition get_cr : Round CertificateRequest := fun s => (crCopy s, s).

Definition modify_cr (f : CertificateRequest -> CertificateRequest)
    : Round unit :=
  fun s => (tt, {| crCopy := f (crCopy s); calls := calls s |}).

Declare Scope round_scope.
Delimit Scope round_scope with round.
Notation "x <- m ;; k" := (bind m (fun x => k))
  (at level 100, m at next level, right associativity) : round_scope.
Notation "m ;;; k" := (bind m (fun _ => k))
  (at level 100, right associativity) : round_scope.

Definition corev1_EventTypeNormal : string := "Normal".
Definition corev1_EventTypeWarning : string := "Warning".

Module certificaterequests.
Import issuer.

Definition errorIssuerNotFound : string := "IssuerNotFound".
Definition errorIssuerNotReady : string := "IssuerNotReady".
Definition errorIssuerInit : string := "IssuerInitError".
Definition errorCertificateSigningRequestNotFound : string := "CSRNotFound".
Definition errorCertificateSigningRequestParse : string := "CSRParseError".
Definition errorCertificateNotFound : string := "CertNotFound".
Definition errorCertificateParse : string := "CertParseError".
Definition successCertificateIssued : string := "CertIssued".

(** [staticTemporarySerialNumber = 0x1234567890]. *)
Definition staticTemporarySerialNumber : Z := 0x1234567890.

Section Controller.
Context `{GoLib} `{Helpers}.
Variable c : Controller.

Local Open Scope round_scope.

Definition Recorder_Eventf (eventtype reason format : string)
    (args : list fmt_arg) : Round unit :=
  call (Recorder_Event eventtype reason (fmt_Sprintf format args)).

Definition isTemporaryCertificate (cert : option x509_Certificate) : bool :=
  match cert with
  | None => false
  | Some cert =>
      big_Int_Int64 (SerialNumber cert) =? staticTemporarySerialNumber
  end.

Definition append_if (b : bool) (msg : string) (errs : list string)
    : list string :=
  if b then errs ++ [msg] else errs.

Definition certificateMatchesSpec (cr : CertificateRequest)
    (csr : x509_CertificateRequest) (cert : x509_Certificate)
    : bool * list string :=
  let errs := [] in
  (* validate the common name is correct *)
  let expectedCN := CommonNameForCertificateRequest csr in
  let errs :=
    append_if (negb (bool_decide (expectedCN = Subject_CommonName cert)))
      (fmt_Sprintf "Common name on TLS certificate not up to date: %q"
         [arg_string (Subject_CommonName cert)]) errs in
  (* validate the dns names are correct *)
  let expectedDNSNames := DNSNamesForCertificateRequest csr in
  let errs :=
    append_if (negb (util.EqualUnsorted (DNSNames cert) expectedDNSNames))
      (fmt_Sprintf "DNS names on TLS certificate not up to date: %q"
         [arg_strings (DNSNames cert)]) errs in
  (* validate the uris are correct *)
  let errs :=
    append_if
      (negb (util.EqualUnsorted (URLsToString (URIs cert))
               (URLsToString (csr_URIs csr))))
      (fmt_Sprintf "URLs on TLS certificate not up to date: %q"
         [arg_strings (URLsToString (URIs cert))]) errs in
  (* validate the ip addresses are correct *)
  let errs :=
    append_if
      (negb (util.EqualUnsorted (IPAddressesToString (IPAddresses cert))
               (IPAddressesToString (csr_IPAddresses csr))))
      (fmt_Sprintf "IP addresses on TLS certificate not up to date: %q"
         [arg_strings (IPAddressesToString (IPAddresses cert))]) errs in
  (bool_decide (length errs = 0%nat), errs).

(** [setCertificateRequestStatus] writes to the request it is given; the
    written request is the result. *)
Definition setCertificateRequestStatus (cr : CertificateRequest)
    (csr : x509_CertificateRequest) (cert : option x509_Certificate)
    : CertificateRequest :=
  match cert with
  | None =>
      apiutil.SetCertificateRequestCondition (apiutil_Clock_Now c) cr
        CertificateRequestConditionReady ConditionFalse
        "NotFound" "Certificate does not exist"
  | Some crt =>
      let cr := set_Status
                  (set_NotAfter (Some (cert_NotAfter crt)) (Status_ cr)) cr in
      (* Derive & set 'Ready' condition on CertificateRequest resource *)
      let '(matches, matchErrs) := certificateMatchesSpec cr csr crt in
      let '(cr, ready, reason, message) :=
        if isTemporaryCertificate cert then
          (* clear the NotAfter field as it is not relevant to the user *)
          (set_Status (set_NotAfter None (Status_ cr)) cr,
           ConditionFalse, "TemporaryCertificate",
           "Certificate issuance in progress. Temporary certificate issued.")
        else if time_Before (cert_NotAfter crt) (clock_Now c) then
          (cr, ConditionFalse, "Expired",
           fmt_Sprintf "Certificate has expired on %s"
             [arg_string (time_Format (cert_NotAfter crt) time_RFC822)])
        else if negb matches then
          (cr, ConditionFalse, "DoesNotMatch", String.concat ", " matchErrs)
        else
          (cr, ConditionTrue, "Ready",
           "Certificate is up to date and has not expired")
      in
      apiutil.SetCertificateRequestCondition (apiutil_Clock_Now c) cr
        CertificateRequestConditionReady ready reason message
  end.

(** [sign] works on the round's working copy. *)
Definition sign (i : issuer.Interface) : Round (option error) :=
  cr <- get_cr ;;
  call (Sign_call cr) ;;;
  match Sign i cr with
  | (_, Some err) => ret (Some err)
  | (None, None) =>
      (* if the issuer has not returned any data, exit early *)
      ret None
  | (Some resp, None) =>
      if bool_decide (0 < length (resp_Certificate resp))%nat then
        modify_cr (fun cr =>
          set_Status
            (set_Certificate (resp_Certificate resp) (resp_CA resp)
               (Status_ cr)) cr) ;;;
        call (Recorder_Event corev1_EventTypeNormal successCertificateIssued
                "Certificate issued successfully") ;;;
        ret None
      else ret None
  end.

Definition updateCertificateStatus (old : CertificateRequest)
    : Round (option CertificateRequest * option error) :=
  new <- get_cr ;;
  let oldBytes := json_Marshal (Status_ old) in
  let newBytes := json_Marshal (Status_ new) in
  if bool_decide (oldBytes = newBytes) then ret (None, None)
  else
    call (Update_call new) ;;;
    match CMClient_Update c new with
    | inl updated => ret (Some updated, None)
    | inr err => ret (None, Some err)
    end.

Definition bad_config (el : list field_Error) : Round unit :=
  Recorder_Eventf corev1_EventTypeWarning "BadConfig"
    "Resource validation failed: %v" [arg_ErrorList el].

(** The body of [Sync] between the registration of the deferred status
    write and the return; the result is the value of the named result
    [err] at the return statement.  [cr] is the request handed to [Sync],
    the state holds [crCopy]. *)
Definition Sync_body (cr : CertificateRequest) : Round (option error) :=
  if bool_decide (length (CSRPem (Spec cr)) = 0%nat) then
    ret (Some (errors_New errorCertificateSigningRequestNotFound))
  else
  match pem_Decode (CSRPem (Spec cr)) with
  | None => ret (Some (errors_New errorCertificateSigningRequestParse))
  | Some block_Bytes =>
  match x509_ParseCertificateRequest block_Bytes with
  | inr err => ret (Some err)
  | inl csr =>
  if bool_decide (length (Certificate (Status_ cr)) = 0%nat) then
    ret (Some (errors_New errorCertificateNotFound))
  else
  match pem_Decode (Certificate (Status_ cr)) with
  | None => ret (Some (errors_New errorCertificateParse))
  | Some block_Bytes =>
  match x509_ParseCertificate block_Bytes with
  | inr err => ret (Some err)
  | inl crt =>
  let cert : option x509_Certificate := Some crt in
  modify_cr (fun crCopy => setCertificateRequestStatus crCopy csr cert) ;;;
  crCopy <- get_cr ;;
  let el := ValidateCertificateRequest crCopy in
  if bool_decide (0 < length el)%nat then
    bad_config el ;;; ret None
  else
  (* step zero: check if the referenced issuer exists and is ready *)
  call (GetGenericIssuer_call (IssuerRef (Spec crCopy)) (Namespace crCopy)) ;;;
  match helper_GetGenericIssuer c (IssuerRef (Spec crCopy))
          (Namespace crCopy) with
  | inr err =>
      if IsNotFound (Some err) then
        Recorder_Eventf corev1_EventTypeWarning errorIssuerNotFound
          (error_Error err) [] ;;;
        ret None
      else ret (Some err)
  | inl issuerObj =>
  let el := ValidateCertificateRequestForIssuer crCopy issuerObj in
  if bool_decide (0 < length el)%nat then
    bad_config el ;;; ret None
  else
  let issuerReady :=
    apiutil.IssuerHasCondition issuerObj
      {| IssuerCondition_Type := IssuerConditionReady;
         IssuerCondition_Status := ConditionTrue |} in
  if negb issuerReady then
    Recorder_Eventf corev1_EventTypeWarning errorIssuerNotReady
      "Issuer %s not ready" [arg_string (Issuer_Name issuerObj)] ;;;
    ret None
  else
  call (IssuerFor_call issuerObj) ;;;
  match issuerFactory_IssuerFor c issuerObj with
  | inr err =>
      Recorder_Eventf corev1_EventTypeWarning errorIssuerInit
        "Internal error initialising issuer: %v" [arg_error (Some err)] ;;;
      ret None
  | inl i =>
  if isTemporaryCertificate cert then sign i
  else
  match cert with
  | None => sign i
  | Some crt =>
  (* begin checking if the TLS certificate is valid/needs a re-issue or renew *)
  let '(matches, matchErrs) := certificateMatchesSpec crCopy csr crt in
  if negb matches then sign i
  else ret None
  end end end end end end end.

(** [Sync]: count the call, take the working copy, run the body, and run
    the deferred status write, which folds a save error into the result. *)
Definition Sync_round (cr : CertificateRequest) : Round (option error) :=
  call IncrementSyncCallCount ;;;
  err <- Sync_body cr ;;
  saved <- updateCertificateStatus cr ;;
  match snd saved with
  | Some saveErr => ret (NewAggregate [Some saveErr; err])
  | None => ret err
  end.

Definition Sync (cr : CertificateRequest) : option error * RoundState :=
  Sync_round cr {| crCopy := cr; calls := [] |}.

(** The state in which the body leaves the round, before the deferred
    write. *)
Definition Sync_body_from (cr : CertificateRequest)
    : option error * RoundState :=
  Sync_body cr {| crCopy := cr; calls := [IncrementSyncCallCount] |}.

End Controller.
End certificaterequests.

(** ** [path/filepath] on a Unix system *)

Module filepath.

Definition Separator : ascii := "/"%char.

Definition IsPathSeparator (ch : ascii) : bool := Ascii.eqb ch Separator.

Definition is_dot (ch : ascii) : bool := Ascii.eqb ch "."%char.

(** End of the path or a separator next: the element under the cursor is
    over. *)
Definition element_ends (path : string) : bool :=
  match path with
  | EmptyString => true
  | String ch _ => IsPathSeparator ch
  end.

(** The output buffer [out] is kept in reverse: its head is the byte
    written last and its length is [out.w]. *)

(** [out.w--; for out.w > dotdot && !IsPathSeparator(out.index(out.w))
    { out.w-- }] *)
Fixpoint backtrack (dotdot : nat) (out : list ascii) : list ascii :=
  match out with
  | [] => []
  | ch :: out' =>
      if bool_decide (dotdot < length out')%nat && negb (IsPathSeparator ch)
      then backtrack dotdot out'
      else out'
  end.

(** [for ; r < n && !IsPathSeparator(path[r]); r++ { out.append(path[r]) }] *)
Fixpoint copy_element (path : string) (out : list ascii)
    : string * list ascii :=
  match path with
  | EmptyString => (EmptyString, out)
  | String ch rest =>
      if IsPathSeparator ch then (path, out)
      else copy_element rest (ch :: out)
  end.

(** The main loop of [Clean]; [path] is what is left to read from [r] on.
    Every turn reads at least one byte, so the length of the path is
    enough fuel. *)
Fixpoint clean_loop (fuel : nat) (rooted : bool) (path : string)
    (out : list ascii) (dotdot : nat) : list ascii :=
  match fuel with
  | O => out
  | S fuel =>
      match path with
      | EmptyString => out
      | String ch rest =>
          if IsPathSeparator ch then
            (* empty path element *)
            clean_loop fuel rooted rest out dotdot
          else if is_dot ch && element_ends rest then
            (* . element *)
            clean_loop fuel rooted rest out dotdot
          else if is_dot ch
                  && match rest with
                     | String ch1 rest1 => is_dot ch1 && element_ends rest1
                     | EmptyString => false
                     end then
            (* .. element: remove to last separator *)
            let rest1 := match rest with
                         | String _ rest1 => rest1
                         | EmptyString => EmptyString
                         end in
            if bool_decide (dotdot < length out)%nat then
              (* can backtrack *)
              clean_loop fuel rooted rest1 (backtrack dotdot out) dotdot
            else if negb rooted then
              (* cannot backtrack, but not rooted, so append .. element. *)
              let out := if bool_decide (0 < length out)%nat
                         then Separator :: out else out in
              let out := "."%char :: "."%char :: out in
              clean_loop fuel rooted rest1 out (length out)
            else clean_loop fuel rooted rest1 out dotdot
          else
            (* real path element.  add slash if needed *)
            let out :=
              if (rooted && negb (bool_decide (length out = 1%nat)))
                 || (negb rooted && negb (bool_decide (length out = 0%nat)))
              then Separator :: out else out in
            (* copy element *)
            let '(rest', out) := copy_element path out in
            clean_loop fuel rooted rest' out dotdot
      end
  end.

Definition Clean (path : string) : string :=
  match path with
  | EmptyString => "."
  | String ch rest =>
      let rooted := IsPathSeparator ch in
      let out :=
        if rooted
        then clean_loop (String.length path) rooted rest [Separator] 1%nat
        else clean_loop (String.length path) rooted path [] 0%nat in
      (* Turn empty string into "." *)
      match out with
      | [] => "."
      | _ => String.string_of_list_ascii (rev out)
      end
  end.

(** [Join]: empty elements before the first non-empty one are dropped, the
    rest is joined with the separator and cleaned. *)
Fixpoint Join (elem : list string) : string :=
  match elem with
  | [] => EmptyString
  | e :: rest =>
      if bool_decide (e = EmptyString) then Join rest
      else Clean (String.concat "/" elem)
  end.

(** A path element that [Clean] copies as it is: not empty, not [.] or
    [..], and free of separators. *)
Fixpoint no_separator (e : string) : bool :=
  match e with
  | EmptyString => true
  | String ch rest => negb (IsPathSeparator ch) && no_separator rest
  end.

Definition is_plain_element (e : string) : bool :=
  negb (bool_decide (e = EmptyString))
  && negb (bool_decide (e = "."))
  && negb (bool_decide (e = ".."))
  && no_separator e.

End filepath.

(** ** The approval admission check *)

Module subjectaccessreview.

Record UserInfo := {
  Username : string;
  UID : string;
  Groups : list string;
  Extra : gmap string (list string)
}.

Record AdmissionRequest := { req_UserInfo : UserInfo }.

Record ResourceAttributes := {
  ra_Namespace : string;
  ra_Verb : string;
  ra_Group : string;
  ra_Resource : string;
  ra_Name : string
}.

Record SubjectAccessReviewSpec := {
  sar_ResourceAttributes : option ResourceAttributes;
  sar_User : string;
  sar_Groups : list string;
  sar_Extra : gmap string (list string);
  sar_UID : string
}.

Record SubjectAccessReviewStatus := { Allowed : bool }.

Record SubjectAccessReview := {
  sar_Spec : SubjectAccessReviewSpec;
  sar_Status : SubjectAccessReviewStatus
}.

(** [reflect.DeepEqual] on two condition pointers: both nil, or both set
    and pointing to equal conditions. *)
Definition reflect_DeepEqual (a b : option CertificateRequestCondition)
    : bool :=
  bool_decide (a = b).

Section Approval.
(** [certmanager.GroupName], declared outside the sources at hand. *)
Variable certmanager_GroupName : string.
(** [a.sarclient.Create]. *)
Variable sarclient_Create :
  SubjectAccessReview -> SubjectAccessReview + error.

(** [reviewRequest] with the access reviews it created. *)
Definition reviewRequest (req : AdmissionRequest)
    (cr : CertificateRequest) (verb : string)
    : (bool * option error) * list SubjectAccessReview :=
  let extra : gmap string (list string) :=
    (fun v => v) <$> Extra (req_UserInfo req) in
  let review :=
    {| sar_Spec :=
         {| sar_User := Username (req_UserInfo req);
            sar_Groups := Groups (req_UserInfo req);
            sar_Extra := extra;
            sar_UID := UID (req_UserInfo req);
            sar_ResourceAttributes := Some
              {| ra_Group := certmanager_GroupName;
                 ra_Resource := "signers";
                 ra_Name :=
                   filepath.Join [Group (IssuerRef (Spec cr));
                                  Kind (IssuerRef (Spec cr))];
                 ra_Namespace := Namespace cr;
                 ra_Verb := verb |} |};
       sar_Status := {| Allowed := false |} |} in
  match sarclient_Create review with
  | inr err => ((false, Some err), [review])
  | inl resp => ((Allowed (sar_Status resp), None), [review])
  end.

Definition Review (req : AdmissionRequest)
    (oldCR newCR : CertificateRequest)
    : list field_Error * list SubjectAccessReview :=
  let '((ok, err), reviews) :=
    if negb (reflect_DeepEqual
               (apiutil.GetCertificateRequestCondition
                  (Conditions (Status_ oldCR))
                  CertificateRequestConditionApproved)
               (apiutil.GetCertificateRequestCondition
                  (Conditions (Status_ newCR))
                  CertificateRequestConditionApproved))
    then reviewRequest req newCR "approve"
    else if negb (reflect_DeepEqual
                    (apiutil.GetCertificateRequestCondition
                       (Conditions (Status_ oldCR))
                       CertificateRequestConditionDenied)
                    (apiutil.GetCertificateRequestCondition
                       (Conditions (Status_ newCR))
                       CertificateRequestConditionDenied))
    then reviewRequest req newCR "deny"
    else ((true, None), [])
  in
  match err with
  | Some err =>
      ([field_InternalError "status.conditions" err], reviews)
  | None =>
      if negb ok then
        ([field_Forbidden "status.conditions"
            "user does not have permissions to set approved/deny conditions"],
         reviews)
      else ([], reviews)
  end.

End Approval.

Definition review_Verb (r : SubjectAccessReview) : option string :=
  ra_Verb <$> sar_ResourceAttributes (sar_Spec r).

Definition review_Name (r : SubjectAccessReview) : option string :=
  ra_Name <$> sar_ResourceAttributes (sar_Spec r).

End subjectaccessreview.

(** ** Issuer resolution *)

Module issuers.

(** Lookups made on the listers. *)
Inductive Lookup :=
  | Issuers_Get (ns name : string)
  | ClusterIssuers_Get (name : string).

Record getterImpl := {
  issuerLister : string -> string -> GenericIssuer + error;
(** nil when the deployment has no cluster-issuer lister *)
clusterIssuerLister : option (string -> GenericIssuer + error)
  }.

Section Getter.
(** [cmapi.IssuerKind] and [cmapi.ClusterIssuerKind], declared outside the
    sources at hand. *)
Variables IssuerKind ClusterIssuerKind : string.

Definition Issuer (h : getterImpl) (ref : ObjectReference) (ns : string)
    : (GenericIssuer + error) * list Lookup :=
  if bool_decide (Kind ref = EmptyString) || bool_decide (Kind ref = IssuerKind)
  then (issuerLister h ns (Name ref), [Issuers_Get ns (Name ref)])
  else if bool_decide (Kind ref = ClusterIssuerKind) then
    (* handle edge case where the ClusterIssuerLister is not set. *)
    match clusterIssuerLister h with
    | None =>
        (inr (fmt_Errorf
                "cannot get ClusterIssuer named %q as cert-manager is scoped to a single namespace"
                [Name ref]), [])
    | Some lister => (lister (Name ref), [ClusterIssuers_Get (Name ref)])
    end
  else
    (inr (fmt_Errorf
            "invalid value %q for issuerRef.kind. Must be empty, %q or %q"
            [Kind ref; IssuerKind; ClusterIssuerKind]), []).

End Getter.

End issuers.

(** ** Fixtures

    One concrete instance of the interfaces, after the controller's unit
    tests: a request with a CSR for common name [csr1], a URI and an IP
    address, certificates cut from it, a Ready issuer and a fake backend. *)

Module fixtures.
Import issuer certificaterequests subjectaccessreview issuers.

Definition B (s : string) : bytes := String.list_byte_of_string s.

(** A PEM block is the DER bytes behind the armour ["PEM:"]. *)
Definition fixture_pem_Decode (data : bytes) : option bytes :=
  match data with
  | Byte.x50 :: Byte.x45 :: Byte.x4d :: Byte.x3a :: der => Some der
  | _ => None
  end.

Definition csr_named (cn : string) (dns : list string)
    : x509_CertificateRequest :=
  {| csr_Subject_CommonName := cn; csr_DNSNames := dns;
     csr_URIs := ["http://example.com"];
     csr_IPAddresses := [B "8.8.8.8"] |}.

Definition nowTime : Time := 1600000000 * 1000000000.
Definition hour : Z := 3600 * 1000000000.

Definition cert_for (sn : Z) (cn : string) (dns : list string)
    (notAfter : Time) : x509_Certificate :=
  {| SerialNumber := sn; Subject_CommonName := cn; DNSNames := dns;
     URIs := ["http://example.com"]; IPAddresses := [B "8.8.8.8"];
     cert_NotAfter := notAfter |}.

Definition csr1 := csr_named "csr1" [].
Definition cert1 := cert_for 1 "csr1" [] (nowTime + 12 * hour).
Definition certExpired := cert_for 1 "csr1" [] (nowTime - 12 * hour).
Definition certTemporary :=
  cert_for staticTemporarySerialNumber "csr1" [] (nowTime + 12 * hour).
Definition certTemporaryExpired :=
  cert_for staticTemporarySerialNumber "csr1" [] (nowTime - 12 * hour).

Definition asn1_error : error := errors_New "asn1: syntax error".

Definition fixture_ParseCertificateRequest (der : bytes)
    : x509_CertificateRequest + error :=
  if bool_decide (der = B "csr1") then inl csr1 else inr asn1_error.

Definition fixture_ParseCertificate (der : bytes)
    : x509_Certificate + error :=
  if bool_decide (der = B "cert1") then inl cert1
  else if bool_decide (der = B "expired") then inl certExpired
  else if bool_decide (der = B "temporary") then inl certTemporary
  else if bool_decide (der = B "temporary-expired")
       then inl certTemporaryExpired
  else inr asn1_error.

Definition fixture_lib : GoLib :=
  {| pem_Decode := fixture_pem_Decode;
     x509_ParseCertificateRequest := fixture_ParseCertificateRequest;
     x509_ParseCertificate := fixture_ParseCertificate;
     fmt_Sprintf := fun format _ => format;
     time_Format := fun _ layout => layout;
     error_Error := fun _ => "error" |}.

Definition helpers_with
    (commonName : x509_CertificateRequest -> string) : Helpers :=
  {| CommonNameForCertificateRequest := commonName;
     DNSNamesForCertificateRequest := csr_DNSNames;
     URLsToString := fun urls => urls;
     IPAddressesToString := map String.string_of_list_byte;
     ValidateCertificateRequest := fun _ => [];
     ValidateCertificateRequestForIssuer := fun _ _ => [] |}.

Definition fixture_helpers : Helpers := helpers_with csr_Subject_CommonName.

Definition readyIssuer : GenericIssuer :=
  {| Issuer_Name := "test";
     Issuer_Conditions :=
       [ {| IssuerCondition_Type := IssuerConditionReady;
            IssuerCondition_Status := ConditionTrue |} ] |}.

Definition fakeIssuer : issuer.Interface :=
  {| Sign := fun _ =>
       (Some {| resp_Certificate := B "PEM:cert1"; resp_CA := [] |}, None) |}.

Definition exampleController : Controller :=
  {| clock_Now := nowTime;
     apiutil_Clock_Now := nowTime;
     helper_GetGenericIssuer := fun _ _ => inl readyIssuer;
     issuerFactory_IssuerFor := fun _ => inl fakeIssuer;
     CMClient_Update := fun cr => inl cr |}.

Definition lookup_error : error := errors_New "lister: cache not synced".
Definition conflict_error : error :=
  StatusError "Conflict" "the object has been modified".

(** The issuer lookup fails with an error that is not NotFound. *)
Definition lookupFailsController : Controller :=
  {| clock_Now := nowTime;
     apiutil_Clock_Now := nowTime;
     helper_GetGenericIssuer := fun _ _ => inr lookup_error;
     issuerFactory_IssuerFor := fun _ => inl fakeIssuer;
     CMClient_Update := fun cr => inl cr |}.

(** The issuer lookup and the store write both fail. *)
Definition allFailsController : Controller :=
  {| clock_Now := nowTime;
     apiutil_Clock_Now := nowTime;
     helper_GetGenericIssuer := fun _ _ => inr lookup_error;
     issuerFactory_IssuerFor := fun _ => inl fakeIssuer;
     CMClient_Update := fun _ => inr conflict_error |}.

(** The store rejects the write; everything else works. *)
Definition updateFailsController : Controller :=
  {| clock_Now := nowTime;
     apiutil_Clock_Now := nowTime;
     helper_GetGenericIssuer := fun _ _ => inl readyIssuer;
     issuerFactory_IssuerFor := fun _ => inl fakeIssuer;
     CMClient_Update := fun _ => inr conflict_error |}.

Definition emptyStatus : CertificateRequestStatus :=
  {| Conditions := []; Certificate := []; CA := []; NotAfter := None |}.

Definition request (csrPEM certPEM : bytes) : CertificateRequest :=
  {| ObjectMeta_Name := "test"; Namespace := "default-unit-test-ns";
     Spec := {| IssuerRef := {| Name := "test"; Kind := EmptyString; Group := EmptyString |};
                CSRPem := csrPEM; IsCA := false |};
     Status_ := set_Certificate certPEM [] emptyStatus |}.

(** The request of the unit tests: a CSR and no certificate yet. *)
Definition exampleCR := request (B "PEM:csr1") [].
Definition exampleNoCSR := request [] [].
Definition exampleSignedCR := request (B "PEM:csr1") (B "PEM:cert1").
Definition exampleNoPEM := request (B "not a CSR") [].
Definition exampleBadDER := request (B "PEM:garbage") [].

(** The signed request as a first round leaves it. *)
Definition readyCondition : CertificateRequestCondition :=
  {| Type_ := "Ready"; Status := ConditionTrue;
     LastTransitionTime := Some (nowTime - hour); Reason := "Ready";
     Message := "Certificate is up to date and has not expired" |}.

Definition exampleSettledCR : CertificateRequest :=
  set_Status
    {| Conditions := [readyCondition]; Certificate := B "PEM:cert1"; CA := [];
       NotAfter := Some (cert_NotAfter cert1) |}
    exampleSignedCR.

Definition exampleSignedExpiredCR := request (B "PEM:csr1") (B "PEM:expired").
Definition exampleTemporaryCR := request (B "PEM:csr1") (B "PEM:temporary").
Definition exampleTemporaryExpiredCR :=
  request (B "PEM:csr1") (B "PEM:temporary-expired").

Definition alice : AdmissionRequest :=
  {| req_UserInfo := {| Username := "alice"; UID := "42";
                        Groups := ["system:authenticated"]; Extra := ∅ |} |}.

Definition condition (ty : string) (st : ConditionStatus)
    : CertificateRequestCondition :=
  {| Type_ := ty; Status := st; LastTransitionTime := Some nowTime;
     Reason := "cert-manager.io"; Message := EmptyString |}.

Definition requestFor (group kind : string)
    (conds : list CertificateRequestCondition) : CertificateRequest :=
  {| ObjectMeta_Name := "test"; Namespace := "team-a";
     Spec := {| IssuerRef := {| Name := "ca"; Kind := kind; Group := group |};
                CSRPem := B "PEM:csr1"; IsCA := false |};
     Status_ := set_Conditions conds emptyStatus |}.

(** An access-check collaborator that allows nothing, and one that allows
    everything. *)
Definition denyAll (r : SubjectAccessReview) : SubjectAccessReview + error :=
  inl {| sar_Spec := sar_Spec r; sar_Status := {| Allowed := false |} |}.

Definition csrNoCommonName :=
  csr_named EmptyString ["a.example.com"; "b.example.com"].
Definition certA :=
  cert_for 1 "a.example.com" ["a.example.com"; "b.example.com"]
    (nowTime + 12 * hour).
Definition certB :=
  cert_for 1 "b.example.com" ["a.example.com"; "b.example.com"]
    (nowTime + 12 * hour).

Definition clusterIssuer : GenericIssuer :=
  {| Issuer_Name := "ca"; Issuer_Conditions := [] |}.

Definition bothListers : getterImpl :=
  {| issuerLister := fun _ _ => inl readyIssuer;
     clusterIssuerLister := Some (fun _ => inl clusterIssuer) |}.

Definition namespacedOnly : getterImpl :=
  {| issuerLister := fun _ _ => inl readyIssuer;
     clusterIssuerLister := None |}.

End fixtures.

(** ** Vocabulary of the statements *)

(** The request's CSR and certificate both decode: the CSR to [csr], the
    certificate to [crt]. *)
Definition decodes_to `{GoLib} (cr : CertificateRequest)
    (csr : x509_CertificateRequest) (crt : x509_Certificate) : Prop :=
  length (CSRPem (Spec cr)) <> 0%nat
  /\ (exists der, pem_Decode (CSRPem (Spec cr)) = Some der
                 /\ x509_ParseCertificateRequest der = inl csr)
  /\ length (Certificate (Status_ cr)) <> 0%nat
  /\ (exists der, pem_Decode (Certificate (Status_ cr)) = Some der
                 /\ x509_ParseCertificate der = inl crt).

(** The round gets as far as the signing decision: both validations pass,
    the issuer is found and Ready, and its backend [i] is built.  [crCopy]
    is the working copy after the status computation. *)
Definition reaches_signing `{Helpers} (c : Controller)
    (crCopy : CertificateRequest) (i : issuer.Interface) : Prop :=
  ValidateCertificateRequest crCopy = []
  /\ exists issuerObj,
       helper_GetGenericIssuer c (IssuerRef (Spec crCopy)) (Namespace crCopy)
         = inl issuerObj
       /\ ValidateCertificateRequestForIssuer crCopy issuerObj = []
       /\ apiutil.IssuerHasCondition issuerObj
            {| IssuerCondition_Type := IssuerConditionReady;
               IssuerCondition_Status := ConditionTrue |} = true
       /\ issuerFactory_IssuerFor c issuerObj = inl i.

(** The Ready condition of a status. *)
Definition Ready_condition (st : CertificateRequestStatus)
    : option CertificateRequestCondition :=
  apiutil.GetCertificateRequestCondition (Conditions st)
    CertificateRequestConditionReady.

(** The status already records, as far as its serialisation shows, that the
    certificate [crt] is valid for the request: NotAfter is serialised as
    the certificate's NotAfter is, and the Ready condition is True with the
    reason [Ready] and the standard message. *)
Definition records_valid_certificate (st : CertificateRequestStatus)
    (crt : x509_Certificate) : Prop :=
  json_metav1_Time (NotAfter st) = json_metav1_Time (Some (cert_NotAfter crt))
  /\ exists old,
       Ready_condition st = Some old
       /\ Status old = ConditionTrue
       /\ Reason old = "Ready"
       /\ Message old = "Certificate is up to date and has not expired".

(** ** The default approver ([approver.Controller.Reconcile]) *)

Module approver.

Definition ApprovedMessage : string :=
  "Certificate request has been approved by cert-manager.io".

(** [ctrl.Result]. *)
Record Result := { Requeue : bool; RequeueAfter : Z }.

Definition Result_zero : Result := {| Requeue := false; RequeueAfter := 0 |}.

(** [types.NamespacedName] of a [ctrl.Request]. *)
Record NamespacedName := { nn_Namespace : string; nn_Name : string }.

(** [client.IgnoreNotFound]. *)
Definition IgnoreNotFound (err : option error) : option error :=
  if IsNotFound err then None else err.

(** Calls of one reconciliation, in the order they are made. *)
Inductive Call : Type :=
  | Get_call (key : NamespacedName)
  | Status_Update_call (cr : CertificateRequest)
  | Event_call (eventtype reason message : string).

Definition is_Status_Update_call (c : Call) : bool :=
  match c with Status_Update_call _ => true | _ => false end.

Definition is_Event_call (c : Call) : bool :=
  match c with Event_call _ _ _ => true | _ => false end.

(** The [apiutil] predicates and the reason constants the approver reads
    are declared outside the sources at hand and are taken as parameters. *)
Class Predicates := {
  CertificateRequestIsApproved : CertificateRequest -> bool;
  CertificateRequestIsDenied : CertificateRequest -> bool;
  CertificateRequestReadyReason : CertificateRequest -> string;
  CertificateRequestReasonFailed : string;
  CertificateRequestReasonIssued : string
}.

(** The client of the controller and the reading of the condition store's
    clock. *)
Record Controller := {
  Client_Get : NamespacedName -> CertificateRequest + error;
  Status_Update : CertificateRequest -> option error;
  Clock_Now : Time
}.

Section Reconcile.
Context `{Predicates}.
Variable c : Controller.

(** [Reconcile]: the result, the error, and the calls made. *)
Definition Reconcile (req : NamespacedName)
    : (Result * option error) * list Call :=
  (* Fetch the CertificateRequest resource being reconciled *)
  match Client_Get c req with
  | inr err => ((Result_zero, IgnoreNotFound (Some err)), [Get_call req])
  | inl cr =>
      if CertificateRequestIsApproved cr
         || CertificateRequestIsDenied cr
         || bool_decide (CertificateRequestReadyReason cr
                         = CertificateRequestReasonFailed)
         || bool_decide (CertificateRequestReadyReason cr
                         = CertificateRequestReasonIssued)
      then ((Result_zero, None), [Get_call req])
      else
        (* Update the CertificateRequest approved condition to true. *)
        let cr :=
          apiutil.SetCertificateRequestCondition (Clock_Now c) cr
            CertificateRequestConditionApproved ConditionTrue
            "cert-manager.io" ApprovedMessage in
        match Status_Update c cr with
        | Some err =>
            ((Result_zero, Some err), [Get_call req; Status_Update_call cr])
        | None =>
            ((Result_zero, None),
             [Get_call req; Status_Update_call cr;
              Event_call corev1_EventTypeNormal "cert-manager.io"
                ApprovedMessage])
        end
  end.

End Reconcile.
End approver.

(** ** Helpers of the end-to-end tests ([helper.Helper]) *)

Module helper.

(** [x509.KeyUsage] is a bit mask, [x509.ExtKeyUsage] an enumeration; both
    are integers. *)
Definition x509_KeyUsageKeyAgreement : Z := Z.shiftl 1 4.
Definition x509_ExtKeyUsageServerAuth : Z := 1.
Definition x509_ExtKeyUsageClientAuth : Z := 2.

(** [sort.SliceStable] with [less] the order of the integers. *)
Definition sort_SliceStable (l : list Z) : list Z := merge_sort Z.le l.

(** [for i := range aEKU { if aEKU[i] != bEKU[i] { return false } }] on
    slices of one length. *)
Fixpoint same_at_every_index (aEKU bEKU : list Z) : bool :=
  match aEKU, bEKU with
  | a :: aEKU', b :: bEKU' =>
      if bool_decide (a <> b) then false else same_at_every_index aEKU' bEKU'
  | _, _ => true
  end.

(** [keyUsagesMatch].  The two slices are sorted in place; the result is the
    answer alone. *)
Definition keyUsagesMatch (aKU : Z) (aEKU : list Z) (bKU : Z)
    (bEKU : list Z) : bool :=
  if bool_decide (aKU <> bKU) then false
  else if bool_decide (length aEKU <> length bEKU) then false
  else same_at_every_index (sort_SliceStable aEKU) (sort_SliceStable bEKU).

Section RangeOrder.
(** The order in which [range] visits the entries of a map is not fixed by
    the language; it is a parameter. *)
Variable range_map : gmap Z bool -> list (Z * bool).

(** [deduplicateExtKeyUsages]. *)
Definition deduplicateExtKeyUsages (us : list Z) : list Z :=
  let extKeyUsagesMap : gmap Z bool :=
    foldl (fun m e => <[e:=true]> m) ∅ us in
  foldl (fun (us : list Z) '(e, ok) => if ok : bool then (us ++ [e])%list else us)
    [] (range_map extKeyUsagesMap).

End RangeOrder.

(** What [defaultKeyUsagesToAdd] reads of an [IssuerSpec]: which of the
    issuer configurations are set. *)
Record IssuerSpec := {
  ACME_set : bool;
  Vault_set : bool;
  Venafi_set : bool
}.

Record CertificateCondition := {
  cc_Type : string;
  cc_Status : ConditionStatus;
  cc_Reason : string;
  cc_Message : string
}.

(** The client calls of the helper. *)
Record Helper := {
  ClusterIssuers_Get : string -> IssuerSpec + error;
  Issuers_Get : string -> string -> IssuerSpec + error;
  (* the conditions of the named Certificate *)
  Certificates_Get : string -> string -> list CertificateCondition + error
}.

Inductive Lookup :=
  | ClusterIssuer_lookup (name : string)
  | Issuer_lookup (ns name : string)
  | Certificate_lookup (ns name : string).

Section Helper.
Context `{GoLib}.
(** The [%v] rendering of an object reference. *)
Variable fmt_v_ObjectReference : ObjectReference -> string.
Variable h : Helper.

(** [defaultKeyUsagesToAdd]: key usages, extended key usages and error, with
    the lookup made. *)
Definition defaultKeyUsagesToAdd (ns : string) (issuerRef : ObjectReference)
    : (Z * list Z * option error) * list Lookup :=
  let found :=
    if bool_decide (Kind issuerRef = "ClusterIssuer") then
      (match ClusterIssuers_Get h (Name issuerRef) with
       | inr err =>
           inr (fmt_Errorf "failed to find referenced ClusterIssuer %v: %s"
                  [fmt_v_ObjectReference issuerRef; error_Error err])
       | inl issuerSpec => inl issuerSpec
       end, [ClusterIssuer_lookup (Name issuerRef)])
    else
      (match Issuers_Get h ns (Name issuerRef) with
       | inr err =>
           inr (fmt_Errorf "failed to find referenced Issuer %v: %s"
                  [fmt_v_ObjectReference issuerRef; error_Error err])
       | inl issuerSpec => inl issuerSpec
       end, [Issuer_lookup ns (Name issuerRef)]) in
  match fst found with
  | inr err => ((0, [], Some err), snd found)
  | inl issuerSpec =>
      let keyUsages := 0 in
      let extKeyUsages := [] in
      (* Vault and ACME issuers will add server auth and client auth extended
         key usages by default *)
      let extKeyUsages :=
        if ACME_set issuerSpec || Vault_set issuerSpec
        then (extKeyUsages
              ++ [x509_ExtKeyUsageServerAuth; x509_ExtKeyUsageClientAuth])%list
        else extKeyUsages in
      (* Vault issuers will add key agreement key usage *)
      let keyUsages :=
        if Vault_set issuerSpec
        then Z.lor keyUsages x509_KeyUsageKeyAgreement else keyUsages in
      (* Venafi issue adds server auth key usage *)
      let extKeyUsages :=
        if Venafi_set issuerSpec
        then (extKeyUsages ++ [x509_ExtKeyUsageServerAuth])%list
        else extKeyUsages in
      ((keyUsages, extKeyUsages, None), snd found)
  end.

(** The first condition of the type, as the loop of
    [wrapErrorWithCertificateStatusCondition] finds it. *)
Fixpoint first_condition (conds : list CertificateCondition)
    (conditionType : string) : option CertificateCondition :=
  match conds with
  | [] => None
  | cond :: rest =>
      if bool_decide (cc_Type cond = conditionType) then Some cond
      else first_condition rest conditionType
  end.

Definition ConditionStatus_string (s : ConditionStatus) : string :=
  match s with
  | ConditionTrue => "True"
  | ConditionFalse => "False"
  | ConditionUnknown => "Unknown"
  end.

(** [wrapErrorWithCertificateStatusCondition], with the lookup made. *)
Definition wrapErrorWithCertificateStatusCondition (pollErr : option error)
    (ns name : string) (conditionType : string)
    : option error * list Lookup :=
  match pollErr with
  | None => (None, [])
  | Some perr =>
      match Certificates_Get h ns name with
      | inr _ => (pollErr, [Certificate_lookup ns name])
      | inl conds =>
          match first_condition conds conditionType with
          | Some cond =>
              (Some (fmt_Errorf
                       "%s: Last Status: '%s' Reason: '%s', Message: '%s'"
                       [error_Error perr; ConditionStatus_string (cc_Status cond);
                        cc_Reason cond; cc_Message cond]),
               [Certificate_lookup ns name])
          | None => (pollErr, [Certificate_lookup ns name])
          end
      end
  end.

End Helper.
End helper.

(** ** Vocabulary of the further statements *)

(** The event [sign] records for an issued certificate. *)
Definition is_CertIssued_event (c : Call) : bool :=
  match c with
  | Recorder_Event _ reason _ => bool_decide (reason = "CertIssued")
  | _ => false
  end.

(** What the default approver decides on, and the request it submits. *)
Module approver_terms.
Import approver.

Section Terms.
Context `{Predicates}.
Variable c : Controller.

(** The request is settled: approved, denied, failed or issued. *)
Definition settled (cr : CertificateRequest) : bool :=
  CertificateRequestIsApproved cr
  || CertificateRequestIsDenied cr
  || bool_decide (CertificateRequestReadyReason cr
                  = CertificateRequestReasonFailed)
  || bool_decide (CertificateRequestReadyReason cr
                  = CertificateRequestReasonIssued).

Definition approve (cr : CertificateRequest) : CertificateRequest :=
  apiutil.SetCertificateRequestCondition (Clock_Now c) cr
    CertificateRequestConditionApproved ConditionTrue
    "cert-manager.io" ApprovedMessage.

End Terms.
End approver_terms.

(** ** Further fixtures

    Requests whose certificate does not decode, helpers and issuers that
    reject or fail, access-check collaborators, a client for the approver
    and one for the helpers of the end-to-end tests. *)

Module sync_fixtures.
Import issuer certificaterequests fixtures.

Definition exampleGarbageCertCR := request (B "PEM:csr1") (B "not a certificate").
Definition exampleBadCertDERCR := request (B "PEM:csr1") (B "PEM:garbage").

Definition rejecting_helpers : Helpers :=
  {| CommonNameForCertificateRequest := csr_Subject_CommonName;
     DNSNamesForCertificateRequest := csr_DNSNames;
     URLsToString := fun urls => urls;
     IPAddressesToString := map String.string_of_list_byte;
     ValidateCertificateRequest :=
       fun _ => [field_Invalid "spec.usages" "unknown usage"];
     ValidateCertificateRequestForIssuer := fun _ _ => [] |}.

Definition issuer_rejecting_helpers : Helpers :=
  {| CommonNameForCertificateRequest := csr_Subject_CommonName;
     DNSNamesForCertificateRequest := csr_DNSNames;
     URLsToString := fun urls => urls;
     IPAddressesToString := map String.string_of_list_byte;
     ValidateCertificateRequest := fun _ => [];
     ValidateCertificateRequestForIssuer :=
       fun _ _ => [field_Invalid "spec.isCA" "issuer cannot sign CAs"] |}.

Definition notFound_error : error :=
  StatusError "NotFound" "issuer.certmanager.k8s.io test not found".

Definition controller_with
    (getIssuer : GenericIssuer + error)
    (issuerFor : issuer.Interface + error) : Controller :=
  {| clock_Now := nowTime;
     apiutil_Clock_Now := nowTime;
     helper_GetGenericIssuer := fun _ _ => getIssuer;
     issuerFactory_IssuerFor := fun _ => issuerFor;
     CMClient_Update := fun cr => inl cr |}.

Definition pendingIssuer : GenericIssuer :=
  {| Issuer_Name := "test";
     Issuer_Conditions :=
       [ {| IssuerCondition_Type := IssuerConditionReady;
            IssuerCondition_Status := ConditionFalse |} ] |}.

Definition init_error : error := errors_New "no signing key".
Definition sign_error : error := errors_New "backend unavailable".

Definition failingIssuer : issuer.Interface :=
  {| Sign := fun _ => (None, Some sign_error) |}.
Definition silentIssuer : issuer.Interface :=
  {| Sign := fun _ => (None, None) |}.

(** A certificate for another common name than the CSR's. *)
Definition certOther := cert_for 7 "csr2" [] (nowTime + 12 * hour).
Definition fixture_lib_other : GoLib :=
  {| pem_Decode := fixture_pem_Decode;
     x509_ParseCertificateRequest := fixture_ParseCertificateRequest;
     x509_ParseCertificate := fun _ => inl certOther;
     fmt_Sprintf := fun format _ => format;
     time_Format := fun _ layout => layout;
     error_Error := fun _ => "error" |}.
End sync_fixtures.

Module review_fixtures.
Import subjectaccessreview fixtures.

Definition allowAll (r : SubjectAccessReview) : SubjectAccessReview + error :=
  inl {| sar_Spec := sar_Spec r; sar_Status := {| Allowed := true |} |}.

Definition webhook_error : error := errors_New "connection refused".

Definition unreachable (r : SubjectAccessReview) : SubjectAccessReview + error :=
  inr webhook_error.

(** The access review for alice approving a request of the namespace
    [team-a] that refers to an Issuer of the group [cert-manager.io]. *)
Definition approveReview : SubjectAccessReview :=
  {| sar_Spec :=
       {| sar_ResourceAttributes := Some
            {| ra_Namespace := "team-a"; ra_Verb := "approve";
               ra_Group := "cert-manager.io"; ra_Resource := "signers";
               ra_Name := "cert-manager.io/Issuer" |};
          sar_User := "alice";
          sar_Groups := ["system:authenticated"];
          sar_Extra := ∅;
          sar_UID := "42" |};
     sar_Status := {| Allowed := false |} |}.

End review_fixtures.

Module approver_fixtures.
Import approver fixtures.

(** The predicates of [apiutil] as the condition store suggests them: a
    request is approved (denied) when it holds the condition with status
    True, and its Ready reason is the reason of its Ready condition. *)
Definition has_True (cr : CertificateRequest) (ty : string) : bool :=
  match apiutil.GetCertificateRequestCondition (Conditions (Status_ cr)) ty with
  | Some cond => bool_decide (Status cond = ConditionTrue)
  | None => false
  end.

Definition fixture_predicates : Predicates :=
  {| CertificateRequestIsApproved := fun cr => has_True cr "Approved";
     CertificateRequestIsDenied := fun cr => has_True cr "Denied";
     CertificateRequestReadyReason := fun cr =>
       match Ready_condition (Status_ cr) with
       | Some cond => Reason cond
       | None => EmptyString
       end;
     CertificateRequestReasonFailed := "Failed";
     CertificateRequestReasonIssued := "Issued" |}.

Definition key : NamespacedName :=
  {| nn_Namespace := "team-a"; nn_Name := "test" |}.

Definition pendingCR := requestFor "cert-manager.io" "Issuer" [].
Definition approvedCR :=
  requestFor "cert-manager.io" "Issuer" [condition "Approved" ConditionTrue].

Definition forbidden_error : error :=
  StatusError "Forbidden" "cannot update certificaterequests/status".

Definition client_with (found : CertificateRequest + error)
    (updated : option error) : Controller :=
  {| Client_Get := fun _ => found;
     Status_Update := fun _ => updated;
     Clock_Now := nowTime |}.

End approver_fixtures.

Module helper_fixtures.
Import helper.

Definition vaultIssuer : IssuerSpec :=
  {| ACME_set := false; Vault_set := true; Venafi_set := false |}.
Definition venafiIssuer : IssuerSpec :=
  {| ACME_set := false; Vault_set := false; Venafi_set := true |}.

Definition lookup_failed : error := errors_New "issuer not found".

Definition fixture_Helper : Helper :=
  {| ClusterIssuers_Get := fun _ => inl vaultIssuer;
     Issuers_Get := fun _ name =>
       if bool_decide (name = "venafi") then inl venafiIssuer
       else inr lookup_failed;
     Certificates_Get := fun _ _ => inr lookup_failed |}.

Definition fixture_fmt_v (ref : ObjectReference) : string := Name ref.

Definition poll_timeout : error := errors_New "timed out waiting for the condition".

(** A client whose Certificate holds an Issuing condition and, after it, a
    Ready condition that is False. *)
Definition issuingCondition : CertificateCondition :=
  {| cc_Type := "Issuing"; cc_Status := ConditionTrue;
     cc_Reason := "Renewing"; cc_Message := "Renewing certificate" |}.
Definition notReadyCondition : CertificateCondition :=
  {| cc_Type := "Ready"; cc_Status := ConditionFalse;
     cc_Reason := "Pending"; cc_Message := "Waiting for the issuer" |}.

Definition Helper_with_certificate : Helper :=
  {| ClusterIssuers_Get := fun _ => inl vaultIssuer;
     Issuers_Get := fun _ _ => inl venafiIssuer;
     Certificates_Get := fun _ _ =>
       inl [issuingCondition; notReadyCondition] |}.

Definition issuerRef (kind name : string) : ObjectReference :=
  {| Name := name; Kind := kind; Group := "cert-manager.io" |}.

End helper_fixtures.

(** * Properties *)

Module SyncFacts.
Import issuer certificaterequests.

Section Round.
Context `{GoLib} `{Helpers}.
Variable c : Controller.

(** A round whose body fails before the working copy is written returns the
    body's error: the deferred write finds equal serialised statuses and
    issues no Update. *)
Lemma Sync_body_early (cr : CertificateRequest) (err : option error) :
  Sync_body c cr {| crCopy := cr; calls := [IncrementSyncCallCount] |}
    = (err, {| crCopy := cr; calls := [IncrementSyncCallCount] |}) ->
  Sync c cr = (err, {| crCopy := cr; calls := [IncrementSyncCallCount] |}).
Proof.
  intros Hbody. unfold Sync, Sync_round, bind, call. cbn [app crCopy calls].
  rewrite Hbody. unfold updateCertificateStatus, bind, get_cr, ret.
  cbn [crCopy]. rewrite bool_decide_eq_true_2 by reflexivity. reflexivity.
Qed.

Lemma Sync_no_CSR (cr : CertificateRequest) :
  length (CSRPem (Spec cr)) = 0%nat ->
  Sync c cr
    = (Some (errors_New errorCertificateSigningRequestNotFound),
       {| crCopy := cr; calls := [IncrementSyncCallCount] |}).
Proof.
  intros Hlen. apply Sync_body_early. unfold Sync_body.
  rewrite bool_decide_eq_true_2 by exact Hlen. reflexivity.
Qed.

Lemma Sync_CSR_no_PEM (cr : CertificateRequest) :
  length (CSRPem (Spec cr)) <> 0%nat ->
  pem_Decode (CSRPem (Spec cr)) = None ->
  Sync c cr
    = (Some (errors_New errorCertificateSigningRequestParse),
       {| crCopy := cr; calls := [IncrementSyncCallCount] |}).
Proof.
  intros Hlen Hpem. apply Sync_body_early. unfold Sync_body.
  rewrite bool_decide_eq_false_2 by exact Hlen. rewrite Hpem. reflexivity.
Qed.

Lemma Sync_CSR_bad_DER (cr : CertificateRequest) (der : bytes) (e : error) :
  length (CSRPem (Spec cr)) <> 0%nat ->
  pem_Decode (CSRPem (Spec cr)) = Some der ->
  x509_ParseCertificateRequest der = inr e ->
  Sync c cr
    = (Some e, {| crCopy := cr; calls := [IncrementSyncCallCount] |}).
Proof.
  intros Hlen Hpem Hder. apply Sync_body_early. unfold Sync_body.
  rewrite bool_decide_eq_false_2 by exact Hlen. rewrite Hpem, Hder.
  reflexivity.
Qed.

(** A request with a well-formed CSR and no certificate: the round stops
    at the certificate check with [CertNotFound]; neither the issuer
    helper nor the backend is called and nothing is written. *)
Lemma Sync_no_certificate (cr : CertificateRequest) (der : bytes)
    (csr : x509_CertificateRequest) :
  length (CSRPem (Spec cr)) <> 0%nat ->
  pem_Decode (CSRPem (Spec cr)) = Some der ->
  x509_ParseCertificateRequest der = inl csr ->
  length (Certificate (Status_ cr)) = 0%nat ->
  Sync c cr
    = (Some (errors_New errorCertificateNotFound),
       {| crCopy := cr; calls := [IncrementSyncCallCount] |}).
Proof.
  intros Hlen Hpem Hder Hcert. apply Sync_body_early. unfold Sync_body.
  rewrite bool_decide_eq_false_2 by exact Hlen. rewrite Hpem, Hder.
  rewrite bool_decide_eq_true_2 by exact Hcert. reflexivity.
Qed.

Lemma Sync_unfold (cr : CertificateRequest) :
  Sync c cr =
    let '(err, s) := Sync_body_from c cr in
    let '(saved, s') := updateCertificateStatus c cr s in
    (match snd saved with
     | Some saveErr => NewAggregate [Some saveErr; err]
     | None => err
     end, s').
Proof.
  unfold Sync, Sync_round, Sync_body_from, bind, call, ret.
  cbn [app crCopy calls].
  destruct (Sync_body c cr _) as [err s].
  destruct (updateCertificateStatus c cr s) as [saved s'].
  destruct (snd saved); reflexivity.
Qed.

Lemma updateCertificateStatus_cases (old : CertificateRequest) (s : RoundState) :
  (json_Marshal (Status_ old) = json_Marshal (Status_ (crCopy s))
   /\ updateCertificateStatus c old s = ((None, None), s))
  \/ (json_Marshal (Status_ old) <> json_Marshal (Status_ (crCopy s))
      /\ exists saved,
           updateCertificateStatus c old s
             = (saved, {| crCopy := crCopy s;
                          calls := calls s ++ [Update_call (crCopy s)] |})
           /\ snd saved = match CMClient_Update c (crCopy s) with
                          | inl _ => None
                          | inr err => Some err
                          end).
Proof.
  unfold updateCertificateStatus, bind, get_cr, call, ret. cbn [crCopy calls].
  case_bool_decide as Hjson.
  - left. split; [assumption | reflexivity].
  - right. split; [assumption|].
    destruct (CMClient_Update c (crCopy s)); eexists; split; reflexivity.
Qed.

Lemma Sync_crCopy (cr : CertificateRequest) :
  crCopy (snd (Sync c cr)) = crCopy (snd (Sync_body_from c cr)).
Proof.
  rewrite Sync_unfold. destruct (Sync_body_from c cr) as [err s].
  destruct (updateCertificateStatus_cases cr s)
    as [[_ ->] | [_ (saved & -> & _)]]; [reflexivity|].
  destruct (snd saved); reflexivity.
Qed.

Lemma Sync_sign_calls (cr : CertificateRequest) :
  filter is_Sign_call (calls (snd (Sync c cr)))
    = filter is_Sign_call (calls (snd (Sync_body_from c cr))).
Proof.
  rewrite Sync_unfold. destruct (Sync_body_from c cr) as [err s].
  destruct (updateCertificateStatus_cases cr s)
    as [[_ ->] | [_ (saved & -> & _)]]; [reflexivity|].
  destruct (snd saved); cbn [snd calls]; rewrite filter_app; apply app_nil_r.
Qed.

Lemma certificateMatchesSpec_any_request (cr cr' : CertificateRequest)
    (csr : x509_CertificateRequest) (crt : x509_Certificate) :
  certificateMatchesSpec cr csr crt = certificateMatchesSpec cr' csr crt.
Proof. reflexivity. Qed.

Lemma setCertificateRequestStatus_Spec (cr : CertificateRequest)
    (csr : x509_CertificateRequest) (cert : option x509_Certificate) :
  Spec (setCertificateRequestStatus c cr csr cert) = Spec cr
  /\ Namespace (setCertificateRequestStatus c cr csr cert) = Namespace cr.
Proof.
  unfold setCertificateRequestStatus. destruct cert as [crt|]; [|split; reflexivity].
  destruct (certificateMatchesSpec _ csr crt) as [matches matchErrs].
  destruct (isTemporaryCertificate _); [split; reflexivity|].
  destruct (time_Before _ _); [split; reflexivity|].
  destruct (negb matches); split; reflexivity.
Qed.

Lemma sign_run (i : issuer.Interface) (s : RoundState) :
  exists crt ca tail,
    snd (sign i s)
      = {| crCopy := set_Status (set_Certificate crt ca (Status_ (crCopy s)))
                       (crCopy s);
           calls := calls s ++ Sign_call (crCopy s) :: tail |}
    /\ filter is_Sign_call tail = []
    /\ (forall resp, Sign i (crCopy s) = (Some resp, None) ->
          (0 < length (resp_Certificate resp))%nat ->
          crt = resp_Certificate resp /\ ca = resp_CA resp)
    /\ fst (sign i s) = snd (Sign i (crCopy s))
    /\ filter is_Update_call tail = [].
Proof.
  unfold sign, bind, get_cr, call, ret, modify_cr. cbn [crCopy calls].
  destruct (Sign i (crCopy s)) as [[resp|] [err|]] eqn:Hsign; cbn [fst snd].
  1, 3, 4: exists (Certificate (Status_ (crCopy s))), (CA (Status_ (crCopy s))), [];
    (split; [destruct s as [[? ? ? []] ?]; reflexivity|]);
    (split; [reflexivity|]); (split; [|split; reflexivity]); intros ? [=].
  case_bool_decide as Hlen; cbn [fst snd crCopy calls].
  - exists (resp_Certificate resp), (resp_CA resp),
      [Recorder_Event corev1_EventTypeNormal successCertificateIssued
         "Certificate issued successfully"].
    split; [rewrite <- app_assoc; reflexivity|].
    split; [reflexivity|]. split; [|split; reflexivity].
    intros ? [= <-] _. split; reflexivity.
  - exists (Certificate (Status_ (crCopy s))), (CA (Status_ (crCopy s))), [].
    split; [destruct s as [[? ? ? []] ?]; reflexivity|].
    split; [reflexivity|]. split; [|split; reflexivity].
    intros ? [= <-] ?. lia.
Qed.

Ltac decoded Hdec :=
  destruct Hdec as (Hlen & (der & Hpem & Hcsr) & Hlen' & (der' & Hpem' & Hcrt));
  unfold Sync_body_from, Sync_body;
  rewrite (bool_decide_eq_false_2 _ Hlen), Hpem, Hcsr,
    (bool_decide_eq_false_2 _ Hlen'), Hpem', Hcrt;
  cbv beta iota zeta
    delta [bind modify_cr get_cr call ret bad_config Recorder_Eventf
           crCopy calls app].

Lemma Sync_body_reaches_signing (cr : CertificateRequest)
    (csr : x509_CertificateRequest) (crt : x509_Certificate)
    (i : issuer.Interface) :
  decodes_to cr csr crt ->
  reaches_signing c (setCertificateRequestStatus c cr csr (Some crt)) i ->
  exists pre,
    filter is_Sign_call pre = []
    /\ Sync_body_from c cr
       = if isTemporaryCertificate (Some crt)
            || negb (fst (certificateMatchesSpec cr csr crt))
         then sign i {| crCopy := setCertificateRequestStatus c cr csr (Some crt);
                        calls := pre |}
         else (None, {| crCopy := setCertificateRequestStatus c cr csr (Some crt);
                        calls := pre |}).
Proof.
  intros Hdec (Hval & issuerObj & Hget & Hval' & Hready & Hfor).
  decoded Hdec.
  rewrite Hval, Hget, Hval', Hready, Hfor.
  rewrite !bool_decide_eq_false_2 by (cbn; lia).
  cbn [negb].
  eexists. split; [|
    destruct (isTemporaryCertificate (Some crt)); cbn [orb]; [reflexivity|];
    rewrite (certificateMatchesSpec_any_request _ cr);
    destruct (certificateMatchesSpec cr csr crt) as [[] ?]; reflexivity].
  reflexivity.
Qed.

Lemma Sync_body_shape (cr : CertificateRequest)
    (csr : x509_CertificateRequest) (crt : x509_Certificate) :
  decodes_to cr csr crt ->
  exists pre,
    filter is_Sign_call pre = []
    /\ ((exists err,
           Sync_body_from c cr
             = (err, {| crCopy := setCertificateRequestStatus c cr csr (Some crt);
                        calls := pre |}))
        \/ (exists i,
              isTemporaryCertificate (Some crt)
                || negb (fst (certificateMatchesSpec cr csr crt)) = true
              /\ Sync_body_from c cr
                 = sign i {| crCopy := setCertificateRequestStatus c cr csr (Some crt);
                             calls := pre |})).
Proof.
  intros Hdec. decoded Hdec.
  set (crCopy1 := setCertificateRequestStatus c cr csr (Some crt)).
  case_bool_decide; [eexists; split; [|left; eexists; reflexivity]; reflexivity|].
  destruct (helper_GetGenericIssuer c _ _) as [issuerObj|err].
  2: { destruct (IsNotFound (Some err));
       (eexists; split; [|left; eexists; reflexivity]; reflexivity). }
  case_bool_decide; [eexists; split; [|left; eexists; reflexivity]; reflexivity|].
  destruct (apiutil.IssuerHasCondition issuerObj _); cbn [negb];
    [|eexists; split; [|left; eexists; reflexivity]; reflexivity].
  destruct (issuerFactory_IssuerFor c issuerObj) as [i|err];
    [|eexists; split; [|left; eexists; reflexivity]; reflexivity].
  set (pre := [IncrementSyncCallCount;
               GetGenericIssuer_call (IssuerRef (Spec crCopy1))
                 (Namespace crCopy1);
               IssuerFor_call issuerObj]).
  destruct (isTemporaryCertificate (Some crt)) eqn:Htemp.
  { exists pre. split; [reflexivity|]. right. exists i. split; reflexivity. }
  rewrite (certificateMatchesSpec_any_request _ cr).
  destruct (certificateMatchesSpec cr csr crt) as [[] matchErrs]; cbn [negb fst orb].
  - exists pre. split; [reflexivity|]. left. eexists. reflexivity.
  - exists pre. split; [reflexivity|]. right. exists i. split; reflexivity.
Qed.

Lemma GetCondition_setCondition (now : Time)
    (conds : list CertificateRequestCondition) (ty : string)
    (st : ConditionStatus) (reason message : string) :
  exists ltt,
    apiutil.GetCertificateRequestCondition
      (apiutil.setCondition now conds ty st reason message) ty
    = Some {| Type_ := ty; Status := st; LastTransitionTime := ltt;
              Reason := reason; Message := message |}.
Proof.
  induction conds as [|cond rest IH]; cbn.
  - rewrite bool_decide_eq_true_2 by reflexivity. eexists; reflexivity.
  - case_bool_decide as Hty; cbn.
    + rewrite bool_decide_eq_true_2 by reflexivity. eexists; reflexivity.
    + rewrite bool_decide_eq_false_2 by exact Hty. exact IH.
Qed.

Lemma setCondition_same (now : Time)
    (conds : list CertificateRequestCondition) (cond : CertificateRequestCondition) :
  apiutil.GetCertificateRequestCondition conds (Type_ cond) = Some cond ->
  apiutil.setCondition now conds (Type_ cond) (Status cond) (Reason cond)
    (Message cond) = conds.
Proof.
  induction conds as [|cond' rest IH]; cbn; [discriminate|].
  case_bool_decide as Hty.
  - intros [= ->]. rewrite bool_decide_eq_true_2 by reflexivity.
    destruct cond; reflexivity.
  - intros Hget. rewrite IH by exact Hget. reflexivity.
Qed.

(** What the status computation leaves on the working copy, by case. *)
Lemma setCertificateRequestStatus_temporary (cr : CertificateRequest)
    (csr : x509_CertificateRequest) (crt : x509_Certificate) :
  isTemporaryCertificate (Some crt) = true ->
  NotAfter (Status_ (setCertificateRequestStatus c cr csr (Some crt))) = None
  /\ exists ltt,
       Ready_condition (Status_ (setCertificateRequestStatus c cr csr (Some crt)))
       = Some {| Type_ := CertificateRequestConditionReady;
                 Status := ConditionFalse; LastTransitionTime := ltt;
                 Reason := "TemporaryCertificate";
                 Message := "Certificate issuance in progress. Temporary certificate issued." |}.
Proof.
  intros Htemp. unfold setCertificateRequestStatus, Ready_condition.
  destruct (certificateMatchesSpec _ csr crt) as [matches matchErrs].
  rewrite Htemp. cbn. split; [reflexivity|]. apply GetCondition_setCondition.
Qed.

Lemma setCertificateRequestStatus_expired (cr : CertificateRequest)
    (csr : x509_CertificateRequest) (crt : x509_Certificate) :
  isTemporaryCertificate (Some crt) = false ->
  time_Before (cert_NotAfter crt) (clock_Now c) = true ->
  NotAfter (Status_ (setCertificateRequestStatus c cr csr (Some crt)))
    = Some (cert_NotAfter crt)
  /\ exists ltt,
       Ready_condition (Status_ (setCertificateRequestStatus c cr csr (Some crt)))
       = Some {| Type_ := CertificateRequestConditionReady;
                 Status := ConditionFalse; LastTransitionTime := ltt;
                 Reason := "Expired";
                 Message :=
                   fmt_Sprintf "Certificate has expired on %s"
                     [arg_string (time_Format (cert_NotAfter crt) time_RFC822)] |}.
Proof.
  intros Htemp Hexp. unfold setCertificateRequestStatus, Ready_condition.
  destruct (certificateMatchesSpec _ csr crt) as [matches matchErrs].
  rewrite Htemp, Hexp. cbn. split; [reflexivity|]. apply GetCondition_setCondition.
Qed.

Lemma setCertificateRequestStatus_ready (cr : CertificateRequest)
    (csr : x509_CertificateRequest) (crt : x509_Certificate) :
  isTemporaryCertificate (Some crt) = false ->
  time_Before (cert_NotAfter crt) (clock_Now c) = false ->
  fst (certificateMatchesSpec cr csr crt) = true ->
  setCertificateRequestStatus c cr csr (Some crt)
    = apiutil.SetCertificateRequestCondition (apiutil_Clock_Now c)
        (set_Status (set_NotAfter (Some (cert_NotAfter crt)) (Status_ cr)) cr)
        CertificateRequestConditionReady ConditionTrue "Ready"
        "Certificate is up to date and has not expired".
Proof.
  intros Htemp Hexp Hmatch. unfold setCertificateRequestStatus.
  rewrite (certificateMatchesSpec_any_request _ cr).
  destruct (certificateMatchesSpec cr csr crt) as [matches matchErrs].
  cbn in Hmatch. subst matches. rewrite Htemp, Hexp. reflexivity.
Qed.

(** After a decoded round the conditions and [NotAfter] of the working copy
    are those of the status computation: signing writes the certificate and
    the CA only. *)
Lemma Sync_status_after_decode (cr : CertificateRequest)
    (csr : x509_CertificateRequest) (crt : x509_Certificate) :
  decodes_to cr csr crt ->
  Conditions (Status_ (crCopy (snd (Sync c cr))))
    = Conditions (Status_ (setCertificateRequestStatus c cr csr (Some crt)))
  /\ NotAfter (Status_ (crCopy (snd (Sync c cr))))
     = NotAfter (Status_ (setCertificateRequestStatus c cr csr (Some crt))).
Proof.
  intros Hdec. rewrite Sync_crCopy.
  destruct (Sync_body_shape cr csr crt Hdec)
    as (pre & _ & [[err ->] | (i & _ & ->)]); [split; reflexivity|].
  destruct (sign_run i {| crCopy := setCertificateRequestStatus c cr csr (Some crt);
                          calls := pre |})
    as (crt' & ca' & tail & -> & _). split; reflexivity.
Qed.

End Round.

(** C1 (evaluation at the failing input).  On the request of the unit tests
    (a CSR, no certificate yet, a Ready issuer and a backend that would
    return a certificate) [Sync] returns the error [CertNotFound]; the calls
    of the round are the metrics counter alone, so [Sign] was not invoked,
    and the status is the one the round started from.  The signing step
    [sign], run on that request by itself, does invoke [Sign] once and
    stores the certificate and the CA, and sets no Ready condition. *)
Theorem C1_Sync_without_certificate_never_signs :
  let r := @Sync fixtures.fixture_lib fixtures.fixture_helpers
             fixtures.exampleController fixtures.exampleCR in
  let s := snd (sign fixtures.fakeIssuer
                  {| crCopy := fixtures.exampleCR; calls := [] |}) in
  Certificate (Status_ fixtures.exampleCR) = []
  /\ fst r = Some (errors_New "CertNotFound")
  /\ filter is_Sign_call (calls (snd r)) = []
  /\ calls (snd r) = [IncrementSyncCallCount]
  /\ Status_ (crCopy (snd r)) = Status_ fixtures.exampleCR
  /\ filter is_Sign_call (calls s) = [Sign_call fixtures.exampleCR]
  /\ Certificate (Status_ (crCopy s)) = fixtures.B "PEM:cert1"
  /\ CA (Status_ (crCopy s)) = []
  /\ Ready_condition (Status_ (crCopy s)) = None.
Proof.
  cbv zeta.
  rewrite (Sync_no_certificate fixtures.exampleController fixtures.exampleCR
             (fixtures.B "csr1") fixtures.csr1)
    by (vm_compute; first [reflexivity | discriminate]).
  repeat split; reflexivity.
Qed.

(** C2 (as amended).  A request whose CSR is empty, holds no PEM block, or
    holds a block that does not parse makes [Sync] return a non-nil error:
    [CSRNotFound], [CSRParseError], or the parser's own error.  The round
    leaves the working copy as the request was, so nothing is recorded on
    the status, and its only call is the metrics counter: no Update and no
    [Sign]. *)
Theorem C2_Sync_undecodable_CSR_returns_error
    `{GoLib} `{Helpers} (c : Controller) (cr : CertificateRequest) :
  (length (CSRPem (Spec cr)) = 0%nat ->
   Sync c cr = (Some (errors_New "CSRNotFound"),
                {| crCopy := cr; calls := [IncrementSyncCallCount] |}))
  /\ (length (CSRPem (Spec cr)) <> 0%nat ->
      pem_Decode (CSRPem (Spec cr)) = None ->
      Sync c cr = (Some (errors_New "CSRParseError"),
                   {| crCopy := cr; calls := [IncrementSyncCallCount] |}))
  /\ (forall der e,
        length (CSRPem (Spec cr)) <> 0%nat ->
        pem_Decode (CSRPem (Spec cr)) = Some der ->
        x509_ParseCertificateRequest der = inr e ->
        Sync c cr = (Some e,
                     {| crCopy := cr; calls := [IncrementSyncCallCount] |})).
Proof.
  split; [|split].
  - apply Sync_no_CSR.
  - apply Sync_CSR_no_PEM.
  - intros der e. apply Sync_CSR_bad_DER.
Qed.

(** C2 (witness): the requests of the fixtures without CSR, with a CSR that
    is no PEM block, and with a PEM block that is no CSR. *)
Lemma C2_witness :
  @Sync fixtures.fixture_lib fixtures.fixture_helpers
    fixtures.exampleController fixtures.exampleNoCSR
  = (Some (errors_New "CSRNotFound"),
     {| crCopy := fixtures.exampleNoCSR; calls := [IncrementSyncCallCount] |})
  /\ @Sync fixtures.fixture_lib fixtures.fixture_helpers
       fixtures.exampleController fixtures.exampleNoPEM
     = (Some (errors_New "CSRParseError"),
        {| crCopy := fixtures.exampleNoPEM;
           calls := [IncrementSyncCallCount] |})
  /\ @Sync fixtures.fixture_lib fixtures.fixture_helpers
       fixtures.exampleController fixtures.exampleBadDER
     = (Some fixtures.asn1_error,
        {| crCopy := fixtures.exampleBadDER;
           calls := [IncrementSyncCallCount] |}).
Proof.
  split; [|split].
  - apply (proj1 (@C2_Sync_undecodable_CSR_returns_error
                    fixtures.fixture_lib fixtures.fixture_helpers
                    fixtures.exampleController fixtures.exampleNoCSR)).
    reflexivity.
  - apply (proj1 (proj2 (@C2_Sync_undecodable_CSR_returns_error
                           fixtures.fixture_lib fixtures.fixture_helpers
                           fixtures.exampleController fixtures.exampleNoPEM)));
      [discriminate | reflexivity].
  - apply (proj2 (proj2 (@C2_Sync_undecodable_CSR_returns_error
                           fixtures.fixture_lib fixtures.fixture_helpers
                           fixtures.exampleController fixtures.exampleBadDER))
             (fixtures.B "garbage"));
      [discriminate | reflexivity | reflexivity].
Defined.

(** C2 (counterexample).  With an empty CSR the returned error is not nil,
    the status carries no condition and no Update is issued. *)
Lemma C2_counterexample :
  let r := @Sync fixtures.fixture_lib fixtures.fixture_helpers
             fixtures.exampleController fixtures.exampleNoCSR in
  CSRPem (Spec fixtures.exampleNoCSR) = []
  /\ fst r <> None
  /\ Conditions (Status_ (crCopy (snd r))) = []
  /\ filter is_Update_call (calls (snd r)) = [].
Proof. vm_compute. repeat split; discriminate. Qed.

Lemma sentinel_is_temporary (crt : x509_Certificate) :
  SerialNumber crt = staticTemporarySerialNumber ->
  isTemporaryCertificate (Some crt) = true.
Proof. intros Hsn. unfold isTemporaryCertificate. rewrite Hsn. reflexivity. Qed.

(** C3 (as amended).  Let the request's certificate carry the sentinel
    serial number [0x1234567890].  The Ready-condition computation clears
    [Status.NotAfter], and it is still nil on the working copy when the
    round ends.  Whenever the round gets as far as the signing decision
    (both validations pass, the issuer is found and Ready, its backend is
    built), [Sign] is invoked exactly once, on the working copy, whatever
    the comparison of the certificate with the CSR says. *)
Theorem C3_temporary_certificate_is_signed_when_reached
    `{GoLib} `{Helpers} (c : Controller) (cr : CertificateRequest)
    (csr : x509_CertificateRequest) (crt : x509_Certificate) :
  decodes_to cr csr crt ->
  SerialNumber crt = staticTemporarySerialNumber ->
  NotAfter (Status_ (setCertificateRequestStatus c cr csr (Some crt))) = None
  /\ NotAfter (Status_ (crCopy (snd (Sync c cr)))) = None
  /\ forall i,
       reaches_signing c (setCertificateRequestStatus c cr csr (Some crt)) i ->
       filter is_Sign_call (calls (snd (Sync c cr)))
         = [Sign_call (setCertificateRequestStatus c cr csr (Some crt))].
Proof.
  intros Hdec Hsn. pose proof (sentinel_is_temporary crt Hsn) as Htemp.
  destruct (setCertificateRequestStatus_temporary c cr csr crt Htemp)
    as [HnotAfter _].
  split; [exact HnotAfter|]. split.
  - destruct (Sync_status_after_decode c cr csr crt Hdec) as [_ ->].
    exact HnotAfter.
  - intros i Hreach. rewrite Sync_sign_calls.
    destruct (Sync_body_reaches_signing c cr csr crt i Hdec Hreach)
      as (pre & Hpre & ->).
    rewrite Htemp. cbn [orb].
    destruct (sign_run i {| crCopy := setCertificateRequestStatus c cr csr (Some crt);
                            calls := pre |})
      as (crt' & ca' & tail & -> & Htail & _).
    cbn [calls crCopy snd]. rewrite filter_app, Hpre.
    rewrite filter_cons_True by exact I. rewrite Htail. reflexivity.
Qed.

Lemma decodes_fixture (csrDER certDER : string) csr crt :
  @x509_ParseCertificateRequest fixtures.fixture_lib (fixtures.B csrDER) = inl csr ->
  @x509_ParseCertificate fixtures.fixture_lib (fixtures.B certDER) = inl crt ->
  @decodes_to fixtures.fixture_lib
    (fixtures.request (fixtures.B ("PEM:" +:+ csrDER)) (fixtures.B ("PEM:" +:+ certDER)))
    csr crt.
Proof.
  intros Hcsr Hcrt. repeat split; try (cbn; discriminate).
  - exists (fixtures.B csrDER). split; [reflexivity|exact Hcsr].
  - exists (fixtures.B certDER). split; [reflexivity|exact Hcrt].
Qed.

(** C3 (witness): the temporary certificate of the fixtures, a Ready issuer
    and the fake backend. *)
Lemma C3_witness :
  filter is_Sign_call
    (calls (snd (@Sync fixtures.fixture_lib fixtures.fixture_helpers
                   fixtures.exampleController fixtures.exampleTemporaryCR)))
  = [Sign_call
       (@setCertificateRequestStatus fixtures.fixture_lib
          fixtures.fixture_helpers fixtures.exampleController
          fixtures.exampleTemporaryCR fixtures.csr1
          (Some fixtures.certTemporary))].
Proof.
  refine (proj2 (proj2
    (@C3_temporary_certificate_is_signed_when_reached
       fixtures.fixture_lib fixtures.fixture_helpers
       fixtures.exampleController fixtures.exampleTemporaryCR
       fixtures.csr1 fixtures.certTemporary _ _)) fixtures.fakeIssuer _).
  - apply (decodes_fixture "csr1" "temporary"); reflexivity.
  - reflexivity.
  - split; [reflexivity|]. exists fixtures.readyIssuer.
    repeat split; reflexivity.
Defined.

(** C3 (counterexample).  The certificate carries the sentinel serial number
    and the issuer lookup fails with a plain error: the round returns
    without a call to [Sign]. *)
Lemma C3_counterexample :
  @decodes_to fixtures.fixture_lib fixtures.exampleTemporaryCR
    fixtures.csr1 fixtures.certTemporary
  /\ SerialNumber fixtures.certTemporary = 0x1234567890%Z
  /\ filter is_Sign_call
       (calls (snd (@Sync fixtures.fixture_lib fixtures.fixture_helpers
                      fixtures.lookupFailsController
                      fixtures.exampleTemporaryCR))) = [].
Proof.
  split; [apply (decodes_fixture "csr1" "temporary"); reflexivity|].
  split; reflexivity.
Qed.

(** The serialised conditions are unchanged by setting Ready to True with a
    reason and a message exactly when the conditions already hold a Ready
    condition True with that reason and message. *)
Lemma json_conditions_settled (now : Time)
    (conds : list CertificateRequestCondition) (reason message : string) :
  map json_Marshal_Condition
    (apiutil.setCondition now conds "Ready" ConditionTrue reason message)
  = map json_Marshal_Condition conds
  <-> exists old,
        apiutil.GetCertificateRequestCondition conds "Ready" = Some old
        /\ Status old = ConditionTrue
        /\ Reason old = reason /\ Message old = message.
Proof.
  induction conds as [|cond rest IH]; cbn.
  - split; [discriminate | intros (old & [=] & _)].
  - case_bool_decide as Hty; cbn.
    + split.
      * intros [= _ Hst _ Hreason Hmessage].
        exists cond. repeat split; congruence.
      * intros (old & [= <-] & Hst & Hreason & Hmessage).
        f_equal. unfold json_Marshal_Condition. cbn.
        rewrite (bool_decide_eq_true_2 _ Hst). congruence.
    + rewrite <- IH. split; [intros [= ?]; assumption | intros ->; reflexivity].
Qed.

Section Persistence.
Context `{GoLib} `{Helpers}.
Variable c : Controller.

(** With a certificate that is neither temporary nor mismatching, the round
    never signs and the working copy is the one the status computation
    left. *)
Lemma Sync_no_sign_needed (cr : CertificateRequest)
    (csr : x509_CertificateRequest) (crt : x509_Certificate) :
  decodes_to cr csr crt ->
  isTemporaryCertificate (Some crt) = false ->
  fst (certificateMatchesSpec cr csr crt) = true ->
  filter is_Sign_call (calls (snd (Sync c cr))) = []
  /\ crCopy (snd (Sync c cr)) = setCertificateRequestStatus c cr csr (Some crt).
Proof.
  intros Hdec Htemp Hmatch. rewrite Sync_sign_calls, Sync_crCopy.
  destruct (Sync_body_shape c cr csr crt Hdec)
    as (pre & Hpre & [[err ->] | (i & Hsign & _)]).
  - split; [exact Hpre | reflexivity].
  - rewrite Htemp, Hmatch in Hsign. discriminate.
Qed.

(** The deferred write is silent exactly when the serialised statuses
    agree. *)
Lemma Sync_update_calls (cr : CertificateRequest) :
  calls (snd (Sync c cr))
  = (calls (snd (Sync_body_from c cr))
     ++ (if bool_decide (json_Marshal (Status_ cr)
                         = json_Marshal (Status_ (crCopy (snd (Sync_body_from c cr)))))
         then [] else [Update_call (crCopy (snd (Sync_body_from c cr)))]))%list.
Proof.
  rewrite Sync_unfold. destruct (Sync_body_from c cr) as [err s].
  cbn [snd].
  destruct (updateCertificateStatus_cases c cr s)
    as [[Heq ->] | [Hne (saved & -> & _)]].
  - rewrite bool_decide_eq_true_2 by exact Heq. cbn. symmetry. apply app_nil_r.
  - rewrite bool_decide_eq_false_2 by exact Hne.
    destruct (snd saved); reflexivity.
Qed.

(** The body of a round never writes to the store. *)
Lemma Sync_body_no_update (cr : CertificateRequest) :
  filter is_Update_call (calls (snd (Sync_body_from c cr))) = [].
Proof.
  unfold Sync_body_from, Sync_body.
  cbv beta iota zeta
    delta [bind modify_cr get_cr call ret bad_config Recorder_Eventf
           crCopy calls app].
  destruct (bool_decide (length (CSRPem (Spec cr)) = 0%nat)); [reflexivity|].
  destruct (pem_Decode (CSRPem (Spec cr))) as [der|]; [|reflexivity].
  destruct (x509_ParseCertificateRequest der) as [csr|]; [|reflexivity].
  destruct (bool_decide (length (Certificate (Status_ cr)) = 0%nat));
    [reflexivity|].
  destruct (pem_Decode (Certificate (Status_ cr))) as [der'|]; [|reflexivity].
  destruct (x509_ParseCertificate der') as [crt|]; [|reflexivity].
  set (crCopy1 := setCertificateRequestStatus c cr csr (Some crt)).
  destruct (bool_decide (0 < length (ValidateCertificateRequest crCopy1))%nat);
    [reflexivity|].
  destruct (helper_GetGenericIssuer c _ _) as [issuerObj|err];
    [|destruct (IsNotFound (Some err)); reflexivity].
  destruct (bool_decide
              (0 < length (ValidateCertificateRequestForIssuer crCopy1 issuerObj))%nat);
    [reflexivity|].
  destruct (apiutil.IssuerHasCondition issuerObj _); [|reflexivity].
  cbn [negb].
  destruct (issuerFactory_IssuerFor c issuerObj) as [i|]; [|reflexivity].
  assert (Hsign : forall pre, filter is_Update_call pre = [] ->
            filter is_Update_call
              (calls (snd (sign i {| crCopy := crCopy1; calls := pre |}))) = []).
  { intros pre Hpre.
    destruct (sign_run i {| crCopy := crCopy1; calls := pre |})
      as (crt' & ca' & tail & -> & _ & _ & _ & Htail).
    cbn [calls]. rewrite filter_app, Hpre, filter_cons_False by (intros []).
    exact Htail. }
  destruct (isTemporaryCertificate (Some crt)); [apply Hsign; reflexivity|].
  destruct (certificateMatchesSpec crCopy1 csr crt) as [[] matchErrs];
    [reflexivity | apply Hsign; reflexivity].
Qed.

Lemma Sync_update_filter (cr : CertificateRequest) :
  filter is_Update_call (calls (snd (Sync c cr)))
  = if bool_decide (json_Marshal (Status_ cr)
                    = json_Marshal (Status_ (crCopy (snd (Sync c cr)))))
    then [] else [Update_call (crCopy (snd (Sync c cr)))].
Proof.
  rewrite Sync_update_calls, filter_app, Sync_body_no_update, Sync_crCopy.
  case_bool_decide; reflexivity.
Qed.

(** With a valid matching certificate the serialised status is the same
    before and after the round exactly when the status already records the
    valid certificate. *)
Lemma Sync_serialised_status_unchanged (cr : CertificateRequest)
    (csr : x509_CertificateRequest) (crt : x509_Certificate) :
  decodes_to cr csr crt ->
  isTemporaryCertificate (Some crt) = false ->
  time_Before (cert_NotAfter crt) (clock_Now c) = false ->
  fst (certificateMatchesSpec cr csr crt) = true ->
  json_Marshal (Status_ cr) = json_Marshal (Status_ (crCopy (snd (Sync c cr))))
  <-> records_valid_certificate (Status_ cr) crt.
Proof.
  intros Hdec Htemp Hexp Hmatch.
  destruct (Sync_no_sign_needed cr csr crt Hdec Htemp Hmatch) as [_ ->].
  rewrite (setCertificateRequestStatus_ready c cr csr crt Htemp Hexp Hmatch).
  unfold records_valid_certificate, Ready_condition.
  rewrite <- (json_conditions_settled (apiutil_Clock_Now c)).
  unfold json_Marshal, apiutil.SetCertificateRequestCondition.
  cbn [Status_ set_Status Conditions set_Conditions NotAfter set_NotAfter
       Certificate CA].
  change CertificateRequestConditionReady with "Ready".
  split.
  - intros [= Hconds Htime]. split; [exact Htime | symmetry; exact Hconds].
  - intros [Htime Hconds]. rewrite Hconds, Htime. reflexivity.
Qed.
End Persistence.

(** C4 (as amended).  Let the request's certificate be neither temporary nor
    expired and match the CSR.  Then [Sync] never invokes [Sign].  The
    deferred write is a no-op when the status already records what the round
    computes, that is [NotAfter] equal to the certificate's and a Ready
    condition True with reason [Ready] and the standard message: the status
    after the round is the status before it and no Update is issued.  In
    particular a second round on the request left by a first one changes
    nothing and writes nothing.  In every case the round leaves [NotAfter]
    equal to the certificate's and the Ready condition True with reason
    [Ready] on the working copy.  It issues no Update exactly when the
    status before the round already records the valid certificate as far as
    its serialisation shows ([records_valid_certificate]: the same rendering
    of NotAfter, which is to the second, and a Ready condition True with the
    reason and the message), and exactly one Update, carrying the working
    copy, otherwise. *)
Theorem C4_matching_certificate_is_not_signed
    `{GoLib} `{Helpers} (c : Controller) (cr : CertificateRequest)
    (csr : x509_CertificateRequest) (crt : x509_Certificate) :
  decodes_to cr csr crt ->
  isTemporaryCertificate (Some crt) = false ->
  time_Before (cert_NotAfter crt) (clock_Now c) = false ->
  fst (certificateMatchesSpec cr csr crt) = true ->
  filter is_Sign_call (calls (snd (Sync c cr))) = []
  /\ (forall ltt,
        NotAfter (Status_ cr) = Some (cert_NotAfter crt) ->
        Ready_condition (Status_ cr)
          = Some {| Type_ := "Ready"; Status := ConditionTrue;
                    LastTransitionTime := ltt; Reason := "Ready";
                    Message := "Certificate is up to date and has not expired" |} ->
        Status_ (crCopy (snd (Sync c cr))) = Status_ cr
        /\ filter is_Update_call (calls (snd (Sync c cr))) = [])
  /\ (let cr' := crCopy (snd (Sync c cr)) in
      Status_ (crCopy (snd (Sync c cr'))) = Status_ cr'
      /\ filter is_Sign_call (calls (snd (Sync c cr'))) = []
      /\ filter is_Update_call (calls (snd (Sync c cr'))) = [])
  /\ NotAfter (Status_ (crCopy (snd (Sync c cr)))) = Some (cert_NotAfter crt)
  /\ (exists ltt,
        Ready_condition (Status_ (crCopy (snd (Sync c cr))))
        = Some {| Type_ := "Ready"; Status := ConditionTrue;
                  LastTransitionTime := ltt; Reason := "Ready";
                  Message := "Certificate is up to date and has not expired" |})
  /\ (records_valid_certificate (Status_ cr) crt ->
      filter is_Update_call (calls (snd (Sync c cr))) = [])
  /\ (~ records_valid_certificate (Status_ cr) crt ->
      filter is_Update_call (calls (snd (Sync c cr)))
      = [Update_call (crCopy (snd (Sync c cr)))]).
Proof.
  intros Hdec Htemp Hexp Hmatch.
  assert (Hnoop : forall cr0 ltt,
    decodes_to cr0 csr crt ->
    NotAfter (Status_ cr0) = Some (cert_NotAfter crt) ->
    Ready_condition (Status_ cr0)
      = Some {| Type_ := "Ready"; Status := ConditionTrue;
                LastTransitionTime := ltt; Reason := "Ready";
                Message := "Certificate is up to date and has not expired" |} ->
    Status_ (crCopy (snd (Sync c cr0))) = Status_ cr0
    /\ filter is_Sign_call (calls (snd (Sync c cr0))) = []
    /\ filter is_Update_call (calls (snd (Sync c cr0))) = []).
  { intros cr0 ltt Hdec0 HnotAfter Hready.
    destruct (Sync_no_sign_needed c cr0 csr crt Hdec0 Htemp Hmatch)
      as [Hsign Hcopy].
    assert (Hst : Status_ (crCopy (snd (Sync c cr0))) = Status_ cr0).
    { rewrite Hcopy, (setCertificateRequestStatus_ready c cr0 csr crt Htemp Hexp Hmatch).
      pose proof (setCondition_same (apiutil_Clock_Now c)
                    (Conditions (Status_ cr0))
                    {| Type_ := "Ready"; Status := ConditionTrue;
                       LastTransitionTime := ltt; Reason := "Ready";
                       Message := "Certificate is up to date and has not expired" |}
                    Hready) as Hsame.
      cbn [Type_ Status Reason Message] in Hsame.
      unfold apiutil.SetCertificateRequestCondition, set_Status,
        set_Conditions, set_NotAfter.
      cbn [Status_ Conditions Certificate CA NotAfter].
      change CertificateRequestConditionReady with "Ready".
      rewrite Hsame, <- HnotAfter.
      destruct (Status_ cr0); reflexivity. }
    split; [exact Hst|]. split; [exact Hsign|].
    rewrite Sync_update_filter, Hst.
    rewrite bool_decide_eq_true_2 by reflexivity. reflexivity. }
  destruct (Sync_no_sign_needed c cr csr crt Hdec Htemp Hmatch) as [Hsign Hcopy].
  split; [exact Hsign|]. split.
  { intros ltt HnotAfter Hready.
    destruct (Hnoop cr ltt Hdec HnotAfter Hready) as (Hst & _ & Hupd).
    split; assumption. }
  split.
  { cbv zeta. rewrite Hcopy.
    rewrite (setCertificateRequestStatus_ready c cr csr crt Htemp Hexp Hmatch).
    destruct (GetCondition_setCondition (apiutil_Clock_Now c)
                (Conditions (Status_ cr)) "Ready" ConditionTrue "Ready"
                "Certificate is up to date and has not expired") as [ltt Hget].
    apply (Hnoop _ ltt); [exact Hdec | reflexivity | exact Hget]. }
  split.
  { rewrite Hcopy,
      (setCertificateRequestStatus_ready c cr csr crt Htemp Hexp Hmatch).
    reflexivity. }
  split.
  { rewrite Hcopy,
      (setCertificateRequestStatus_ready c cr csr crt Htemp Hexp Hmatch).
    apply (GetCondition_setCondition (apiutil_Clock_Now c) _ "Ready"). }
  pose proof (Sync_serialised_status_unchanged c cr csr crt
                Hdec Htemp Hexp Hmatch) as Hiff.
  rewrite Sync_update_filter. split.
  - intros Hrecords. rewrite bool_decide_eq_true_2 by (apply Hiff; exact Hrecords).
    reflexivity.
  - intros Hrecords. rewrite bool_decide_eq_false_2; [reflexivity|].
    intros Heq. apply Hrecords, Hiff. exact Heq.
Qed.

(** C4 (witness): the signed request of the fixtures once its status is
    settled, where nothing is written; and the same request before its
    status is computed, where one Update is issued. *)
Lemma C4_witness :
  let r := @Sync fixtures.fixture_lib fixtures.fixture_helpers
             fixtures.exampleController fixtures.exampleSettledCR in
  let r0 := @Sync fixtures.fixture_lib fixtures.fixture_helpers
              fixtures.exampleController fixtures.exampleSignedCR in
  (filter is_Sign_call (calls (snd r)) = []
   /\ Status_ (crCopy (snd r)) = Status_ fixtures.exampleSettledCR
   /\ filter is_Update_call (calls (snd r)) = [])
  /\ filter is_Update_call (calls (snd r0)) = [Update_call (crCopy (snd r0))].
Proof.
  cbv zeta. split.
  - destruct (@C4_matching_certificate_is_not_signed
                fixtures.fixture_lib fixtures.fixture_helpers
                fixtures.exampleController fixtures.exampleSettledCR
                fixtures.csr1 fixtures.cert1) as (Hsign & Hnoop & _).
    + repeat split; try (cbn; discriminate).
      * exists (fixtures.B "csr1"). split; reflexivity.
      * exists (fixtures.B "cert1"). split; reflexivity.
    + reflexivity.
    + reflexivity.
    + reflexivity.
    + split; [exact Hsign|].
      apply (Hnoop (Some (fixtures.nowTime - fixtures.hour))); reflexivity.
  - destruct (@C4_matching_certificate_is_not_signed
                fixtures.fixture_lib fixtures.fixture_helpers
                fixtures.exampleController fixtures.exampleSignedCR
                fixtures.csr1 fixtures.cert1
                (decodes_fixture "csr1" "cert1" fixtures.csr1 fixtures.cert1
                   eq_refl eq_refl)
                eq_refl eq_refl eq_refl) as (_ & _ & _ & _ & _ & _ & Hupdate).
    apply Hupdate. intros [_ (old & Hready & _)]. discriminate Hready.
Defined.

(** C4 (counterexample).  A request whose certificate matches the CSR, is not
    temporary and has not expired, but whose status holds no condition yet:
    the round adds [NotAfter] and the Ready condition, the serialised
    statuses differ and one Update is issued. *)
Lemma C4_counterexample :
  let cr := fixtures.exampleSignedCR in
  let r := @Sync fixtures.fixture_lib fixtures.fixture_helpers
             fixtures.exampleController cr in
  @decodes_to fixtures.fixture_lib cr fixtures.csr1 fixtures.cert1
  /\ @isTemporaryCertificate (Some fixtures.cert1) = false
  /\ time_Before (cert_NotAfter fixtures.cert1)
       (clock_Now fixtures.exampleController) = false
  /\ @certificateMatchesSpec fixtures.fixture_lib fixtures.fixture_helpers
       cr fixtures.csr1 fixtures.cert1 = (true, [])
  /\ json_Marshal (Status_ (crCopy (snd r))) <> json_Marshal (Status_ cr)
  /\ filter is_Update_call (calls (snd r)) = [Update_call (crCopy (snd r))].
Proof.
  cbv zeta.
  split; [apply (decodes_fixture "csr1" "cert1"); reflexivity|].
  split; [reflexivity|]. split; [reflexivity|]. split; [reflexivity|].
  split; [vm_compute; discriminate | vm_compute; reflexivity].
Qed.

(** C5 (as amended).  Let the request's certificate be not temporary, that
    is, let the [int64] that [big.Int.Int64] reads from its serial number
    (the low 64 bits) be other than the sentinel [0x1234567890]; let it have
    [NotAfter] strictly before the injected clock's time, and match the CSR.
    Then the Ready condition on the working copy is False with reason
    [Expired], and [Sync] does not invoke [Sign]. *)
Theorem C5_expired_certificate_is_reported_not_signed
    `{GoLib} `{Helpers} (c : Controller) (cr : CertificateRequest)
    (csr : x509_CertificateRequest) (crt : x509_Certificate) :
  decodes_to cr csr crt ->
  big_Int_Int64 (SerialNumber crt) <> staticTemporarySerialNumber ->
  time_Before (cert_NotAfter crt) (clock_Now c) = true ->
  fst (certificateMatchesSpec cr csr crt) = true ->
  (exists ready,
     Ready_condition (Status_ (crCopy (snd (Sync c cr)))) = Some ready
     /\ Status ready = ConditionFalse
     /\ Reason ready = "Expired")
  /\ filter is_Sign_call (calls (snd (Sync c cr))) = [].
Proof.
  intros Hdec Hserial Hexp Hmatch.
  assert (Htemp : isTemporaryCertificate (Some crt) = false)
    by (apply Z.eqb_neq; exact Hserial).
  destruct (Sync_no_sign_needed c cr csr crt Hdec Htemp Hmatch) as [Hsign Hcopy].
  split; [|exact Hsign]. rewrite Hcopy.
  destruct (setCertificateRequestStatus_expired c cr csr crt Htemp Hexp)
    as [_ [ltt Hready]].
  eexists. split; [exact Hready|]. split; reflexivity.
Qed.

(** C5 (witness): the expired certificate of the fixtures. *)
Lemma C5_witness :
  filter is_Sign_call
    (calls (snd (@Sync fixtures.fixture_lib fixtures.fixture_helpers
                   fixtures.exampleController
                   fixtures.exampleSignedExpiredCR))) = [].
Proof.
  refine (proj2
    (@C5_expired_certificate_is_reported_not_signed
       fixtures.fixture_lib fixtures.fixture_helpers
       fixtures.exampleController fixtures.exampleSignedExpiredCR
       fixtures.csr1 fixtures.certExpired _ _ _ _)).
  - apply (decodes_fixture "csr1" "expired"); reflexivity.
  - vm_compute. discriminate.
  - reflexivity.
  - reflexivity.
Defined.

(** C5 (counterexample).  An expired certificate that matches the CSR and
    carries the sentinel serial number: the Ready condition gets the reason
    [TemporaryCertificate], not [Expired], and [Sign] is invoked. *)
Lemma C5_counterexample :
  let cr := fixtures.exampleTemporaryExpiredCR in
  let r := @Sync fixtures.fixture_lib fixtures.fixture_helpers
             fixtures.exampleController cr in
  @decodes_to fixtures.fixture_lib cr fixtures.csr1
    fixtures.certTemporaryExpired
  /\ time_Before (cert_NotAfter fixtures.certTemporaryExpired)
       (clock_Now fixtures.exampleController) = true
  /\ @certificateMatchesSpec fixtures.fixture_lib fixtures.fixture_helpers
       cr fixtures.csr1 fixtures.certTemporaryExpired = (true, [])
  /\ Reason <$> Ready_condition (Status_ (crCopy (snd r)))
     = Some "TemporaryCertificate"
  /\ length (filter is_Sign_call (calls (snd r))) = 1%nat.
Proof.
  cbv zeta.
  split; [apply (decodes_fixture "csr1" "temporary-expired"); reflexivity|].
  repeat split; vm_compute; reflexivity.
Qed.

(** C7.  The deferred status write runs after the body whatever the body
    returned: the calls of the round are the calls of the body followed by
    the store Update, issued exactly when the serialised status changed.
    When the body returned an error and the Update fails, [Sync] returns the
    aggregate of the save error and the body's error, both present; a save
    error alone is returned as an aggregate of one; when nothing is written
    or the write succeeds, the body's result is returned as it is. *)
Theorem C7_status_write_always_runs_and_errors_aggregate
    `{GoLib} `{Helpers} (c : Controller) (cr : CertificateRequest) :
  let body := Sync_body_from c cr in
  let changed :=
    negb (bool_decide (json_Marshal (Status_ cr)
                       = json_Marshal (Status_ (crCopy (snd body))))) in
  calls (snd (Sync c cr))
    = (calls (snd body)
       ++ (if changed then [Update_call (crCopy (snd body))] else []))%list
  /\ (forall err saveErr,
        fst body = Some err ->
        changed = true ->
        CMClient_Update c (crCopy (snd body)) = inr saveErr ->
        fst (Sync c cr) = Some (aggregate [saveErr; err]))
  /\ (forall saveErr,
        fst body = None ->
        changed = true ->
        CMClient_Update c (crCopy (snd body)) = inr saveErr ->
        fst (Sync c cr) = Some (aggregate [saveErr]))
  /\ ((changed = false
       \/ exists updated, CMClient_Update c (crCopy (snd body)) = inl updated) ->
      fst (Sync c cr) = fst body).
Proof.
  cbv zeta. split.
  { rewrite Sync_update_calls. case_bool_decide; reflexivity. }
  rewrite Sync_unfold. destruct (Sync_body_from c cr) as [err s].
  cbn [fst snd].
  destruct (updateCertificateStatus_cases c cr s)
    as [[Heq ->] | [Hne (saved & -> & Hsaved)]].
  - rewrite bool_decide_eq_true_2 by exact Heq. cbn [negb snd fst].
    split; [intros ? ? _ [=]|]. split; [intros ? _ [=]|]. reflexivity.
  - rewrite bool_decide_eq_false_2 by exact Hne. cbn [negb]. rewrite Hsaved.
    split; [|split].
    + intros err0 saveErr -> _ ->. reflexivity.
    + intros saveErr -> _ ->. reflexivity.
    + intros [? | [updated ->]]; [discriminate | reflexivity].
Qed.

(** C7 (witness): the issuer lookup fails after the status was computed and
    the store rejects the write; the round succeeds and the store rejects
    the write; the round fails and the write succeeds. *)
Lemma C7_witness :
  fst (@Sync fixtures.fixture_lib fixtures.fixture_helpers
         fixtures.allFailsController fixtures.exampleTemporaryCR)
  = Some (aggregate [fixtures.conflict_error; fixtures.lookup_error])
  /\ fst (@Sync fixtures.fixture_lib fixtures.fixture_helpers
            fixtures.updateFailsController fixtures.exampleSignedCR)
     = Some (aggregate [fixtures.conflict_error])
  /\ fst (@Sync fixtures.fixture_lib fixtures.fixture_helpers
            fixtures.lookupFailsController fixtures.exampleTemporaryCR)
     = Some fixtures.lookup_error.
Proof.
  split; [|split].
  - refine (proj1 (proj2
      (@C7_status_write_always_runs_and_errors_aggregate
         fixtures.fixture_lib fixtures.fixture_helpers
         fixtures.allFailsController fixtures.exampleTemporaryCR))
      fixtures.lookup_error fixtures.conflict_error _ _ _);
      vm_compute; reflexivity.
  - refine (proj1 (proj2 (proj2
      (@C7_status_write_always_runs_and_errors_aggregate
         fixtures.fixture_lib fixtures.fixture_helpers
         fixtures.updateFailsController fixtures.exampleSignedCR)))
      fixtures.conflict_error _ _ _);
      vm_compute; reflexivity.
  - rewrite (proj2 (proj2 (proj2
      (@C7_status_write_always_runs_and_errors_aggregate
         fixtures.fixture_lib fixtures.fixture_helpers
         fixtures.lookupFailsController fixtures.exampleTemporaryCR)))).
    + vm_compute. reflexivity.
    + right. eexists. vm_compute. reflexivity.
Defined.

End SyncFacts.

Module PathFacts.
Import filepath.

Lemma copy_element_plain (e rest : string) (out : list ascii) :
  no_separator e = true ->
  element_ends rest = true ->
  copy_element (e +:+ rest) out
    = (rest, (rev (String.list_ascii_of_string e) ++ out)%list).
Proof.
  revert out. induction e as [|ch e IH]; intros out Hsep Hend.
  - destruct rest as [|ch rest]; [reflexivity|].
    simpl in Hend. simpl. rewrite Hend. reflexivity.
  - simpl in Hsep. apply andb_prop in Hsep as [Hch Hsep].
    apply negb_true_iff in Hch. simpl. rewrite Hch, IH by assumption.
    rewrite <- app_assoc. reflexivity.
Qed.

Lemma append_empty_r (s : string) : s +:+ EmptyString = s.
Proof.
  induction s as [|ch s IH]; [reflexivity|].
  change (String ch s +:+ EmptyString) with (String ch (s +:+ EmptyString)).
  rewrite IH. reflexivity.
Qed.

Lemma string_of_list_ascii_app (l1 l2 : list ascii) :
  String.string_of_list_ascii (l1 ++ l2)
  = String.string_of_list_ascii l1 +:+ String.string_of_list_ascii l2.
Proof.
  induction l1 as [|ch l1 IH]; [reflexivity|].
  change (String.string_of_list_ascii ((ch :: l1) ++ l2))
    with (String ch (String.string_of_list_ascii (l1 ++ l2))).
  rewrite IH. reflexivity.
Qed.

Lemma plain_element_head (e : string) :
  is_plain_element e = true ->
  exists ch e', e = String ch e' /\ IsPathSeparator ch = false
    /\ no_separator e' = true
    /\ (is_dot ch = true -> exists ch1 e1, e' = String ch1 e1
          /\ IsPathSeparator ch1 = false
          /\ (is_dot ch1 = true -> exists ch2 e2, e1 = String ch2 e2
                /\ IsPathSeparator ch2 = false)).
Proof.
  unfold is_plain_element. intros Hplain.
  repeat (apply andb_prop in Hplain as [Hplain ?]).
  apply negb_true_iff, bool_decide_eq_false in Hplain.
  repeat match goal with
         | H : negb (bool_decide _) = true |- _ =>
             apply negb_true_iff, bool_decide_eq_false in H
         end.
  destruct e as [|ch e']; [congruence|].
  match goal with H : no_separator _ = true |- _ =>
    cbn [no_separator] in H; apply andb_prop in H as [Hch Hsep] end.
  apply negb_true_iff in Hch.
  exists ch, e'. repeat split; try assumption.
  intros Hdot. apply Ascii.eqb_eq in Hdot. subst ch.
  destruct e' as [|ch1 e1]; [congruence|].
  cbn [no_separator] in Hsep; apply andb_prop in Hsep as [Hch1 Hsep].
  apply negb_true_iff in Hch1.
  exists ch1, e1. repeat split; try assumption.
  intros Hdot1. apply Ascii.eqb_eq in Hdot1. subst ch1.
  destruct e1 as [|ch2 e2]; [congruence|].
  cbn [no_separator] in Hsep; apply andb_prop in Hsep as [Hch2 Hsep].
  apply negb_true_iff in Hch2.
  exists ch2, e2. split; [reflexivity | assumption].
Qed.

(** One turn of the loop on a plain element copies it to the buffer, behind
    a separator when the buffer is not empty. *)
Lemma clean_loop_plain (fuel : nat) (e rest : string) (out : list ascii)
    (dotdot : nat) :
  is_plain_element e = true ->
  element_ends rest = true ->
  clean_loop (S fuel) false (e +:+ rest) out dotdot
  = clean_loop fuel false rest
      (rev (String.list_ascii_of_string e)
       ++ (if bool_decide (length out = 0%nat) then out else Separator :: out))%list
      dotdot.
Proof.
  intros Hplain Hend.
  assert (Hsep : no_separator e = true).
  { unfold is_plain_element in Hplain.
    apply andb_prop in Hplain as [_ Hsep]. exact Hsep. }
  pose proof (copy_element_plain e rest
                (if bool_decide (length out = 0%nat) then out
                 else Separator :: out) Hsep Hend) as Hcopy.
  destruct (plain_element_head e Hplain)
    as (ch & e' & -> & Hch & Hsep' & Hdots).
  change (String ch e' +:+ rest) with (String ch (e' +:+ rest)) in *.
  cbn [clean_loop]. rewrite Hch.
  assert (Hdot1 : is_dot ch && element_ends (e' +:+ rest) = false).
  { destruct (is_dot ch) eqn:Hdot; [|reflexivity].
    destruct (Hdots eq_refl) as (ch1 & e1 & -> & Hch1 & _).
    change (String ch1 e1 +:+ rest) with (String ch1 (e1 +:+ rest)).
    cbn [element_ends andb]. exact Hch1. }
  rewrite Hdot1.
  assert (Hdot2 : is_dot ch
                  && match e' +:+ rest with
                     | String ch1 rest1 => is_dot ch1 && element_ends rest1
                     | EmptyString => false
                     end = false).
  { destruct (is_dot ch) eqn:Hdot; [|reflexivity].
    destruct (Hdots eq_refl) as (ch1 & e1 & -> & Hch1 & Hdots1).
    change (String ch1 e1 +:+ rest) with (String ch1 (e1 +:+ rest)).
    cbn [andb].
    destruct (is_dot ch1) eqn:Hd1; [|reflexivity].
    destruct (Hdots1 eq_refl) as (ch2 & e2 & -> & Hch2).
    change (String ch2 e2 +:+ rest) with (String ch2 (e2 +:+ rest)).
    cbn [element_ends andb]. exact Hch2. }
  rewrite Hdot2. cbn [andb negb orb].
  destruct (bool_decide (length out = 0%nat)) eqn:Hout; cbn [negb];
    rewrite Hcopy; reflexivity.
Qed.

Lemma clean_loop_plain_last (fuel : nat) (e : string) (out : list ascii)
    (dotdot : nat) :
  is_plain_element e = true ->
  clean_loop (S fuel) false e out dotdot
  = (rev (String.list_ascii_of_string e)
     ++ (if bool_decide (length out = 0%nat) then out else Separator :: out))%list.
Proof.
  intros Hplain. rewrite <- (append_empty_r e) at 1.
  rewrite clean_loop_plain by (assumption || reflexivity).
  destruct fuel; reflexivity.
Qed.

Lemma clean_loop_separator (fuel : nat) (rooted : bool) (rest : string)
    (out : list ascii) (dotdot : nat) :
  clean_loop (S fuel) rooted (String Separator rest) out dotdot
  = clean_loop fuel rooted rest out dotdot.
Proof. reflexivity. Qed.

(** Two plain elements are joined with one separator and nothing else
    changes. *)
Lemma Join_plain (group kind : string) :
  is_plain_element group = true ->
  is_plain_element kind = true ->
  Join [group; kind] = group +:+ "/" +:+ kind.
Proof.
  intros Hg Hk.
  destruct (plain_element_head group Hg) as (ch & g' & Hgeq & Hch & _).
  unfold Join. rewrite bool_decide_eq_false_2 by (rewrite Hgeq; discriminate).
  change (String.concat "/" [group; kind]) with (group +:+ "/" +:+ kind).
  unfold Clean.
  destruct (group +:+ "/" +:+ kind) as [|ch' p'] eqn:Hpath;
    [rewrite Hgeq in Hpath; discriminate|].
  assert (Hrooted : IsPathSeparator ch' = false).
  { rewrite Hgeq in Hpath.
    change (String ch g' +:+ "/" +:+ kind)
      with (String ch (g' +:+ "/" +:+ kind)) in Hpath.
    injection Hpath as -> _. exact Hch. }
  rewrite Hrooted, <- Hpath.
  assert (Hfuel : exists n, String.length (group +:+ "/" +:+ kind) = S (S (S n))).
  { rewrite Hgeq. destruct (plain_element_head kind Hk) as (ck & k' & -> & _).
    clear. induction g' as [|c0 g' [n IH]]; simpl.
    - eexists; reflexivity.
    - simpl in IH. exists (S n). rewrite IH. reflexivity. }
  destruct Hfuel as [n ->].
  rewrite clean_loop_plain by (assumption || reflexivity).
  cbn [length bool_decide]. rewrite bool_decide_eq_true_2 by reflexivity.
  change ("/" +:+ kind) with (String Separator kind).
  rewrite clean_loop_separator.
  rewrite clean_loop_plain_last by assumption.
  rewrite app_nil_r.
  rewrite bool_decide_eq_false_2
    by (rewrite Hgeq; simpl; rewrite length_app; simpl; lia).
  set (out := (rev (String.list_ascii_of_string kind)
               ++ Separator :: rev (String.list_ascii_of_string group))%list).
  assert (Hout : String.string_of_list_ascii (rev out)
                 = group +:+ "/" +:+ kind).
  { subst out. rewrite rev_app_distr. simpl rev at 1.
    rewrite !rev_involutive, <- app_assoc, !string_of_list_ascii_app.
    rewrite !String.string_of_list_ascii_of_string. reflexivity. }
  destruct out as [|ch0 out0] eqn:Hshape; [|exact Hout].
  subst out. destruct (rev (String.list_ascii_of_string kind)); discriminate.
Qed.
End PathFacts.

Module ApprovalFacts.
Import subjectaccessreview.

Section ReviewCases.
Variable certmanager_GroupName : string.
Variable sarclient_Create : SubjectAccessReview -> SubjectAccessReview + error.


(** [reviewRequest] creates exactly one access review, for the verb it is
    given and for the signer named after the issuer reference. *)
Lemma reviewRequest_review (req : AdmissionRequest) (cr : CertificateRequest)
    (verb : string) :
  exists review,
    snd (reviewRequest certmanager_GroupName sarclient_Create req cr verb) = [review]
    /\ review_Verb review = Some verb
    /\ review_Name review
       = Some (filepath.Join [Group (IssuerRef (Spec cr));
                              Kind (IssuerRef (Spec cr))])
    /\ fst (reviewRequest certmanager_GroupName sarclient_Create req cr verb)
       = match sarclient_Create review with
         | inr err => (false, Some err)
         | inl resp => (Allowed (sar_Status resp), None)
         end.
Proof.
  unfold reviewRequest.
  destruct (sarclient_Create _) eqn:Hcreate;
    (eexists; split; [reflexivity|]; split; [reflexivity|];
     split; [reflexivity|]; rewrite Hcreate; reflexivity).
Qed.

Lemma Review_unchanged (req : AdmissionRequest) (oldCR newCR : CertificateRequest) :
  apiutil.GetCertificateRequestCondition (Conditions (Status_ oldCR))
    CertificateRequestConditionApproved
  = apiutil.GetCertificateRequestCondition (Conditions (Status_ newCR))
      CertificateRequestConditionApproved ->
  apiutil.GetCertificateRequestCondition (Conditions (Status_ oldCR))
    CertificateRequestConditionDenied
  = apiutil.GetCertificateRequestCondition (Conditions (Status_ newCR))
      CertificateRequestConditionDenied ->
  Review certmanager_GroupName sarclient_Create req oldCR newCR = ([], []).
Proof.
  intros Happroved Hdenied. unfold Review, reflect_DeepEqual.
  rewrite !bool_decide_eq_true_2 by assumption. reflexivity.
Qed.

Lemma Review_approved_changed (req : AdmissionRequest)
    (oldCR newCR : CertificateRequest) :
  apiutil.GetCertificateRequestCondition (Conditions (Status_ oldCR))
    CertificateRequestConditionApproved
  <> apiutil.GetCertificateRequestCondition (Conditions (Status_ newCR))
       CertificateRequestConditionApproved ->
  Review certmanager_GroupName sarclient_Create req oldCR newCR
  = let '((ok, err), reviews) :=
      reviewRequest certmanager_GroupName sarclient_Create req newCR "approve" in
    (match err with
     | Some err => [field_InternalError "status.conditions" err]
     | None =>
         if negb ok then
           [field_Forbidden "status.conditions"
              "user does not have permissions to set approved/deny conditions"]
         else []
     end, reviews).
Proof.
  intros Happroved. unfold Review, reflect_DeepEqual.
  rewrite (bool_decide_eq_false_2 _ Happroved). cbn [negb].
  destruct (reviewRequest _ _ req newCR "approve") as [[ok [err|]] reviews];
    [reflexivity|]. destruct ok; reflexivity.
Qed.

End ReviewCases.

(** C8 (as amended).  When neither the Approved nor the Denied condition
    differs between the old and the new object, [Review] returns no errors
    and creates no access review.  When the Approved condition differs,
    [Review] creates exactly one access review, with verb [approve] and
    resource name [filepath.Join(group, kind)] of the new object's issuer
    reference, and returns the Forbidden error on [status.conditions] when
    the collaborator answers with allowed=false.  The name reads
    [<group>/<kind>] when group and kind are plain path elements (not empty,
    not [.] or [..], without separator). *)
Theorem C8_Review_checks_approve_permission
    (certmanager_GroupName : string)
    (sarclient_Create : SubjectAccessReview -> SubjectAccessReview + error)
    (req : AdmissionRequest) (oldCR newCR : CertificateRequest) :
  let approved cr :=
    apiutil.GetCertificateRequestCondition (Conditions (Status_ cr))
      CertificateRequestConditionApproved in
  let denied cr :=
    apiutil.GetCertificateRequestCondition (Conditions (Status_ cr))
      CertificateRequestConditionDenied in
  let result := Review certmanager_GroupName sarclient_Create req oldCR newCR in
  (approved oldCR = approved newCR -> denied oldCR = denied newCR ->
   result = ([], []))
  /\ (approved oldCR <> approved newCR ->
      exists review,
        snd result = [review]
        /\ review_Verb review = Some "approve"
        /\ review_Name review
           = Some (filepath.Join [Group (IssuerRef (Spec newCR));
                                  Kind (IssuerRef (Spec newCR))])
        /\ (forall resp,
              sarclient_Create review = inl resp ->
              Allowed (sar_Status resp) = false ->
              fst result
              = [field_Forbidden "status.conditions"
                   "user does not have permissions to set approved/deny conditions"]))
  /\ (filepath.is_plain_element (Group (IssuerRef (Spec newCR))) = true ->
      filepath.is_plain_element (Kind (IssuerRef (Spec newCR))) = true ->
      filepath.Join [Group (IssuerRef (Spec newCR));
                     Kind (IssuerRef (Spec newCR))]
      = Group (IssuerRef (Spec newCR)) +:+ "/" +:+ Kind (IssuerRef (Spec newCR))).
Proof.
  cbv zeta. split; [apply Review_unchanged|]. split; [|apply PathFacts.Join_plain].
  intros Hchanged. rewrite (Review_approved_changed _ _ _ _ _ Hchanged).
  destruct (reviewRequest_review certmanager_GroupName sarclient_Create
              req newCR "approve") as (review & Hcalls & Hverb & Hname & Hres).
  destruct (reviewRequest _ _ req newCR "approve") as [[ok err] reviews].
  cbn [fst snd] in *. subst reviews.
  exists review. repeat split; try assumption.
  intros resp Hcreate Hallowed. rewrite Hcreate, Hallowed in Hres.
  injection Hres as -> ->. reflexivity.
Qed.

(** C10.  When both the Approved and the Denied condition differ between the
    old and the new object, [Review] creates exactly one access review; its
    verb is [approve] and not [deny]. *)
Theorem C10_approve_is_checked_before_deny
    (certmanager_GroupName : string)
    (sarclient_Create : SubjectAccessReview -> SubjectAccessReview + error)
    (req : AdmissionRequest) (oldCR newCR : CertificateRequest) :
  apiutil.GetCertificateRequestCondition (Conditions (Status_ oldCR))
    CertificateRequestConditionApproved
  <> apiutil.GetCertificateRequestCondition (Conditions (Status_ newCR))
       CertificateRequestConditionApproved ->
  apiutil.GetCertificateRequestCondition (Conditions (Status_ oldCR))
    CertificateRequestConditionDenied
  <> apiutil.GetCertificateRequestCondition (Conditions (Status_ newCR))
       CertificateRequestConditionDenied ->
  exists review,
    snd (Review certmanager_GroupName sarclient_Create req oldCR newCR)
      = [review]
    /\ review_Verb review = Some "approve"
    /\ review_Verb review <> Some "deny".
Proof.
  intros Happroved _. rewrite (Review_approved_changed _ _ _ _ _ Happroved).
  destruct (reviewRequest_review certmanager_GroupName sarclient_Create
              req newCR "approve") as (review & Hcalls & Hverb & _).
  destruct (reviewRequest _ _ req newCR "approve") as [[ok err] reviews].
  cbn [snd] in *. subst reviews. exists review.
  split; [reflexivity|]. split; [exact Hverb|]. rewrite Hverb. discriminate.
Qed.

End ApprovalFacts.

Module ApprovalWitness.
Import subjectaccessreview ApprovalFacts fixtures.

(** C8 (witness): a newly set Approved condition, group [cert-manager.io],
    kind [Issuer], and a collaborator that allows nothing. *)
Lemma C8_witness :
  (exists review,
     snd (Review "cert-manager.io" denyAll alice
            (requestFor "cert-manager.io" "Issuer" [])
            (requestFor "cert-manager.io" "Issuer"
               [condition "Approved" ConditionTrue])) = [review]
     /\ review_Verb review = Some "approve"
     /\ review_Name review = Some "cert-manager.io/Issuer")
  /\ fst (Review "cert-manager.io" denyAll alice
            (requestFor "cert-manager.io" "Issuer" [])
            (requestFor "cert-manager.io" "Issuer"
               [condition "Approved" ConditionTrue]))
     = [field_Forbidden "status.conditions"
          "user does not have permissions to set approved/deny conditions"].
Proof.
  destruct (C8_Review_checks_approve_permission "cert-manager.io" denyAll alice
              (requestFor "cert-manager.io" "Issuer" [])
              (requestFor "cert-manager.io" "Issuer"
                 [condition "Approved" ConditionTrue]))
    as (_ & Hchanged & Hplain).
  destruct Hchanged as (review & Hcalls & Hverb & Hname & Hdenied);
    [discriminate|].
  rewrite Hplain in Hname by reflexivity.
  split.
  - exists review. repeat split; assumption.
  - apply (Hdenied {| sar_Spec := sar_Spec review;
                      sar_Status := {| Allowed := false |} |});
      reflexivity.
Defined.

(** C8 (counterexample).  With an empty group in the issuer reference the
    resource name of the access review is [Issuer], not [/Issuer]. *)
Lemma C8_counterexample :
  let newCR := requestFor EmptyString "Issuer" [condition "Approved" ConditionTrue] in
  let result := Review "cert-manager.io" denyAll alice
                  (requestFor EmptyString "Issuer" []) newCR in
  review_Name <$> snd result = [Some "Issuer"]
  /\ "Issuer"
     <> Group (IssuerRef (Spec newCR)) +:+ "/" +:+ Kind (IssuerRef (Spec newCR)).
Proof. cbv zeta. split; [vm_compute; reflexivity | discriminate]. Qed.

(** C10 (witness): the new object sets both Approved and Denied. *)
Lemma C10_witness :
  exists review,
    snd (Review "cert-manager.io" denyAll alice
           (requestFor "cert-manager.io" "Issuer" [])
           (requestFor "cert-manager.io" "Issuer"
              [condition "Approved" ConditionTrue;
               condition "Denied" ConditionTrue])) = [review]
    /\ review_Verb review = Some "approve"
    /\ review_Verb review <> Some "deny".
Proof.
  apply C10_approve_is_checked_before_deny; discriminate.
Defined.
End ApprovalWitness.

Module IssuerFacts.
Import issuers fixtures.

(** C9.  [Issuer] dispatches on the kind of the reference.  An empty kind or
    the namespaced kind: one lookup on the issuer lister of the given
    namespace.  The cluster kind (a name of its own, different from the
    empty and the namespaced one): one lookup on the cluster-issuer lister,
    the same for every namespace given; without a cluster-issuer lister no
    lookup is made and an error naming the issuer is returned.  Any other
    kind: no lookup, and an error naming the rejected kind and the two
    accepted ones. *)
Theorem C9_Issuer_dispatches_on_kind
    (IssuerKind ClusterIssuerKind : string) (h : getterImpl)
    (ref : ObjectReference) (ns : string) :
  (Kind ref = EmptyString \/ Kind ref = IssuerKind ->
   Issuer IssuerKind ClusterIssuerKind h ref ns
   = (issuerLister h ns (Name ref), [Issuers_Get ns (Name ref)]))
  /\ (Kind ref = ClusterIssuerKind ->
      ClusterIssuerKind <> EmptyString -> ClusterIssuerKind <> IssuerKind ->
      forall lister,
        clusterIssuerLister h = Some lister ->
        forall ns',
          Issuer IssuerKind ClusterIssuerKind h ref ns'
          = (lister (Name ref), [ClusterIssuers_Get (Name ref)]))
  /\ (Kind ref = ClusterIssuerKind ->
      ClusterIssuerKind <> EmptyString -> ClusterIssuerKind <> IssuerKind ->
      clusterIssuerLister h = None ->
      Issuer IssuerKind ClusterIssuerKind h ref ns
      = (inr (fmt_Errorf
                "cannot get ClusterIssuer named %q as cert-manager is scoped to a single namespace"
                [Name ref]), []))
  /\ (Kind ref <> EmptyString -> Kind ref <> IssuerKind ->
      Kind ref <> ClusterIssuerKind ->
      Issuer IssuerKind ClusterIssuerKind h ref ns
      = (inr (fmt_Errorf
                "invalid value %q for issuerRef.kind. Must be empty, %q or %q"
                [Kind ref; IssuerKind; ClusterIssuerKind]), [])).
Proof.
  unfold Issuer. repeat split.
  - intros [Hkind | Hkind]; rewrite Hkind.
    + reflexivity.
    + rewrite (bool_decide_eq_true_2 (IssuerKind = IssuerKind)) by reflexivity.
      rewrite orb_true_r. reflexivity.
  - intros Hkind Hne Hne' lister Hlister ns'. rewrite Hkind, Hlister.
    rewrite !bool_decide_eq_false_2 by assumption.
    rewrite bool_decide_eq_true_2 by reflexivity. reflexivity.
  - intros Hkind Hne Hne' Hlister. rewrite Hkind, Hlister.
    rewrite !bool_decide_eq_false_2 by assumption.
    rewrite bool_decide_eq_true_2 by reflexivity. reflexivity.
  - intros Hne Hne' Hne''. rewrite !bool_decide_eq_false_2 by assumption.
    reflexivity.
Qed.

(** C9 (witness): a getter with both listers and a getter without
    cluster-issuer lister, asked for each kind. *)
Lemma C9_witness :
  Issuer "Issuer" "ClusterIssuer" bothListers
    {| Name := "ca"; Kind := EmptyString; Group := EmptyString |} "team-a"
  = (inl readyIssuer, [Issuers_Get "team-a" "ca"])
  /\ (forall ns,
        Issuer "Issuer" "ClusterIssuer" bothListers
          {| Name := "ca"; Kind := "ClusterIssuer"; Group := EmptyString |} ns
        = (inl clusterIssuer, [ClusterIssuers_Get "ca"]))
  /\ Issuer "Issuer" "ClusterIssuer" namespacedOnly
       {| Name := "ca"; Kind := "ClusterIssuer"; Group := EmptyString |} "team-a"
     = (inr (fmt_Errorf
               "cannot get ClusterIssuer named %q as cert-manager is scoped to a single namespace"
               ["ca"]), [])
  /\ Issuer "Issuer" "ClusterIssuer" namespacedOnly
       {| Name := "ca"; Kind := "Certificate"; Group := EmptyString |} "team-a"
     = (inr (fmt_Errorf
               "invalid value %q for issuerRef.kind. Must be empty, %q or %q"
               ["Certificate"; "Issuer"; "ClusterIssuer"]), []).
Proof.
  split; [|split; [|split]].
  - apply (proj1 (C9_Issuer_dispatches_on_kind "Issuer" "ClusterIssuer"
                    bothListers {| Name := "ca"; Kind := EmptyString; Group := EmptyString |}
                    "team-a")).
    left. reflexivity.
  - intros ns.
    apply (proj1 (proj2 (C9_Issuer_dispatches_on_kind "Issuer" "ClusterIssuer"
                    bothListers
                    {| Name := "ca"; Kind := "ClusterIssuer"; Group := EmptyString |}
                    "team-a")) eq_refl ltac:(discriminate) ltac:(discriminate)
             (fun _ => inl clusterIssuer) eq_refl ns).
  - apply (proj1 (proj2 (proj2 (C9_Issuer_dispatches_on_kind
                    "Issuer" "ClusterIssuer" namespacedOnly
                    {| Name := "ca"; Kind := "ClusterIssuer"; Group := EmptyString |}
                    "team-a"))));
      first [reflexivity | discriminate].
  - apply (proj2 (proj2 (proj2 (C9_Issuer_dispatches_on_kind
                    "Issuer" "ClusterIssuer" namespacedOnly
                    {| Name := "ca"; Kind := "Certificate"; Group := EmptyString |}
                    "team-a"))));
      discriminate.
Defined.
End IssuerFacts.

Module MatchFacts.
Import certificaterequests fixtures.

Section Match.
Context `{GoLib} `{Helpers}.

Lemma append_if_nil (b : bool) (msg : string) (errs : list string) :
  append_if b msg errs = [] <-> b = false /\ errs = [].
Proof.
  destruct b; cbn; [|tauto]. split; [|intros [[=] _]].
  destruct errs; discriminate.
Qed.

(** The certificate matches exactly when each of the four comparisons
    passes. *)
Lemma certificateMatchesSpec_true (cr : CertificateRequest)
    (csr : x509_CertificateRequest) (cert : x509_Certificate) :
  fst (certificateMatchesSpec cr csr cert) = true
  <-> CommonNameForCertificateRequest csr = Subject_CommonName cert
      /\ util.EqualUnsorted (DNSNames cert) (DNSNamesForCertificateRequest csr)
         = true
      /\ util.EqualUnsorted (URLsToString (URIs cert))
           (URLsToString (csr_URIs csr)) = true
      /\ util.EqualUnsorted (IPAddressesToString (IPAddresses cert))
           (IPAddressesToString (csr_IPAddresses csr)) = true.
Proof.
  unfold certificateMatchesSpec. cbn [fst].
  rewrite bool_decide_eq_true, length_zero_iff_nil.
  rewrite !append_if_nil, !negb_false_iff, bool_decide_eq_true. tauto.
Qed.

Lemma certificateMatchesSpec_common_name_first (cr : CertificateRequest)
    (csr : x509_CertificateRequest) (cert : x509_Certificate) :
  CommonNameForCertificateRequest csr <> Subject_CommonName cert ->
  head (snd (certificateMatchesSpec cr csr cert))
  = Some (fmt_Sprintf "Common name on TLS certificate not up to date: %q"
            [arg_string (Subject_CommonName cert)]).
Proof.
  intros Hcn. unfold certificateMatchesSpec. cbn [snd].
  rewrite (bool_decide_eq_false_2 _ Hcn). cbn [negb append_if app].
  unfold append_if. repeat destruct (negb _); reflexivity.
Qed.

End Match.

(** C6 (as amended).  In [certificateMatchesSpec] the common name is
    accepted exactly when the certificate's common name equals the expected
    one, which [pki.CommonNameForCertificateRequest] derives from the CSR
    alone.  A different common name makes the result false and is the first
    reason reported, whether or not it is among the certificate's DNS names;
    with the DNS, URI and IP comparisons passing, the result is the outcome
    of that equality test. *)
Theorem C6_common_name_matches_by_equality_alone
    `{GoLib} `{Helpers} (cr : CertificateRequest)
    (csr : x509_CertificateRequest) (cert : x509_Certificate) :
  (CommonNameForCertificateRequest csr <> Subject_CommonName cert ->
   fst (certificateMatchesSpec cr csr cert) = false
   /\ head (snd (certificateMatchesSpec cr csr cert))
      = Some (fmt_Sprintf "Common name on TLS certificate not up to date: %q"
                [arg_string (Subject_CommonName cert)]))
  /\ (util.EqualUnsorted (DNSNames cert) (DNSNamesForCertificateRequest csr)
      = true ->
      util.EqualUnsorted (URLsToString (URIs cert))
        (URLsToString (csr_URIs csr)) = true ->
      util.EqualUnsorted (IPAddressesToString (IPAddresses cert))
        (IPAddressesToString (csr_IPAddresses csr)) = true ->
      fst (certificateMatchesSpec cr csr cert)
      = bool_decide (CommonNameForCertificateRequest csr
                     = Subject_CommonName cert)).
Proof.
  split.
  - intros Hcn. split; [|apply certificateMatchesSpec_common_name_first, Hcn].
    apply not_true_is_false. rewrite certificateMatchesSpec_true. tauto.
  - intros Hdns Huri Hip.
    destruct (fst (certificateMatchesSpec cr csr cert)) eqn:Hm.
    + apply certificateMatchesSpec_true in Hm as [Hcn _].
      symmetry. apply bool_decide_eq_true_2, Hcn.
    + symmetry. apply bool_decide_eq_false_2. intros Hcn.
      assert (Ht : fst (certificateMatchesSpec cr csr cert) = true)
        by (apply certificateMatchesSpec_true; tauto).
      congruence.
Qed.

(** C6 (witness): a CSR without common name against a certificate whose
    common name is one of its DNS names, and the CSR of the fixtures against
    the certificate cut from it. *)
Lemma C6_witness :
  fst (@certificateMatchesSpec fixture_lib fixture_helpers exampleSignedCR
         csrNoCommonName certA) = false
  /\ fst (@certificateMatchesSpec fixture_lib fixture_helpers exampleSignedCR
            csr1 cert1) = true.
Proof.
  split.
  - refine (proj1 (proj1 (@C6_common_name_matches_by_equality_alone
                            fixture_lib fixture_helpers exampleSignedCR
                            csrNoCommonName certA) _)).
    discriminate.
  - rewrite (proj2 (@C6_common_name_matches_by_equality_alone
                      fixture_lib fixture_helpers exampleSignedCR csr1 cert1))
      by reflexivity.
    reflexivity.
Defined.

(** C6 (counterexample).  A CSR without common name and two certificates
    whose DNS names are those of the CSR and whose common names are two
    different entries of their own DNS names.  With the common name read off
    the CSR's subject the first is rejected; and no helper deriving the
    expected common name from the CSR makes [certificateMatchesSpec] accept
    both. *)
Lemma C6_counterexample :
  csr_Subject_CommonName csrNoCommonName = EmptyString
  /\ Forall (fun cert =>
       Subject_CommonName cert <> EmptyString
       /\ In (Subject_CommonName cert) (DNSNames cert)
       /\ util.EqualUnsorted (DNSNames cert) (csr_DNSNames csrNoCommonName)
          = true) [certA; certB]
  /\ fst (@certificateMatchesSpec fixture_lib fixture_helpers exampleSignedCR
            csrNoCommonName certA) = false
  /\ ~ exists commonName : x509_CertificateRequest -> string,
         Forall (fun cert =>
           fst (@certificateMatchesSpec fixture_lib (helpers_with commonName)
                  exampleSignedCR csrNoCommonName cert) = true)
           [certA; certB].
Proof.
  split; [reflexivity|]. split.
  { repeat constructor; try discriminate; cbn; tauto. }
  split; [reflexivity|].
  intros [commonName Hall].
  apply Forall_cons in Hall as [HA Hall].
  apply Forall_cons in Hall as [HB _].
  apply certificateMatchesSpec_true in HA as [HA _].
  apply certificateMatchesSpec_true in HB as [HB _].
  cbn in HA, HB. congruence.
Qed.
End MatchFacts.

(** * Further properties of the code *)

Module SyncStops.
Import issuer certificaterequests SyncFacts.

Section Stops.
Context `{GoLib} `{Helpers}.
Variable c : Controller.

(** What [Sync] returns, given what its body returned: the body's error,
    or, when the store rejects the write, the aggregate of the save error
    and the body's error. *)
Lemma Sync_error_of_body (cr : CertificateRequest) :
  fst (Sync c cr) = fst (Sync_body_from c cr)
  \/ exists saveErr,
       CMClient_Update c (crCopy (snd (Sync_body_from c cr))) = inr saveErr
       /\ fst (Sync c cr)
          = NewAggregate [Some saveErr; fst (Sync_body_from c cr)].
Proof.
  rewrite Sync_unfold. destruct (Sync_body_from c cr) as [err s].
  cbn [fst snd].
  destruct (updateCertificateStatus_cases c cr s)
    as [[_ ->] | [_ (saved & -> & Hsaved)]]; [left; reflexivity|].
  rewrite Hsaved. destruct (CMClient_Update c (crCopy s)) as [|saveErr].
  - left. reflexivity.
  - right. exists saveErr. split; reflexivity.
Qed.

(** What [Sync] returns, exactly: the body's error when the serialised
    status is unchanged or the Update succeeds, and the aggregate of the
    save error and the body's error when the Update fails. *)
Lemma Sync_error_exact (cr : CertificateRequest) :
  fst (Sync c cr)
  = if bool_decide
         (json_Marshal (Status_ cr)
          = json_Marshal (Status_ (crCopy (snd (Sync_body_from c cr)))))
    then fst (Sync_body_from c cr)
    else match CMClient_Update c (crCopy (snd (Sync_body_from c cr))) with
         | inl _ => fst (Sync_body_from c cr)
         | inr saveErr =>
             NewAggregate [Some saveErr; fst (Sync_body_from c cr)]
         end.
Proof.
  rewrite Sync_unfold. destruct (Sync_body_from c cr) as [err s].
  cbn [fst snd].
  destruct (updateCertificateStatus_cases c cr s)
    as [[Heq ->] | [Hne (saved & -> & Hsaved)]].
  - rewrite bool_decide_eq_true_2 by exact Heq. reflexivity.
  - rewrite bool_decide_eq_false_2 by exact Hne. rewrite Hsaved.
    destruct (CMClient_Update c (crCopy s)); reflexivity.
Qed.

(** The body up to the point where both the CSR and the certificate are
    decoded and the status is computed. *)
Lemma Sync_body_decoded (cr : CertificateRequest)
    (csr : x509_CertificateRequest) (crt : x509_Certificate) :
  decodes_to cr csr crt ->
  Sync_body_from c cr
  = (let crCopy := setCertificateRequestStatus c cr csr (Some crt) in
     let s0 := {| crCopy := crCopy; calls := [IncrementSyncCallCount] |} in
     let el := ValidateCertificateRequest crCopy in
     if bool_decide (0 < length el)%nat then
       (None, {| crCopy := crCopy;
                 calls := [IncrementSyncCallCount;
                           Recorder_Event corev1_EventTypeWarning "BadConfig"
                             (fmt_Sprintf "Resource validation failed: %v"
                                [arg_ErrorList el])] |})
     else
       let pre1 := [IncrementSyncCallCount;
                    GetGenericIssuer_call (IssuerRef (Spec crCopy))
                      (Namespace crCopy)] in
       match helper_GetGenericIssuer c (IssuerRef (Spec crCopy))
               (Namespace crCopy) with
       | inr err =>
           if IsNotFound (Some err) then
             (None, {| crCopy := crCopy;
                       calls := (pre1 ++ [Recorder_Event corev1_EventTypeWarning
                                            errorIssuerNotFound
                                            (fmt_Sprintf (error_Error err) [])])%list |})
           else (Some err, {| crCopy := crCopy; calls := pre1 |})
       | inl issuerObj =>
           let el := ValidateCertificateRequestForIssuer crCopy issuerObj in
           if bool_decide (0 < length el)%nat then
             (None, {| crCopy := crCopy;
                       calls := (pre1 ++ [Recorder_Event corev1_EventTypeWarning
                                            "BadConfig"
                                            (fmt_Sprintf "Resource validation failed: %v"
                                               [arg_ErrorList el])])%list |})
           else if negb (apiutil.IssuerHasCondition issuerObj
                           {| IssuerCondition_Type := IssuerConditionReady;
                              IssuerCondition_Status := ConditionTrue |}) then
             (None, {| crCopy := crCopy;
                       calls := (pre1 ++ [Recorder_Event corev1_EventTypeWarning
                                            errorIssuerNotReady
                                            (fmt_Sprintf "Issuer %s not ready"
                                               [arg_string (Issuer_Name issuerObj)])])%list |})
           else
             let pre2 := (pre1 ++ [IssuerFor_call issuerObj])%list in
             match issuerFactory_IssuerFor c issuerObj with
             | inr err =>
                 (None, {| crCopy := crCopy;
                           calls := (pre2 ++ [Recorder_Event corev1_EventTypeWarning
                                                errorIssuerInit
                                                (fmt_Sprintf "Internal error initialising issuer: %v"
                                                   [arg_error (Some err)])])%list |})
             | inl i =>
                 if isTemporaryCertificate (Some crt)
                    || negb (fst (certificateMatchesSpec cr csr crt))
                 then sign i {| crCopy := crCopy; calls := pre2 |}
                 else (None, {| crCopy := crCopy; calls := pre2 |})
             end
       end).
Proof.
  intros Hdec.
  destruct Hdec as (Hlen & (der & Hpem & Hcsr) & Hlen' & (der' & Hpem' & Hcrt)).
  unfold Sync_body_from, Sync_body.
  rewrite (bool_decide_eq_false_2 _ Hlen), Hpem, Hcsr,
    (bool_decide_eq_false_2 _ Hlen'), Hpem', Hcrt.
  cbv beta iota zeta
    delta [bind modify_cr get_cr call ret bad_config Recorder_Eventf
           crCopy calls app].
  set (crCopy1 := setCertificateRequestStatus c cr csr (Some crt)).
  destruct (bool_decide (0 < length (ValidateCertificateRequest crCopy1))%nat);
    [reflexivity|].
  destruct (helper_GetGenericIssuer c _ _) as [issuerObj|err];
    [|destruct (IsNotFound (Some err)); reflexivity].
  destruct (bool_decide (0 < length _)%nat); [reflexivity|].
  destruct (apiutil.IssuerHasCondition issuerObj _); cbn [negb]; [|reflexivity].
  destruct (issuerFactory_IssuerFor c issuerObj) as [i|]; [|reflexivity].
  destruct (isTemporaryCertificate (Some crt)); cbn [orb]; [reflexivity|].
  rewrite (certificateMatchesSpec_any_request crCopy1 cr).
  destruct (certificateMatchesSpec cr csr crt) as [[] ?]; reflexivity.
Qed.

(** The round's calls, given the body's: the store Update is appended when
    the serialised status changed. *)
Lemma Sync_never_signs_if_body_does_not (cr : CertificateRequest) :
  filter is_Sign_call (calls (snd (Sync_body_from c cr))) = [] ->
  filter is_Sign_call (calls (snd (Sync c cr))) = [].
Proof. intros Hbody. rewrite Sync_sign_calls. exact Hbody. Qed.

End Stops.

(** X1.  When the CSR decodes and the status holds certificate bytes, [Sync]
    returns [errors.New(CertParseError)] if the bytes hold no PEM block and
    the parser's own error if the block is not a certificate.  In both cases
    the working copy is the request as it was given and the sync counter is
    the only call made: no event, no issuer lookup, no [Sign], no Update. *)
Theorem X1_undecodable_certificate_returns_error
    `{GoLib} `{Helpers} (c : Controller) (cr : CertificateRequest)
    (der : bytes) (csr : x509_CertificateRequest) :
  length (CSRPem (Spec cr)) <> 0%nat ->
  pem_Decode (CSRPem (Spec cr)) = Some der ->
  x509_ParseCertificateRequest der = inl csr ->
  length (Certificate (Status_ cr)) <> 0%nat ->
  (pem_Decode (Certificate (Status_ cr)) = None ->
   Sync c cr = (Some (errors_New "CertParseError"),
                {| crCopy := cr; calls := [IncrementSyncCallCount] |}))
  /\ (forall der' e,
        pem_Decode (Certificate (Status_ cr)) = Some der' ->
        x509_ParseCertificate der' = inr e ->
        Sync c cr = (Some e,
                     {| crCopy := cr; calls := [IncrementSyncCallCount] |})).
Proof.
  intros Hlen Hpem Hcsr Hlen'. split.
  - intros Hpem'. apply Sync_body_early. unfold Sync_body.
    rewrite (bool_decide_eq_false_2 _ Hlen), Hpem, Hcsr,
      (bool_decide_eq_false_2 _ Hlen'), Hpem'. reflexivity.
  - intros der' e Hpem' Hcrt. apply Sync_body_early. unfold Sync_body.
    rewrite (bool_decide_eq_false_2 _ Hlen), Hpem, Hcsr,
      (bool_decide_eq_false_2 _ Hlen'), Hpem', Hcrt. reflexivity.
Qed.

Lemma X1_witness :
  @Sync fixtures.fixture_lib fixtures.fixture_helpers
    fixtures.exampleController sync_fixtures.exampleGarbageCertCR
  = (Some (errors_New "CertParseError"),
     {| crCopy := sync_fixtures.exampleGarbageCertCR; calls := [IncrementSyncCallCount] |})
  /\ @Sync fixtures.fixture_lib fixtures.fixture_helpers
       fixtures.exampleController sync_fixtures.exampleBadCertDERCR
     = (Some fixtures.asn1_error,
        {| crCopy := sync_fixtures.exampleBadCertDERCR;
           calls := [IncrementSyncCallCount] |}).
Proof.
  split.
  - apply (proj1 (@X1_undecodable_certificate_returns_error
                    fixtures.fixture_lib fixtures.fixture_helpers
                    fixtures.exampleController sync_fixtures.exampleGarbageCertCR
                    (fixtures.B "csr1") fixtures.csr1
                    ltac:(discriminate) eq_refl eq_refl ltac:(discriminate))).
    reflexivity.
  - apply (proj2 (@X1_undecodable_certificate_returns_error
                    fixtures.fixture_lib fixtures.fixture_helpers
                    fixtures.exampleController sync_fixtures.exampleBadCertDERCR
                    (fixtures.B "csr1") fixtures.csr1
                    ltac:(discriminate) eq_refl eq_refl ltac:(discriminate))
             (fixtures.B "garbage")); reflexivity.
Defined.

End SyncStops.

Module SyncOutcomes.
Import issuer certificaterequests SyncFacts SyncStops.

Section Outcome.
Context `{GoLib} `{Helpers}.
Variable c : Controller.

(** A round whose body stops without signing: no [Sign] in the whole round,
    and the round's error is the body's unless the store rejects the write. *)
Lemma Sync_stopped (cr crCopy1 : CertificateRequest) (err : option error)
    (pre : list Call) :
  Sync_body_from c cr = (err, {| crCopy := crCopy1; calls := pre |}) ->
  filter is_Sign_call pre = [] ->
  filter is_Sign_call (calls (snd (Sync c cr))) = []
  /\ crCopy (snd (Sync c cr)) = crCopy1
  /\ (fst (Sync c cr) = err
      \/ exists saveErr,
           CMClient_Update c crCopy1 = inr saveErr
           /\ fst (Sync c cr) = NewAggregate [Some saveErr; err]).
Proof.
  intros Hbody Hpre. split; [|split].
  - rewrite Sync_sign_calls, Hbody. exact Hpre.
  - rewrite Sync_crCopy, Hbody. reflexivity.
  - pose proof (Sync_error_of_body c cr) as Herr. rewrite Hbody in Herr.
    exact Herr.
Qed.

End Outcome.

(** X2.  When the CSR and the certificate decode and
    [validation.ValidateCertificateRequest] reports errors on the working
    copy, the body records one Warning event [BadConfig] that carries the
    error list and returns nil.  The round never calls [Sign]; its error is
    nil unless the status write fails, and then it is the aggregate of the
    save error alone.  Exactly: the round returns nil when the serialised
    status is unchanged or the Update succeeds, and the aggregate of the
    save error when the Update fails. *)
Theorem X2_invalid_request_is_reported_not_signed
    `{GoLib} `{Helpers} (c : Controller) (cr : CertificateRequest)
    (csr : x509_CertificateRequest) (crt : x509_Certificate) :
  let crCopy1 := setCertificateRequestStatus c cr csr (Some crt) in
  decodes_to cr csr crt ->
  ValidateCertificateRequest crCopy1 <> [] ->
  Sync_body_from c cr
  = (None,
     {| crCopy := crCopy1;
        calls := [IncrementSyncCallCount;
                  Recorder_Event "Warning" "BadConfig"
                    (fmt_Sprintf "Resource validation failed: %v"
                       [arg_ErrorList (ValidateCertificateRequest crCopy1)])] |})
  /\ filter is_Sign_call (calls (snd (Sync c cr))) = []
  /\ (fst (Sync c cr) = None
      \/ exists saveErr,
           CMClient_Update c crCopy1 = inr saveErr
           /\ fst (Sync c cr) = Some (aggregate [saveErr]))
  /\ fst (Sync c cr)
     = (if bool_decide (json_Marshal (Status_ cr)
                        = json_Marshal (Status_ crCopy1))
        then None
        else match CMClient_Update c crCopy1 with
             | inl _ => None
             | inr saveErr => Some (aggregate [saveErr])
             end).
Proof.
  cbv zeta. intros Hdec Hval.
  assert (Hbody : Sync_body_from c cr
    = (None,
       {| crCopy := setCertificateRequestStatus c cr csr (Some crt);
          calls := [IncrementSyncCallCount;
                    Recorder_Event "Warning" "BadConfig"
                      (fmt_Sprintf "Resource validation failed: %v"
                         [arg_ErrorList
                            (ValidateCertificateRequest
                               (setCertificateRequestStatus c cr csr (Some crt)))])] |})).
  { rewrite (Sync_body_decoded c cr csr crt Hdec). cbv zeta.
    rewrite bool_decide_eq_true_2; [reflexivity|].
    destruct (ValidateCertificateRequest _); [congruence | cbn; lia]. }
  split; [exact Hbody|].
  destruct (Sync_stopped c cr _ _ _ Hbody eq_refl) as (Hsign & _ & Herr).
  split; [exact Hsign|]. split; [exact Herr|].
  rewrite Sync_error_exact, Hbody. cbn [fst snd crCopy].
  case_bool_decide; [reflexivity|].
  destruct (CMClient_Update c _); reflexivity.
Qed.

(** X3.  When the issuer lookup fails, the round never calls [Sign].  For a
    NotFound error the body records one Warning event [IssuerNotFound] and
    returns nil; the code hands the error's text to [Eventf] as the format,
    so the message of the event is what [fmt.Sprintf] makes of that text
    used as a format with no arguments.  For any other error the body
    records no event and returns that error.  The round returns the body's
    result when the serialised status is unchanged or the Update succeeds;
    when the Update fails it returns the aggregate of the save error,
    followed by the body's error if there is one. *)
Theorem X3_issuer_lookup_failure_stops_the_round
    `{GoLib} `{Helpers} (c : Controller) (cr : CertificateRequest)
    (csr : x509_CertificateRequest) (crt : x509_Certificate) (err : error) :
  let crCopy1 := setCertificateRequestStatus c cr csr (Some crt) in
  let unchanged :=
    bool_decide (json_Marshal (Status_ cr) = json_Marshal (Status_ crCopy1)) in
  decodes_to cr csr crt ->
  ValidateCertificateRequest crCopy1 = [] ->
  helper_GetGenericIssuer c (IssuerRef (Spec cr)) (Namespace cr) = inr err ->
  filter is_Sign_call (calls (snd (Sync c cr))) = []
  /\ (IsNotFound (Some err) = true ->
      Sync_body_from c cr
      = (None,
         {| crCopy := crCopy1;
            calls := [IncrementSyncCallCount;
                      GetGenericIssuer_call (IssuerRef (Spec cr)) (Namespace cr);
                      Recorder_Event "Warning" "IssuerNotFound"
                        (fmt_Sprintf (error_Error err) [])] |})
      /\ fst (Sync c cr)
         = (if unchanged then None
            else match CMClient_Update c crCopy1 with
                 | inl _ => None
                 | inr saveErr => Some (aggregate [saveErr])
                 end))
  /\ (IsNotFound (Some err) = false ->
      Sync_body_from c cr
      = (Some err,
         {| crCopy := crCopy1;
            calls := [IncrementSyncCallCount;
                      GetGenericIssuer_call (IssuerRef (Spec cr))
                        (Namespace cr)] |})
      /\ fst (Sync c cr)
         = (if unchanged then Some err
            else match CMClient_Update c crCopy1 with
                 | inl _ => Some err
                 | inr saveErr => Some (aggregate [saveErr; err])
                 end)).
Proof.
  cbv zeta. intros Hdec Hval Hget.
  pose proof (Sync_body_decoded c cr csr crt Hdec) as Hbody. cbv zeta in Hbody.
  destruct (setCertificateRequestStatus_Spec c cr csr (Some crt)) as [Hspec Hns].
  rewrite Hval, Hspec, Hns, Hget in Hbody.
  rewrite bool_decide_eq_false_2 in Hbody by (cbn; lia).
  destruct (IsNotFound (Some err)) eqn:Hnf.
  - destruct (Sync_stopped c cr _ _ _ Hbody eq_refl) as (Hsign & _ & _).
    split; [exact Hsign|]. split; [|discriminate].
    intros _. split; [exact Hbody|].
    rewrite Sync_error_exact, Hbody. cbn [fst snd crCopy].
    case_bool_decide; [reflexivity|].
    destruct (CMClient_Update c _); reflexivity.
  - destruct (Sync_stopped c cr _ _ _ Hbody eq_refl) as (Hsign & _ & _).
    split; [exact Hsign|]. split; [discriminate|].
    intros _. split; [exact Hbody|].
    rewrite Sync_error_exact, Hbody. cbn [fst snd crCopy].
    case_bool_decide; [reflexivity|].
    destruct (CMClient_Update c _); reflexivity.
Qed.

(** X4.  When the issuer is found and both validations pass, an issuer that
    is not Ready gives one Warning event [IssuerNotReady] naming the issuer,
    and a backend that cannot be built gives one Warning event
    [IssuerInitError] after the [IssuerFor] call.  In both cases the body
    returns nil and the round never calls [Sign]. *)
Theorem X4_unready_issuer_or_backend_stops_the_round
    `{GoLib} `{Helpers} (c : Controller) (cr : CertificateRequest)
    (csr : x509_CertificateRequest) (crt : x509_Certificate)
    (issuerObj : GenericIssuer) :
  let crCopy1 := setCertificateRequestStatus c cr csr (Some crt) in
  let ready :=
    apiutil.IssuerHasCondition issuerObj
      {| IssuerCondition_Type := "Ready";
         IssuerCondition_Status := ConditionTrue |} in
  decodes_to cr csr crt ->
  ValidateCertificateRequest crCopy1 = [] ->
  helper_GetGenericIssuer c (IssuerRef (Spec cr)) (Namespace cr)
    = inl issuerObj ->
  ValidateCertificateRequestForIssuer crCopy1 issuerObj = [] ->
  (ready = false ->
   Sync_body_from c cr
   = (None,
      {| crCopy := crCopy1;
         calls := [IncrementSyncCallCount;
                   GetGenericIssuer_call (IssuerRef (Spec cr)) (Namespace cr);
                   Recorder_Event "Warning" "IssuerNotReady"
                     (fmt_Sprintf "Issuer %s not ready"
                        [arg_string (Issuer_Name issuerObj)])] |}))
  /\ (forall err,
        ready = true ->
        issuerFactory_IssuerFor c issuerObj = inr err ->
        Sync_body_from c cr
        = (None,
           {| crCopy := crCopy1;
              calls := [IncrementSyncCallCount;
                        GetGenericIssuer_call (IssuerRef (Spec cr))
                          (Namespace cr);
                        IssuerFor_call issuerObj;
                        Recorder_Event "Warning" "IssuerInitError"
                          (fmt_Sprintf "Internal error initialising issuer: %v"
                             [arg_error (Some err)])] |}))
  /\ ((ready = false
       \/ exists err, issuerFactory_IssuerFor c issuerObj = inr err) ->
      filter is_Sign_call (calls (snd (Sync c cr))) = []
      /\ (fst (Sync c cr) = None
          \/ exists saveErr,
               CMClient_Update c crCopy1 = inr saveErr
               /\ fst (Sync c cr) = Some (aggregate [saveErr]))).
Proof.
  cbv zeta. intros Hdec Hval Hget Hval'.
  pose proof (Sync_body_decoded c cr csr crt Hdec) as Hbody. cbv zeta in Hbody.
  destruct (setCertificateRequestStatus_Spec c cr csr (Some crt)) as [Hspec Hns].
  rewrite Hval, Hspec, Hns, Hget, Hval' in Hbody.
  rewrite !bool_decide_eq_false_2 in Hbody by (cbn; lia).
  change IssuerConditionReady with "Ready" in Hbody.
  destruct (apiutil.IssuerHasCondition issuerObj _) eqn:Hready;
    cbn [negb] in Hbody.
  - split; [discriminate|]. split.
    + intros err _ Hfor. rewrite Hfor in Hbody. exact Hbody.
    + intros [? | [err Hfor]]; [discriminate|]. rewrite Hfor in Hbody.
      destruct (Sync_stopped c cr _ _ _ Hbody eq_refl) as (Hsign & _ & Herr).
      split; [exact Hsign | exact Herr].
  - split; [intros _; exact Hbody|]. split; [discriminate|].
    intros _.
    destruct (Sync_stopped c cr _ _ _ Hbody eq_refl) as (Hsign & _ & Herr).
    split; [exact Hsign | exact Herr].
Qed.

(** X5.  A certificate that is not temporary and does not match the CSR is
    signed again: a round that reaches the signing decision calls [Sign]
    exactly once, on the working copy the status computation left.  If the
    certificate has not expired either, the Ready condition at the end of the
    round is False with reason [DoesNotMatch] and the mismatches joined by a
    comma and a space as message. *)
Theorem X5_mismatching_certificate_is_signed_again
    `{GoLib} `{Helpers} (c : Controller) (cr : CertificateRequest)
    (csr : x509_CertificateRequest) (crt : x509_Certificate)
    (i : issuer.Interface) :
  let crCopy1 := setCertificateRequestStatus c cr csr (Some crt) in
  decodes_to cr csr crt ->
  isTemporaryCertificate (Some crt) = false ->
  fst (certificateMatchesSpec cr csr crt) = false ->
  reaches_signing c crCopy1 i ->
  filter is_Sign_call (calls (snd (Sync c cr))) = [Sign_call crCopy1]
  /\ (time_Before (cert_NotAfter crt) (clock_Now c) = false ->
      exists ltt,
        Ready_condition (Status_ (crCopy (snd (Sync c cr))))
        = Some {| Type_ := "Ready"; Status := ConditionFalse;
                  LastTransitionTime := ltt; Reason := "DoesNotMatch";
                  Message :=
                    String.concat ", " (snd (certificateMatchesSpec cr csr crt)) |}).
Proof.
  cbv zeta. intros Hdec Htemp Hmatch Hreach. split.
  - rewrite Sync_sign_calls.
    destruct (Sync_body_reaches_signing c cr csr crt i Hdec Hreach)
      as (pre & Hpre & ->).
    rewrite Htemp, Hmatch. cbn [orb negb].
    destruct (sign_run i {| crCopy := setCertificateRequestStatus c cr csr (Some crt);
                            calls := pre |})
      as (crt' & ca' & tail & -> & Htail & _).
    cbn [calls crCopy snd]. rewrite filter_app, Hpre.
    rewrite filter_cons_True by exact I. rewrite Htail. reflexivity.
  - intros Hexp. unfold Ready_condition.
    destruct (Sync_status_after_decode c cr csr crt Hdec) as [-> _].
    unfold setCertificateRequestStatus.
    rewrite (certificateMatchesSpec_any_request _ cr).
    destruct (certificateMatchesSpec cr csr crt) as [matches matchErrs].
    cbn [fst snd] in *. subst matches. rewrite Htemp, Hexp. cbn [negb].
    apply (GetCondition_setCondition (apiutil_Clock_Now c) _ "Ready").
Qed.
End SyncOutcomes.

Module SyncSigning.
Import issuer certificaterequests SyncFacts SyncStops SyncOutcomes.

Section Signing.
Context `{GoLib} `{Helpers}.
Variable c : Controller.

(** Either decoding fails and the body returns its error at once, or the
    CSR and the certificate both decode. *)
Lemma Sync_body_decode_cases (cr : CertificateRequest) :
  (exists err,
     Sync_body_from c cr
     = (Some err, {| crCopy := cr; calls := [IncrementSyncCallCount] |}))
  \/ exists csr crt, decodes_to cr csr crt.
Proof.
  unfold Sync_body_from, Sync_body.
  case_bool_decide as Hlen; [left; eexists; reflexivity|].
  destruct (pem_Decode (CSRPem (Spec cr))) as [der|] eqn:Hpem;
    [|left; eexists; reflexivity].
  destruct (x509_ParseCertificateRequest der) as [csr|] eqn:Hcsr;
    [|left; eexists; reflexivity].
  case_bool_decide as Hlen'; [left; eexists; reflexivity|].
  destruct (pem_Decode (Certificate (Status_ cr))) as [der'|] eqn:Hpem';
    [|left; eexists; reflexivity].
  destruct (x509_ParseCertificate der') as [crt|] eqn:Hcrt;
    [|left; eexists; reflexivity].
  right. exists csr, crt.
  split; [exact Hlen|]. split; [exists der; split; assumption|].
  split; [exact Hlen'|]. exists der'. split; assumption.
Qed.

(** The Ready condition the status computation leaves is False whenever the
    certificate is temporary or does not match. *)
Lemma setCertificateRequestStatus_not_ready (cr : CertificateRequest)
    (csr : x509_CertificateRequest) (crt : x509_Certificate) :
  isTemporaryCertificate (Some crt)
    || negb (fst (certificateMatchesSpec cr csr crt)) = true ->
  exists ready,
    Ready_condition (Status_ (setCertificateRequestStatus c cr csr (Some crt)))
      = Some ready
    /\ Status ready = ConditionFalse.
Proof.
  intros Hsign. unfold setCertificateRequestStatus, Ready_condition.
  rewrite (certificateMatchesSpec_any_request _ cr).
  destruct (certificateMatchesSpec cr csr crt) as [matches matchErrs].
  cbn [fst] in Hsign.
  destruct (isTemporaryCertificate (Some crt)).
  { destruct (GetCondition_setCondition (apiutil_Clock_Now c)
                (Conditions (Status_ (set_Status (set_NotAfter None
                   (Status_ (set_Status (set_NotAfter (Some (cert_NotAfter crt))
                      (Status_ cr)) cr)))
                   (set_Status (set_NotAfter (Some (cert_NotAfter crt))
                      (Status_ cr)) cr))))
                "Ready" ConditionFalse "TemporaryCertificate"
                "Certificate issuance in progress. Temporary certificate issued.")
      as [ltt Hget].
    eexists. split; [exact Hget | reflexivity]. }
  cbn [orb] in Hsign. apply negb_true_iff in Hsign. subst matches.
  destruct (time_Before _ _); cbn [negb].
  - destruct (GetCondition_setCondition (apiutil_Clock_Now c)
                (Conditions (Status_ (set_Status (set_NotAfter
                   (Some (cert_NotAfter crt)) (Status_ cr)) cr)))
                "Ready" ConditionFalse "Expired"
                (fmt_Sprintf "Certificate has expired on %s"
                   [arg_string (time_Format (cert_NotAfter crt) time_RFC822)]))
      as [ltt Hget].
    eexists. split; [exact Hget | reflexivity].
  - destruct (GetCondition_setCondition (apiutil_Clock_Now c)
                (Conditions (Status_ (set_Status (set_NotAfter
                   (Some (cert_NotAfter crt)) (Status_ cr)) cr)))
                "Ready" ConditionFalse "DoesNotMatch"
                (String.concat ", " matchErrs))
      as [ltt Hget].
    eexists. split; [exact Hget | reflexivity].
Qed.

End Signing.

Section SignExact.
Context `{GoLib} `{Helpers}.
Variable c : Controller.

Lemma sign_exact (i : issuer.Interface) (s : RoundState) :
  sign i s
  = match Sign i (crCopy s) with
    | (_, Some err) =>
        (Some err, {| crCopy := crCopy s;
                      calls := (calls s ++ [Sign_call (crCopy s)])%list |})
    | (Some resp, None) =>
        if bool_decide (0 < length (resp_Certificate resp))%nat then
          (None,
           {| crCopy := set_Status
                          (set_Certificate (resp_Certificate resp) (resp_CA resp)
                             (Status_ (crCopy s))) (crCopy s);
              calls := (calls s
                        ++ [Sign_call (crCopy s);
                            Recorder_Event "Normal" "CertIssued"
                              "Certificate issued successfully"])%list |})
        else (None, {| crCopy := crCopy s;
                       calls := (calls s ++ [Sign_call (crCopy s)])%list |})
    | (None, None) =>
        (None, {| crCopy := crCopy s;
                  calls := (calls s ++ [Sign_call (crCopy s)])%list |})
    end.
Proof.
  unfold sign, bind, get_cr, call, ret, modify_cr. cbn [crCopy calls].
  destruct (Sign i (crCopy s)) as [[resp|] [err|]]; try reflexivity.
  case_bool_decide; [|reflexivity]. cbn [crCopy calls].
  rewrite <- app_assoc. reflexivity.
Qed.

(** The body of a round that reaches the signing decision with a
    certificate to replace. *)
Lemma Sync_body_signs (cr : CertificateRequest)
    (csr : x509_CertificateRequest) (crt : x509_Certificate)
    (i : issuer.Interface) :
  decodes_to cr csr crt ->
  reaches_signing c (setCertificateRequestStatus c cr csr (Some crt)) i ->
  isTemporaryCertificate (Some crt)
    || negb (fst (certificateMatchesSpec cr csr crt)) = true ->
  exists pre,
    filter is_Sign_call pre = []
    /\ filter is_CertIssued_event pre = []
    /\ Sync_body_from c cr
       = sign i {| crCopy := setCertificateRequestStatus c cr csr (Some crt);
                   calls := pre |}.
Proof.
  intros Hdec (Hval & issuerObj & Hget & Hval' & Hready & Hfor) Hneeded.
  rewrite (Sync_body_decoded c cr csr crt Hdec). cbv zeta.
  rewrite Hval, Hget, Hval', Hready, Hfor, Hneeded.
  rewrite !bool_decide_eq_false_2 by (cbn; lia). cbn [negb].
  eexists. split; [|split; [|reflexivity]]; reflexivity.
Qed.

End SignExact.

(** X6.  When [Sign] is called and returns an error, a nil response or a
    response with an empty certificate, the body returns the error [Sign]
    gave (nil in the last two cases), the working copy stays as the status
    computation left it, with the Certificate and CA of the request, [Sign]
    was called once and no [CertIssued] event is recorded. *)
Theorem X6_signing_without_certificate_changes_nothing
    `{GoLib} `{Helpers} (c : Controller) (cr : CertificateRequest)
    (csr : x509_CertificateRequest) (crt : x509_Certificate)
    (i : issuer.Interface) :
  let crCopy1 := setCertificateRequestStatus c cr csr (Some crt) in
  decodes_to cr csr crt ->
  reaches_signing c crCopy1 i ->
  isTemporaryCertificate (Some crt)
    || negb (fst (certificateMatchesSpec cr csr crt)) = true ->
  (snd (Sign i crCopy1) <> None
   \/ fst (Sign i crCopy1) = None
   \/ exists resp, fst (Sign i crCopy1) = Some resp
                   /\ resp_Certificate resp = []) ->
  fst (Sync_body_from c cr) = snd (Sign i crCopy1)
  /\ crCopy (snd (Sync c cr)) = crCopy1
  /\ Certificate (Status_ (crCopy (snd (Sync c cr)))) = Certificate (Status_ cr)
  /\ CA (Status_ (crCopy (snd (Sync c cr)))) = CA (Status_ cr)
  /\ filter is_Sign_call (calls (snd (Sync c cr))) = [Sign_call crCopy1]
  /\ filter is_CertIssued_event (calls (snd (Sync_body_from c cr))) = [].
Proof.
  cbv zeta. intros Hdec Hreach Hneeded Hnone.
  destruct (Sync_body_signs c cr csr crt i Hdec Hreach Hneeded)
    as (pre & Hpre & Hpre' & Hbody).
  set (crCopy1 := setCertificateRequestStatus c cr csr (Some crt)) in *.
  assert (Hsign : sign i {| crCopy := crCopy1; calls := pre |}
                  = (snd (Sign i crCopy1),
                     {| crCopy := crCopy1;
                        calls := (pre ++ [Sign_call crCopy1])%list |})).
  { rewrite sign_exact. cbn [crCopy calls].
    destruct (Sign i crCopy1) as [[resp|] [err|]]; cbn [fst snd] in *;
      try reflexivity.
    destruct Hnone as [Hn | [Hn | (resp' & [= <-] & Hempty)]];
      [congruence | discriminate |].
    rewrite Hempty. reflexivity. }
  rewrite Hsign in Hbody.
  rewrite Sync_sign_calls, Sync_crCopy, Hbody. cbn [fst snd crCopy calls].
  split; [reflexivity|]. split; [reflexivity|].
  assert (Hkeep : Certificate (Status_ crCopy1) = Certificate (Status_ cr)
                  /\ CA (Status_ crCopy1) = CA (Status_ cr)).
  { subst crCopy1. unfold setCertificateRequestStatus.
    destruct (certificateMatchesSpec _ csr crt) as [matches matchErrs].
    destruct (isTemporaryCertificate _); [split; reflexivity|].
    destruct (time_Before _ _); [split; reflexivity|].
    destruct (negb matches); split; reflexivity. }
  destruct Hkeep as [Hcert Hca].
  split; [exact Hcert|]. split; [exact Hca|].
  rewrite !filter_app, Hpre, Hpre'. split; reflexivity.
Qed.

(** X7.  When [Sign] is called and returns a response with a certificate and
    no error, the body returns nil, the working copy takes the response's
    Certificate and CA, and exactly one Normal event [CertIssued] is
    recorded.  The Ready condition is the one computed before signing and so
    is still False at the end of this round. *)
Theorem X7_successful_signing_stores_the_certificate
    `{GoLib} `{Helpers} (c : Controller) (cr : CertificateRequest)
    (csr : x509_CertificateRequest) (crt : x509_Certificate)
    (i : issuer.Interface) (resp : IssueResponse) :
  let crCopy1 := setCertificateRequestStatus c cr csr (Some crt) in
  decodes_to cr csr crt ->
  reaches_signing c crCopy1 i ->
  isTemporaryCertificate (Some crt)
    || negb (fst (certificateMatchesSpec cr csr crt)) = true ->
  Sign i crCopy1 = (Some resp, None) ->
  resp_Certificate resp <> [] ->
  fst (Sync_body_from c cr) = None
  /\ Certificate (Status_ (crCopy (snd (Sync c cr)))) = resp_Certificate resp
  /\ CA (Status_ (crCopy (snd (Sync c cr)))) = resp_CA resp
  /\ filter is_CertIssued_event (calls (snd (Sync_body_from c cr)))
     = [Recorder_Event "Normal" "CertIssued" "Certificate issued successfully"]
  /\ exists ready,
       Ready_condition (Status_ (crCopy (snd (Sync c cr)))) = Some ready
       /\ Status ready = ConditionFalse.
Proof.
  cbv zeta. intros Hdec Hreach Hneeded Hsigned Hcert.
  destruct (Sync_body_signs c cr csr crt i Hdec Hreach Hneeded)
    as (pre & Hpre & Hpre' & Hbody).
  rewrite sign_exact in Hbody. cbn [crCopy calls] in Hbody.
  rewrite Hsigned in Hbody.
  rewrite bool_decide_eq_true_2 in Hbody
    by (destruct (resp_Certificate resp); [congruence | cbn; lia]).
  rewrite Sync_crCopy, Hbody. cbn [fst snd crCopy calls].
  split; [reflexivity|]. split; [reflexivity|]. split; [reflexivity|].
  split.
  - rewrite filter_app, Hpre'. reflexivity.
  - exact (setCertificateRequestStatus_not_ready c cr csr crt Hneeded).
Qed.
End SyncSigning.

Module SyncDiscipline.
Import issuer certificaterequests SyncFacts SyncStops SyncOutcomes SyncSigning.

(** X8.  [Sign] is called only at the signing decision: if a round calls
    [Sign] at all, then the CSR and the certificate decoded, both validations
    passed, the issuer was found Ready and its backend built, and the
    certificate is temporary or does not match the CSR; [Sign] is then called
    exactly once, on the working copy after the status computation. *)
Theorem X8_Sign_is_called_only_at_the_signing_decision
    `{GoLib} `{Helpers} (c : Controller) (cr : CertificateRequest) :
  filter is_Sign_call (calls (snd (Sync c cr))) <> [] ->
  exists csr crt i,
    decodes_to cr csr crt
    /\ reaches_signing c (setCertificateRequestStatus c cr csr (Some crt)) i
    /\ isTemporaryCertificate (Some crt)
         || negb (fst (certificateMatchesSpec cr csr crt)) = true
    /\ filter is_Sign_call (calls (snd (Sync c cr)))
       = [Sign_call (setCertificateRequestStatus c cr csr (Some crt))].
Proof.
  rewrite Sync_sign_calls.
  destruct (Sync_body_decode_cases c cr) as [[err ->] | (csr & crt & Hdec)];
    [intros Hs; exfalso; apply Hs; reflexivity|].
  intros Hsigned. exists csr, crt.
  pose proof (Sync_body_decoded c cr csr crt Hdec) as Hbody. cbv zeta in Hbody.
  set (crCopy1 := setCertificateRequestStatus c cr csr (Some crt)) in *.
  destruct (ValidateCertificateRequest crCopy1) as [|e el] eqn:Hval;
    [|rewrite bool_decide_eq_true_2 in Hbody by (cbn; lia);
      rewrite Hbody in Hsigned; exfalso; apply Hsigned; reflexivity].
  rewrite bool_decide_eq_false_2 in Hbody by (cbn; lia).
  destruct (helper_GetGenericIssuer c _ _) as [issuerObj|err] eqn:Hget;
    [|destruct (IsNotFound (Some err)); rewrite Hbody in Hsigned;
      exfalso; apply Hsigned; reflexivity].
  destruct (ValidateCertificateRequestForIssuer crCopy1 issuerObj)
    as [|e el] eqn:Hval';
    [|rewrite bool_decide_eq_true_2 in Hbody by (cbn; lia);
      rewrite Hbody in Hsigned; exfalso; apply Hsigned; reflexivity].
  rewrite bool_decide_eq_false_2 in Hbody by (cbn; lia).
  destruct (apiutil.IssuerHasCondition issuerObj _) eqn:Hready;
    cbn [negb] in Hbody;
    [|rewrite Hbody in Hsigned; exfalso; apply Hsigned; reflexivity].
  destruct (issuerFactory_IssuerFor c issuerObj) as [i|err] eqn:Hfor;
    [|rewrite Hbody in Hsigned; exfalso; apply Hsigned; reflexivity].
  destruct (isTemporaryCertificate (Some crt)
            || negb (fst (certificateMatchesSpec cr csr crt))) eqn:Hneeded;
    [|rewrite Hbody in Hsigned; exfalso; apply Hsigned; reflexivity].
  exists i. split; [exact Hdec|]. split.
  { split; [exact Hval|]. exists issuerObj. repeat split; assumption. }
  split; [reflexivity|].
  rewrite Hbody, sign_exact. cbn [crCopy calls].
  destruct (Sign i crCopy1) as [[resp|] [err|]]; try reflexivity.
  case_bool_decide; reflexivity.
Qed.

(** X9.  A round writes to the status only: the Spec, the namespace and the
    name of the working copy are those of the request.  A round calls [Sign]
    at most once and Update at most once; an Update is the last call of the
    round and carries the final working copy. *)
Theorem X9_round_writes_status_only
    `{GoLib} `{Helpers} (c : Controller) (cr : CertificateRequest) :
  let final := crCopy (snd (Sync c cr)) in
  Spec final = Spec cr
  /\ Namespace final = Namespace cr
  /\ ObjectMeta_Name final = ObjectMeta_Name cr
  /\ (length (filter is_Sign_call (calls (snd (Sync c cr)))) <= 1)%nat
  /\ (filter is_Update_call (calls (snd (Sync c cr))) = []
      \/ exists pre,
           calls (snd (Sync c cr)) = (pre ++ [Update_call final])%list
           /\ filter is_Update_call pre = []).
Proof.
  cbv zeta.
  assert (Hmeta : Spec (crCopy (snd (Sync c cr))) = Spec cr
                  /\ Namespace (crCopy (snd (Sync c cr))) = Namespace cr
                  /\ ObjectMeta_Name (crCopy (snd (Sync c cr)))
                     = ObjectMeta_Name cr).
  { rewrite Sync_crCopy.
    destruct (Sync_body_decode_cases c cr) as [[err ->] | (csr & crt & Hdec)];
      [repeat split; reflexivity|].
    assert (Hset : Spec (setCertificateRequestStatus c cr csr (Some crt)) = Spec cr
                   /\ Namespace (setCertificateRequestStatus c cr csr (Some crt))
                      = Namespace cr
                   /\ ObjectMeta_Name (setCertificateRequestStatus c cr csr (Some crt))
                      = ObjectMeta_Name cr).
    { unfold setCertificateRequestStatus.
      destruct (certificateMatchesSpec _ csr crt) as [matches matchErrs].
      destruct (isTemporaryCertificate _); [repeat split; reflexivity|].
      destruct (time_Before _ _); [repeat split; reflexivity|].
      destruct (negb matches); repeat split; reflexivity. }
    destruct (Sync_body_shape c cr csr crt Hdec)
      as (pre & _ & [[err ->] | (i & _ & ->)]); [exact Hset|].
    rewrite sign_exact. cbn [crCopy calls].
    destruct (Sign i _) as [[resp|] [err|]]; try exact Hset.
    case_bool_decide; exact Hset. }
  destruct Hmeta as (Hspec & Hns & Hname).
  split; [exact Hspec|]. split; [exact Hns|]. split; [exact Hname|]. split.
  - rewrite Sync_sign_calls.
    destruct (Sync_body_decode_cases c cr) as [[err ->] | (csr & crt & Hdec)];
      [cbn [snd calls]; rewrite filter_cons_False by (intros []);
       rewrite filter_nil; cbn; lia|].
    destruct (Sync_body_shape c cr csr crt Hdec)
      as (pre & Hpre & [[err ->] | (i & _ & ->)]);
      [cbn [snd calls]; rewrite Hpre; cbn; lia|].
    destruct (sign_run i {| crCopy := setCertificateRequestStatus c cr csr (Some crt);
                            calls := pre |})
      as (crt' & ca' & tail & -> & Htail & _).
    cbn [calls]. rewrite filter_app, Hpre, filter_cons_True by exact I.
    rewrite Htail. cbn. lia.
  - rewrite Sync_update_filter, Sync_update_calls, Sync_crCopy.
    case_bool_decide; [left; reflexivity|].
    right. eexists. split; [reflexivity|]. apply Sync_body_no_update.
Qed.
End SyncDiscipline.

Module SerialFacts.
Import issuer certificaterequests SyncFacts.

(** X10.  [isTemporaryCertificate] is false for a nil certificate.  For a
    serial number in the range of a non-negative [int64] it is true exactly
    for the serial [0x1234567890]; since [big.Int.Int64] keeps the low 64
    bits only, every serial [0x1234567890 + k * 2^64] counts as temporary as
    well. *)
Theorem X10_temporary_serial_is_read_modulo_two_to_the_64
    (crt : x509_Certificate) :
  isTemporaryCertificate None = false
  /\ (0 <= SerialNumber crt < 2 ^ 63 ->
      isTemporaryCertificate (Some crt) = true
      <-> SerialNumber crt = 0x1234567890)
  /\ (forall k, 0 <= k ->
        SerialNumber crt = 0x1234567890 + k * 2 ^ 64 ->
        isTemporaryCertificate (Some crt) = true).
Proof.
  split; [reflexivity|]. unfold isTemporaryCertificate, big_Int_Int64,
    wrap_int64, staticTemporarySerialNumber.
  change (2 ^ 63) with 9223372036854775808.
  change (2 ^ 64) with 18446744073709551616.
  split.
  - intros Hrange. rewrite (Z.abs_eq (SerialNumber crt)) by lia.
    rewrite (Z.mod_small (SerialNumber crt)) by lia.
    rewrite (proj2 (Z.ltb_lt (SerialNumber crt) 9223372036854775808)) by lia.
    rewrite (proj2 (Z.ltb_ge (SerialNumber crt) 0)) by lia.
    apply Z.eqb_eq.
  - intros k Hk ->.
    rewrite (Z.abs_eq (78187493520 + k * 18446744073709551616)) by lia.
    rewrite (Z.mod_add 78187493520 k) by lia.
    rewrite (proj2 (Z.ltb_ge (78187493520 + k * 18446744073709551616) 0)) by lia.
    reflexivity.
Qed.

Lemma X10_witness :
  isTemporaryCertificate
    (Some (fixtures.cert_for (0x1234567890 + 2 ^ 64) "csr1" [] 0)) = true.
Proof.
  apply (proj2 (proj2 (X10_temporary_serial_is_read_modulo_two_to_the_64
                         (fixtures.cert_for (0x1234567890 + 2 ^ 64) "csr1" [] 0)))
           1); [lia | reflexivity].
Defined.

(** X11.  [certificateMatchesSpec] runs its four comparisons independently:
    the number of messages it returns is the number of comparisons that fail
    (common name, DNS names, URIs, IP addresses), and the certificate matches
    exactly when no message is returned. *)
Theorem X11_every_mismatching_field_is_reported
    `{GoLib} `{Helpers} (cr : CertificateRequest)
    (csr : x509_CertificateRequest) (cert : x509_Certificate) :
  let count (ok : bool) : nat := if ok then 0%nat else 1%nat in
  length (snd (certificateMatchesSpec cr csr cert))
  = (count (bool_decide (CommonNameForCertificateRequest csr
                         = Subject_CommonName cert))
     + count (util.EqualUnsorted (DNSNames cert)
                (DNSNamesForCertificateRequest csr))
     + count (util.EqualUnsorted (URLsToString (URIs cert))
                (URLsToString (csr_URIs csr)))
     + count (util.EqualUnsorted (IPAddressesToString (IPAddresses cert))
                (IPAddressesToString (csr_IPAddresses csr))))%nat
  /\ (fst (certificateMatchesSpec cr csr cert) = true
      <-> snd (certificateMatchesSpec cr csr cert) = []).
Proof.
  cbv zeta. unfold certificateMatchesSpec, append_if. cbn [fst snd]. split.
  - destruct (bool_decide _), (util.EqualUnsorted (DNSNames cert) _),
      (util.EqualUnsorted (URLsToString _) _),
      (util.EqualUnsorted (IPAddressesToString _) _); reflexivity.
  - rewrite bool_decide_eq_true. apply length_zero_iff_nil.
Qed.
End SerialFacts.

Module SyncWitness.
Import issuer certificaterequests SyncFacts SyncStops SyncOutcomes SyncSigning
  SyncDiscipline fixtures.

Lemma decodes_other :
  @decodes_to sync_fixtures.fixture_lib_other exampleSignedCR csr1 sync_fixtures.certOther.
Proof.
  repeat split; try (cbn; discriminate).
  - exists (B "csr1"). split; reflexivity.
  - exists (B "cert1"). split; reflexivity.
Qed.

Lemma reaches_fixture `{Helpers} (cr : CertificateRequest)
    (issuerObj : GenericIssuer) (i : issuer.Interface) :
  ValidateCertificateRequest cr = [] ->
  ValidateCertificateRequestForIssuer cr issuerObj = [] ->
  apiutil.IssuerHasCondition issuerObj
    {| IssuerCondition_Type := IssuerConditionReady;
       IssuerCondition_Status := ConditionTrue |} = true ->
  reaches_signing (sync_fixtures.controller_with (inl issuerObj) (inl i)) cr i.
Proof.
  intros Hval Hval' Hready. split; [exact Hval|]. exists issuerObj.
  repeat split; assumption.
Qed.

Lemma X2_witness :
  filter is_Sign_call
    (calls (snd (@Sync fixture_lib sync_fixtures.rejecting_helpers exampleController
                   exampleSignedCR))) = []
  /\ (fst (@Sync fixture_lib sync_fixtures.rejecting_helpers exampleController
             exampleSignedCR) = None
      \/ exists saveErr,
           CMClient_Update exampleController
             (@setCertificateRequestStatus fixture_lib sync_fixtures.rejecting_helpers
                exampleController exampleSignedCR csr1 (Some cert1))
           = inr saveErr
           /\ fst (@Sync fixture_lib sync_fixtures.rejecting_helpers exampleController
                     exampleSignedCR) = Some (aggregate [saveErr])).
Proof.
  destruct (@X2_invalid_request_is_reported_not_signed
              fixture_lib sync_fixtures.rejecting_helpers exampleController
              exampleSignedCR csr1 cert1
              (decodes_fixture "csr1" "cert1" csr1 cert1 eq_refl eq_refl)
              ltac:(discriminate))
    as (_ & Hsign & Herr & _).
  split; [exact Hsign | exact Herr].
Defined.

Lemma X3_witness :
  filter is_Sign_call
    (calls (snd (@Sync fixture_lib fixture_helpers lookupFailsController
                   exampleSignedCR))) = []
  /\ filter is_Sign_call
       (calls (snd (@Sync fixture_lib fixture_helpers
                      (sync_fixtures.controller_with (inr sync_fixtures.notFound_error) (inl fakeIssuer))
                      exampleSignedCR))) = [].
Proof.
  split.
  - refine (proj1 (@X3_issuer_lookup_failure_stops_the_round
                     fixture_lib fixture_helpers lookupFailsController
                     exampleSignedCR csr1 cert1 lookup_error _ _ _)).
    + apply (decodes_fixture "csr1" "cert1"); reflexivity.
    + reflexivity.
    + reflexivity.
  - refine (proj1 (@X3_issuer_lookup_failure_stops_the_round
                     fixture_lib fixture_helpers
                     (sync_fixtures.controller_with (inr sync_fixtures.notFound_error) (inl fakeIssuer))
                     exampleSignedCR csr1 cert1 sync_fixtures.notFound_error _ _ _)).
    + apply (decodes_fixture "csr1" "cert1"); reflexivity.
    + reflexivity.
    + reflexivity.
Defined.

Lemma X4_witness :
  filter is_Sign_call
    (calls (snd (@Sync fixture_lib fixture_helpers
                   (sync_fixtures.controller_with (inl sync_fixtures.pendingIssuer) (inl fakeIssuer))
                   exampleTemporaryCR))) = []
  /\ filter is_Sign_call
       (calls (snd (@Sync fixture_lib fixture_helpers
                      (sync_fixtures.controller_with (inl readyIssuer) (inr sync_fixtures.init_error))
                      exampleTemporaryCR))) = [].
Proof.
  split.
  - refine (proj1 (proj2 (proj2
      (@X4_unready_issuer_or_backend_stops_the_round
         fixture_lib fixture_helpers
         (sync_fixtures.controller_with (inl sync_fixtures.pendingIssuer) (inl fakeIssuer))
         exampleTemporaryCR csr1 certTemporary sync_fixtures.pendingIssuer _ _ _ _)) _)).
    + apply (decodes_fixture "csr1" "temporary"); reflexivity.
    + reflexivity.
    + reflexivity.
    + reflexivity.
    + left. reflexivity.
  - refine (proj1 (proj2 (proj2
      (@X4_unready_issuer_or_backend_stops_the_round
         fixture_lib fixture_helpers
         (sync_fixtures.controller_with (inl readyIssuer) (inr sync_fixtures.init_error))
         exampleTemporaryCR csr1 certTemporary readyIssuer _ _ _ _)) _)).
    + apply (decodes_fixture "csr1" "temporary"); reflexivity.
    + reflexivity.
    + reflexivity.
    + reflexivity.
    + right. exists sync_fixtures.init_error. reflexivity.
Defined.

Lemma X5_witness :
  filter is_Sign_call
    (calls (snd (@Sync sync_fixtures.fixture_lib_other fixture_helpers
                   (sync_fixtures.controller_with (inl readyIssuer) (inl fakeIssuer))
                   exampleSignedCR)))
  = [Sign_call
       (@setCertificateRequestStatus sync_fixtures.fixture_lib_other fixture_helpers
          (sync_fixtures.controller_with (inl readyIssuer) (inl fakeIssuer))
          exampleSignedCR csr1 (Some sync_fixtures.certOther))].
Proof.
  refine (proj1 (@X5_mismatching_certificate_is_signed_again
                   sync_fixtures.fixture_lib_other fixture_helpers
                   (sync_fixtures.controller_with (inl readyIssuer) (inl fakeIssuer))
                   exampleSignedCR csr1 sync_fixtures.certOther fakeIssuer _ _ _ _)).
  - exact decodes_other.
  - reflexivity.
  - reflexivity.
  - apply reaches_fixture; reflexivity.
Defined.

Lemma X6_witness :
  Certificate
    (Status_ (crCopy (snd (@Sync fixture_lib fixture_helpers
                             (sync_fixtures.controller_with (inl readyIssuer)
                                (inl sync_fixtures.failingIssuer))
                             exampleTemporaryCR))))
  = Certificate (Status_ exampleTemporaryCR)
  /\ Certificate
       (Status_ (crCopy (snd (@Sync fixture_lib fixture_helpers
                                (sync_fixtures.controller_with (inl readyIssuer)
                                   (inl sync_fixtures.silentIssuer))
                                exampleTemporaryCR))))
     = Certificate (Status_ exampleTemporaryCR).
Proof.
  split.
  - refine (proj1 (proj2 (proj2
      (@X6_signing_without_certificate_changes_nothing
         fixture_lib fixture_helpers
         (sync_fixtures.controller_with (inl readyIssuer) (inl sync_fixtures.failingIssuer))
         exampleTemporaryCR csr1 certTemporary sync_fixtures.failingIssuer _ _ _ _)))).
    + apply (decodes_fixture "csr1" "temporary"); reflexivity.
    + apply reaches_fixture; reflexivity.
    + reflexivity.
    + left. discriminate.
  - refine (proj1 (proj2 (proj2
      (@X6_signing_without_certificate_changes_nothing
         fixture_lib fixture_helpers
         (sync_fixtures.controller_with (inl readyIssuer) (inl sync_fixtures.silentIssuer))
         exampleTemporaryCR csr1 certTemporary sync_fixtures.silentIssuer _ _ _ _)))).
    + apply (decodes_fixture "csr1" "temporary"); reflexivity.
    + apply reaches_fixture; reflexivity.
    + reflexivity.
    + right. left. reflexivity.
Defined.

Lemma X7_witness :
  Certificate
    (Status_ (crCopy (snd (@Sync fixture_lib fixture_helpers
                             (sync_fixtures.controller_with (inl readyIssuer) (inl fakeIssuer))
                             exampleTemporaryCR))))
  = B "PEM:cert1".
Proof.
  refine (proj1 (proj2
    (@X7_successful_signing_stores_the_certificate
       fixture_lib fixture_helpers
       (sync_fixtures.controller_with (inl readyIssuer) (inl fakeIssuer))
       exampleTemporaryCR csr1 certTemporary fakeIssuer
       {| resp_Certificate := B "PEM:cert1"; resp_CA := [] |} _ _ _ _ _))).
  - apply (decodes_fixture "csr1" "temporary"); reflexivity.
  - apply reaches_fixture; reflexivity.
  - reflexivity.
  - reflexivity.
  - discriminate.
Defined.

Lemma X8_witness :
  exists csr crt i,
    @decodes_to fixture_lib exampleTemporaryCR csr crt
    /\ @reaches_signing fixture_helpers exampleController
         (@setCertificateRequestStatus fixture_lib fixture_helpers
            exampleController exampleTemporaryCR csr (Some crt)) i
    /\ isTemporaryCertificate (Some crt)
         || negb (fst (@certificateMatchesSpec fixture_lib fixture_helpers
                         exampleTemporaryCR csr crt)) = true
    /\ filter is_Sign_call
         (calls (snd (@Sync fixture_lib fixture_helpers exampleController
                        exampleTemporaryCR)))
       = [Sign_call (@setCertificateRequestStatus fixture_lib fixture_helpers
                       exampleController exampleTemporaryCR csr (Some crt))].
Proof.
  apply (@X8_Sign_is_called_only_at_the_signing_decision
           fixture_lib fixture_helpers exampleController exampleTemporaryCR).
  vm_compute. discriminate.
Defined.

End SyncWitness.

Module ReviewFacts.
Import subjectaccessreview ApprovalFacts.

Section ReviewMore.
Variable certmanager_GroupName : string.
Variable sarclient_Create : SubjectAccessReview -> SubjectAccessReview + error.

(** The access review [reviewRequest] creates, and the answer it gives. *)
Lemma reviewRequest_exact (req : AdmissionRequest) (cr : CertificateRequest)
    (verb : string) :
  let review :=
    {| sar_Spec :=
         {| sar_User := Username (req_UserInfo req);
            sar_Groups := Groups (req_UserInfo req);
            sar_Extra := Extra (req_UserInfo req);
            sar_UID := UID (req_UserInfo req);
            sar_ResourceAttributes := Some
              {| ra_Group := certmanager_GroupName;
                 ra_Resource := "signers";
                 ra_Name :=
                   filepath.Join [Group (IssuerRef (Spec cr));
                                  Kind (IssuerRef (Spec cr))];
                 ra_Namespace := Namespace cr;
                 ra_Verb := verb |} |};
       sar_Status := {| Allowed := false |} |} in
  reviewRequest certmanager_GroupName sarclient_Create req cr verb
  = (match sarclient_Create review with
     | inr err => (false, Some err)
     | inl resp => (Allowed (sar_Status resp), None)
     end, [review]).
Proof.
  cbv zeta. unfold reviewRequest. rewrite map_fmap_id.
  destruct (sarclient_Create _); reflexivity.
Qed.

Lemma Review_denied_changed (req : AdmissionRequest)
    (oldCR newCR : CertificateRequest) :
  apiutil.GetCertificateRequestCondition (Conditions (Status_ oldCR))
    CertificateRequestConditionApproved
  = apiutil.GetCertificateRequestCondition (Conditions (Status_ newCR))
      CertificateRequestConditionApproved ->
  apiutil.GetCertificateRequestCondition (Conditions (Status_ oldCR))
    CertificateRequestConditionDenied
  <> apiutil.GetCertificateRequestCondition (Conditions (Status_ newCR))
       CertificateRequestConditionDenied ->
  Review certmanager_GroupName sarclient_Create req oldCR newCR
  = let '((ok, err), reviews) :=
      reviewRequest certmanager_GroupName sarclient_Create req newCR "deny" in
    (match err with
     | Some err => [field_InternalError "status.conditions" err]
     | None =>
         if negb ok then
           [field_Forbidden "status.conditions"
              "user does not have permissions to set approved/deny conditions"]
         else []
     end, reviews).
Proof.
  intros Happroved Hdenied. unfold Review, reflect_DeepEqual.
  rewrite (bool_decide_eq_true_2 _ Happroved).
  rewrite (bool_decide_eq_false_2 _ Hdenied). cbn [negb].
  destruct (reviewRequest _ _ req newCR "deny") as [[ok [err|]] reviews];
    [reflexivity|]. destruct ok; reflexivity.
Qed.

End ReviewMore.

(** X12.  When the Approved condition is the same in the old and the new
    object and the Denied condition differs, [Review] creates exactly one
    access review, with verb [deny] and resource name
    [filepath.Join(group, kind)] of the new object's issuer reference.  It
    returns the Forbidden error on [status.conditions] when the collaborator
    answers allowed=false, and no error when it answers allowed=true. *)
Theorem X12_Review_checks_deny_permission
    (certmanager_GroupName : string)
    (sarclient_Create : SubjectAccessReview -> SubjectAccessReview + error)
    (req : AdmissionRequest) (oldCR newCR : CertificateRequest) :
  let approved cr :=
    apiutil.GetCertificateRequestCondition (Conditions (Status_ cr))
      CertificateRequestConditionApproved in
  let denied cr :=
    apiutil.GetCertificateRequestCondition (Conditions (Status_ cr))
      CertificateRequestConditionDenied in
  let result := Review certmanager_GroupName sarclient_Create req oldCR newCR in
  approved oldCR = approved newCR ->
  denied oldCR <> denied newCR ->
  exists review,
    snd result = [review]
    /\ review_Verb review = Some "deny"
    /\ review_Name review
       = Some (filepath.Join [Group (IssuerRef (Spec newCR));
                              Kind (IssuerRef (Spec newCR))])
    /\ (forall resp,
          sarclient_Create review = inl resp ->
          Allowed (sar_Status resp) = false ->
          fst result
          = [field_Forbidden "status.conditions"
               "user does not have permissions to set approved/deny conditions"])
    /\ (forall resp,
          sarclient_Create review = inl resp ->
          Allowed (sar_Status resp) = true ->
          fst result = []).
Proof.
  cbv zeta. intros Happroved Hdenied.
  rewrite (Review_denied_changed _ _ _ _ _ Happroved Hdenied).
  rewrite reviewRequest_exact. cbv zeta.
  eexists. split; [destruct (sarclient_Create _) as [resp|err]; reflexivity|].
  split; [reflexivity|]. split; [reflexivity|].
  split; intros resp -> Hallowed; rewrite Hallowed; reflexivity.
Qed.

(** X13.  Every access review [Review] creates is about the requester of the
    admission request: user name, groups, UID and extra values are copied
    from the request's [UserInfo].  It asks for verb [approve] or [deny] on
    resource [signers] of the cert-manager group, in the namespace of the
    new object, under the name joined from the new object's issuer
    reference. *)
Theorem X13_access_review_is_about_the_requester
    (certmanager_GroupName : string)
    (sarclient_Create : SubjectAccessReview -> SubjectAccessReview + error)
    (req : AdmissionRequest) (oldCR newCR : CertificateRequest)
    (review : SubjectAccessReview) :
  review ∈ snd (Review certmanager_GroupName sarclient_Create req oldCR newCR) ->
  sar_User (sar_Spec review) = Username (req_UserInfo req)
  /\ sar_Groups (sar_Spec review) = Groups (req_UserInfo req)
  /\ sar_UID (sar_Spec review) = UID (req_UserInfo req)
  /\ sar_Extra (sar_Spec review) = Extra (req_UserInfo req)
  /\ exists verb,
       (verb = "approve" \/ verb = "deny")
       /\ sar_ResourceAttributes (sar_Spec review)
          = Some {| ra_Namespace := Namespace newCR;
                    ra_Verb := verb;
                    ra_Group := certmanager_GroupName;
                    ra_Resource := "signers";
                    ra_Name :=
                      filepath.Join [Group (IssuerRef (Spec newCR));
                                     Kind (IssuerRef (Spec newCR))] |}.
Proof.
  unfold Review.
  destruct (negb (reflect_DeepEqual _ _)).
  - rewrite reviewRequest_exact. cbv zeta.
    destruct (sarclient_Create _) as [resp|err];
      [destruct (negb (Allowed (sar_Status resp)))|];
      cbn [snd]; intros ->%list_elem_of_singleton;
      (repeat split; try reflexivity; exists "approve";
       split; [left|]; reflexivity).
  - destruct (negb (reflect_DeepEqual _ _)).
    + rewrite reviewRequest_exact. cbv zeta.
      destruct (sarclient_Create _) as [resp|err];
        [destruct (negb (Allowed (sar_Status resp)))|];
        cbn [snd]; intros ->%list_elem_of_singleton;
        (repeat split; try reflexivity; exists "deny";
         split; [right|]; reflexivity).
    + cbn [snd negb]. intros Hin. apply elem_of_nil in Hin. destruct Hin.
Qed.

(** X14.  The verdict of [Review].  Either no access review is created, the
    Approved and Denied conditions are unchanged and no error is returned;
    or exactly one access review is created, one of the two conditions
    changed, and the result is an InternalError carrying the collaborator's
    error, a Forbidden error when the answer is allowed=false, or no error
    when the answer is allowed=true.  [Review] never creates two reviews. *)
Theorem X14_Review_verdict
    (certmanager_GroupName : string)
    (sarclient_Create : SubjectAccessReview -> SubjectAccessReview + error)
    (req : AdmissionRequest) (oldCR newCR : CertificateRequest) :
  let approved cr :=
    apiutil.GetCertificateRequestCondition (Conditions (Status_ cr))
      CertificateRequestConditionApproved in
  let denied cr :=
    apiutil.GetCertificateRequestCondition (Conditions (Status_ cr))
      CertificateRequestConditionDenied in
  let result := Review certmanager_GroupName sarclient_Create req oldCR newCR in
  match snd result with
  | [] =>
      fst result = []
      /\ approved oldCR = approved newCR /\ denied oldCR = denied newCR
  | [review] =>
      (approved oldCR <> approved newCR \/ denied oldCR <> denied newCR)
      /\ fst result
         = match sarclient_Create review with
           | inr err => [field_InternalError "status.conditions" err]
           | inl resp =>
               if Allowed (sar_Status resp) then []
               else [field_Forbidden "status.conditions"
                       "user does not have permissions to set approved/deny conditions"]
           end
  | _ => False
  end.
Proof.
  cbv zeta.
  destruct (decide (apiutil.GetCertificateRequestCondition
                      (Conditions (Status_ oldCR)) CertificateRequestConditionApproved
                    = apiutil.GetCertificateRequestCondition
                        (Conditions (Status_ newCR))
                        CertificateRequestConditionApproved)) as [Happroved|Happroved].
  - destruct (decide (apiutil.GetCertificateRequestCondition
                        (Conditions (Status_ oldCR)) CertificateRequestConditionDenied
                      = apiutil.GetCertificateRequestCondition
                          (Conditions (Status_ newCR))
                          CertificateRequestConditionDenied)) as [Hdenied|Hdenied].
    + rewrite (Review_unchanged _ _ _ _ _ Happroved Hdenied). cbn [fst snd].
      repeat split; assumption.
    + rewrite (Review_denied_changed _ _ _ _ _ Happroved Hdenied).
      rewrite reviewRequest_exact. cbv zeta.
      destruct (sarclient_Create _) as [resp|err] eqn:Hcreate; cbn [fst snd];
        (split; [right; exact Hdenied|]); rewrite Hcreate;
        [destruct (Allowed (sar_Status resp))|]; reflexivity.
  - rewrite (Review_approved_changed _ _ _ _ _ Happroved).
    rewrite reviewRequest_exact. cbv zeta.
    destruct (sarclient_Create _) as [resp|err] eqn:Hcreate; cbn [fst snd];
      (split; [left; exact Happroved|]); rewrite Hcreate;
      [destruct (Allowed (sar_Status resp))|]; reflexivity.
Qed.

End ReviewFacts.

Module ApproverFacts.
Import approver approver_terms.

(** Setting a condition leaves the conditions of the other types as they
    are. *)
Lemma GetCondition_setCondition_other (now : Time)
    (conds : list CertificateRequestCondition) (ty ty' : string)
    (st : ConditionStatus) (reason message : string) :
  ty' <> ty ->
  apiutil.GetCertificateRequestCondition
    (apiutil.setCondition now conds ty st reason message) ty'
  = apiutil.GetCertificateRequestCondition conds ty'.
Proof.
  intros Hty. induction conds as [|cond rest IH]; cbn.
  - rewrite bool_decide_eq_false_2 by congruence. reflexivity.
  - case_bool_decide as Hcond; cbn.
    + rewrite !bool_decide_eq_false_2 by congruence. reflexivity.
    + rewrite IH. reflexivity.
Qed.

Section Reconcile.
Context `{Predicates}.
Variable c : Controller.

Lemma Reconcile_cases (req : NamespacedName) :
  (exists err, Client_Get c req = inr err
     /\ Reconcile c req
        = ((Result_zero, IgnoreNotFound (Some err)), [Get_call req]))
  \/ (exists cr, Client_Get c req = inl cr /\ settled cr = true
        /\ Reconcile c req = ((Result_zero, None), [Get_call req]))
  \/ (exists cr, Client_Get c req = inl cr /\ settled cr = false
        /\ Reconcile c req
           = ((Result_zero, Status_Update c (approve c cr)),
              [Get_call req; Status_Update_call (approve c cr)]
              ++ match Status_Update c (approve c cr) with
                 | None => [Event_call "Normal" "cert-manager.io"
                              ApprovedMessage]
                 | Some _ => []
                 end)%list).
Proof.
  unfold Reconcile, settled, approve.
  destruct (Client_Get c req) as [cr|err]; [|left; eauto].
  right. destruct (_ || _ || _ || _) eqn:Hsettled.
  - left. exists cr. repeat split. exact Hsettled.
  - right. exists cr. split; [reflexivity|]. split; [exact Hsettled|].
    destruct (Status_Update c _); reflexivity.
Qed.

End Reconcile.
End ApproverFacts.

Module ReconcileFacts.
Import approver approver_terms ApproverFacts.

Ltac filter_calls :=
  repeat first [ rewrite filter_cons_True by exact I
               | rewrite filter_cons_False by (intros [])
               | rewrite filter_nil ].

Ltac filter_calls_in H :=
  repeat first [ rewrite filter_cons_True in H by exact I
               | rewrite filter_cons_False in H by (intros [])
               | rewrite filter_nil in H ].

(** X15.  [Reconcile] leaves alone what it cannot or need not approve.  When
    the fetch fails it returns the error, or nil for a NotFound error, and
    makes no other call.  When the fetched request is approved, denied, or
    has the Ready reason Failed or Issued, it returns nil and makes no other
    call: no status update and no event. *)
Theorem X15_Reconcile_leaves_settled_requests_alone
    `{Predicates} (c : Controller) (req : NamespacedName) :
  (forall err,
     Client_Get c req = inr err ->
     Reconcile c req
     = ((Result_zero, if IsNotFound (Some err) then None else Some err),
        [Get_call req]))
  /\ (forall cr,
        Client_Get c req = inl cr ->
        CertificateRequestIsApproved cr = true
        \/ CertificateRequestIsDenied cr = true
        \/ CertificateRequestReadyReason cr = CertificateRequestReasonFailed
        \/ CertificateRequestReadyReason cr = CertificateRequestReasonIssued ->
        Reconcile c req = ((Result_zero, None), [Get_call req])).
Proof.
  split.
  - intros err Hget. unfold Reconcile. rewrite Hget. reflexivity.
  - intros cr Hget Hsettled. unfold Reconcile. rewrite Hget.
    destruct Hsettled as [-> | [-> | [Hreason | Hreason]]].
    + reflexivity.
    + rewrite orb_true_r. reflexivity.
    + rewrite (bool_decide_eq_true_2 _ Hreason), orb_true_r. reflexivity.
    + rewrite (bool_decide_eq_true_2 _ Hreason), !orb_true_r. reflexivity.
Qed.

(** X16.  For a fetched request that is not approved, not denied, and whose
    Ready reason is neither Failed nor Issued, [Reconcile] submits exactly
    one status update.  The submitted object has the Approved condition True
    with reason [cert-manager.io] and [ApprovedMessage]; the conditions of
    the other types, the Spec, the name, the namespace, the Certificate, the
    CA and NotAfter are those of the fetched request.  [Reconcile] returns
    what the update returned, and records the Normal event exactly when the
    update succeeded. *)
Theorem X16_Reconcile_approves_unsettled_requests
    `{Predicates} (c : Controller) (req : NamespacedName)
    (cr : CertificateRequest) :
  Client_Get c req = inl cr ->
  CertificateRequestIsApproved cr = false ->
  CertificateRequestIsDenied cr = false ->
  CertificateRequestReadyReason cr <> CertificateRequestReasonFailed ->
  CertificateRequestReadyReason cr <> CertificateRequestReasonIssued ->
  exists cr',
    filter is_Status_Update_call (snd (Reconcile c req))
      = [Status_Update_call cr']
    /\ snd (fst (Reconcile c req)) = Status_Update c cr'
    /\ (exists ltt,
          apiutil.GetCertificateRequestCondition (Conditions (Status_ cr'))
            "Approved"
          = Some {| Type_ := "Approved"; Status := ConditionTrue;
                    LastTransitionTime := ltt; Reason := "cert-manager.io";
                    Message := ApprovedMessage |})
    /\ (forall ty, ty <> "Approved" ->
          apiutil.GetCertificateRequestCondition (Conditions (Status_ cr')) ty
          = apiutil.GetCertificateRequestCondition (Conditions (Status_ cr)) ty)
    /\ Spec cr' = Spec cr /\ Namespace cr' = Namespace cr
    /\ ObjectMeta_Name cr' = ObjectMeta_Name cr
    /\ Certificate (Status_ cr') = Certificate (Status_ cr)
    /\ CA (Status_ cr') = CA (Status_ cr)
    /\ NotAfter (Status_ cr') = NotAfter (Status_ cr)
    /\ filter is_Event_call (snd (Reconcile c req))
       = match Status_Update c cr' with
         | None => [Event_call "Normal" "cert-manager.io" ApprovedMessage]
         | Some _ => []
         end.
Proof.
  intros Hget Happroved Hdenied Hfailed Hissued.
  destruct (Reconcile_cases c req)
    as [(err & Hget' & _) | [(cr0 & Hget' & Hsettled & _)
                            | (cr0 & Hget' & Hsettled & ->)]];
    [congruence| |].
  - exfalso. assert (cr0 = cr) as -> by congruence.
    unfold settled in Hsettled.
    rewrite Happroved, Hdenied, !bool_decide_eq_false_2 in Hsettled
      by assumption. discriminate.
  - assert (cr0 = cr) as -> by congruence.
    exists (approve c cr). cbn [fst snd].
    split; [destruct (Status_Update c _); cbn [app]; filter_calls; reflexivity|].
    split; [reflexivity|].
    split; [apply (SyncFacts.GetCondition_setCondition (Clock_Now c) _ "Approved")|].
    split; [intros ty Hty;
            apply (GetCondition_setCondition_other (Clock_Now c) _ "Approved");
            exact Hty|].
    repeat (split; [reflexivity|]).
    destruct (Status_Update c _); cbn [app]; filter_calls; reflexivity.
Qed.

(** X17.  The calls of any [Reconcile]: the result is always the zero
    [ctrl.Result]; the first call is the fetch of the requested key and there
    is no second fetch; there is at most one status update; an event is
    recorded only as the last call, directly after a status update that
    succeeded, and then the error is nil; and the error returned after a
    status update is the update's. *)
Theorem X17_Reconcile_call_discipline
    `{Predicates} (c : Controller) (req : NamespacedName) :
  fst (fst (Reconcile c req)) = Result_zero
  /\ (exists rest, snd (Reconcile c req) = Get_call req :: rest
        /\ forall key, Get_call key ∉ rest)
  /\ (length (filter is_Status_Update_call (snd (Reconcile c req))) <= 1)%nat
  /\ (forall e, e ∈ filter is_Event_call (snd (Reconcile c req)) ->
        snd (fst (Reconcile c req)) = None
        /\ exists pre cr,
             snd (Reconcile c req) = (pre ++ [Status_Update_call cr; e])%list
             /\ Status_Update c cr = None)
  /\ (forall cr, Status_Update_call cr ∈ snd (Reconcile c req) ->
        snd (fst (Reconcile c req)) = Status_Update c cr).
Proof.
  destruct (Reconcile_cases c req)
    as [(err & _ & ->) | [(cr0 & _ & _ & ->) | (cr0 & _ & _ & ->)]];
    cbn [fst snd].
  - split; [reflexivity|]. split.
    { exists []. split; [reflexivity|]. intros key Hin.
      apply elem_of_nil in Hin. exact Hin. }
    split; [cbn [app]; filter_calls; cbn; lia|]. split.
    + intros e Hin. cbn [app] in Hin; filter_calls_in Hin. apply elem_of_nil in Hin. destruct Hin.
    + intros cr Hin. apply list_elem_of_singleton in Hin. discriminate.
  - split; [reflexivity|]. split.
    { exists []. split; [reflexivity|]. intros key Hin.
      apply elem_of_nil in Hin. exact Hin. }
    split; [cbn [app]; filter_calls; cbn; lia|]. split.
    + intros e Hin. cbn [app] in Hin; filter_calls_in Hin. apply elem_of_nil in Hin. destruct Hin.
    + intros cr Hin. apply list_elem_of_singleton in Hin. discriminate.
  - split; [reflexivity|]. split.
    { eexists. split; [reflexivity|]. intros key Hin.
      destruct (Status_Update c _); cbn in Hin;
        repeat (apply elem_of_cons in Hin as [Hin|Hin]; [discriminate|]);
        apply elem_of_nil in Hin; exact Hin. }
    destruct (Status_Update c (approve c cr0)) as [err|] eqn:Hupdate.
    + split; [cbn [app]; filter_calls; cbn; lia|]. split.
      * intros e Hin. cbn [app] in Hin; filter_calls_in Hin. apply elem_of_nil in Hin. destruct Hin.
      * intros cr Hin. cbn in Hin.
        apply elem_of_cons in Hin as [Hin|Hin]; [discriminate|].
        apply list_elem_of_singleton in Hin. injection Hin as ->.
        symmetry. exact Hupdate.
    + split; [cbn [app]; filter_calls; cbn; lia|]. split.
      * intros e Hin. cbn [app] in Hin; filter_calls_in Hin. apply list_elem_of_singleton in Hin.
        subst e. split; [reflexivity|].
        exists [Get_call req], (approve c cr0). split; [reflexivity|].
        exact Hupdate.
      * intros cr Hin. cbn in Hin.
        apply elem_of_cons in Hin as [Hin|Hin]; [discriminate|].
        apply elem_of_cons in Hin as [Hin|Hin];
          [|apply list_elem_of_singleton in Hin; discriminate].
        injection Hin as ->. symmetry. exact Hupdate.
Qed.

End ReconcileFacts.

Module HelperFacts.
Import helper.

Lemma same_at_every_index_eq (aEKU bEKU : list Z) :
  length aEKU = length bEKU ->
  same_at_every_index aEKU bEKU = true <-> aEKU = bEKU.
Proof.
  revert bEKU. induction aEKU as [|a aEKU IH]; intros [|b bEKU] Hlen;
    try discriminate; cbn.
  - split; reflexivity.
  - case_bool_decide as Hab.
    + split; [discriminate | intros [= ? _]; contradiction].
    + subst b. rewrite IH by (cbn in Hlen; lia).
      split; [intros ->; reflexivity | intros [= ->]; reflexivity].
Qed.

Lemma sort_SliceStable_eq_Permutation (aEKU bEKU : list Z) :
  sort_SliceStable aEKU = sort_SliceStable bEKU <-> aEKU ≡ₚ bEKU.
Proof.
  unfold sort_SliceStable. split.
  - intros Heq. rewrite <- (merge_sort_Permutation Z.le aEKU), Heq.
    apply merge_sort_Permutation.
  - intros Hperm. apply (Sorted_unique Z.le).
    + apply (Sorted_merge_sort Z.le).
    + apply (Sorted_merge_sort Z.le).
    + rewrite !merge_sort_Permutation. exact Hperm.
Qed.

Lemma keyUsagesMatch_Permutation (aKU : Z) (aEKU : list Z) (bKU : Z)
    (bEKU : list Z) :
  keyUsagesMatch aKU aEKU bKU bEKU = true <-> aKU = bKU /\ aEKU ≡ₚ bEKU.
Proof.
  unfold keyUsagesMatch. case_bool_decide as Hku.
  { split; [discriminate | intros [? _]; contradiction]. }
  case_bool_decide as Hlen.
  { split; [discriminate|]. intros [_ Hperm]. destruct Hlen.
    apply Permutation_length. exact Hperm. }
  rewrite same_at_every_index_eq, sort_SliceStable_eq_Permutation.
  - split; [intros ?; split; assumption | intros [_ ?]; assumption].
  - unfold sort_SliceStable.
    rewrite !(Permutation_length (merge_sort_Permutation Z.le _)).
    exact Hlen.
Qed.

(** The map [deduplicateExtKeyUsages] builds holds exactly the elements of
    the slice, each with value true. *)
Lemma extKeyUsagesMap_lookup (us : list Z) (m : gmap Z bool) (e : Z) :
  foldl (fun m e => <[e:=true]> m) m us !! e
  = if bool_decide (e ∈ us) then Some true else m !! e.
Proof.
  revert m. induction us as [|u us IH]; intros m; cbn.
  - rewrite bool_decide_eq_false_2 by apply not_elem_of_nil. reflexivity.
  - rewrite IH. case_bool_decide as Hin.
    + rewrite bool_decide_eq_true_2 by (right; exact Hin). reflexivity.
    + destruct (decide (e = u)) as [->|Hne].
      * rewrite bool_decide_eq_true_2 by left. apply lookup_insert_eq.
      * rewrite bool_decide_eq_false_2
          by (intros [?|?]%elem_of_cons; contradiction).
        apply lookup_insert_ne. congruence.
Qed.

Lemma collect_true (l : list (Z * bool)) (acc : list Z) :
  (forall e ok, (e, ok) ∈ l -> ok = true) ->
  foldl (fun (us : list Z) '(e, ok) => if ok : bool then (us ++ [e])%list else us)
    acc l
  = (acc ++ l.*1)%list.
Proof.
  revert acc. induction l as [|[e ok] l IH]; intros acc Htrue; cbn.
  - rewrite app_nil_r. reflexivity.
  - rewrite (Htrue e ok) by left. rewrite IH.
    + rewrite <- app_assoc. reflexivity.
    + intros e' ok' Hin. apply (Htrue e' ok'). right. exact Hin.
Qed.

Section RangeOrder.
Variable range_map : gmap Z bool -> list (Z * bool).
Hypothesis range_map_visits_each_entry_once :
  forall m, range_map m ≡ₚ map_to_list m.

Lemma deduplicateExtKeyUsages_keys (us : list Z) :
  deduplicateExtKeyUsages range_map us
  = (range_map (foldl (fun m e => <[e:=true]> m) ∅ us)).*1.
Proof.
  unfold deduplicateExtKeyUsages. rewrite collect_true; [reflexivity|].
  intros e ok Hin. rewrite range_map_visits_each_entry_once in Hin.
  apply elem_of_map_to_list in Hin. rewrite extKeyUsagesMap_lookup in Hin.
  case_bool_decide; [congruence|]. rewrite lookup_empty in Hin. discriminate.
Qed.

Lemma deduplicateExtKeyUsages_NoDup (us : list Z) :
  NoDup (deduplicateExtKeyUsages range_map us).
Proof.
  rewrite deduplicateExtKeyUsages_keys, range_map_visits_each_entry_once.
  apply NoDup_fst_map_to_list.
Qed.

Lemma deduplicateExtKeyUsages_elem_of (us : list Z) (e : Z) :
  e ∈ deduplicateExtKeyUsages range_map us <-> e ∈ us.
Proof.
  rewrite deduplicateExtKeyUsages_keys, range_map_visits_each_entry_once.
  rewrite list_elem_of_fmap. split.
  - intros ([e' ok] & -> & Hin). apply elem_of_map_to_list in Hin.
    rewrite extKeyUsagesMap_lookup in Hin. cbn.
    case_bool_decide; [assumption|]. rewrite lookup_empty in Hin.
    discriminate.
  - intros Hin. exists (e, true). split; [reflexivity|].
    apply elem_of_map_to_list. rewrite extKeyUsagesMap_lookup.
    rewrite bool_decide_eq_true_2 by exact Hin. reflexivity.
Qed.

End RangeOrder.
(** The loop of [wrapErrorWithCertificateStatusCondition] stops at the first
    condition of the type, and finds none when there is none. *)
Lemma first_condition_found (pre : list CertificateCondition)
    (cond : CertificateCondition) (rest : list CertificateCondition)
    (conditionType : string) :
  cc_Type cond = conditionType ->
  (forall c, c ∈ pre -> cc_Type c <> conditionType) ->
  first_condition (pre ++ cond :: rest) conditionType = Some cond.
Proof.
  intros Hty Hpre. induction pre as [|c pre IH]; cbn.
  - rewrite (bool_decide_eq_true_2 _ Hty). reflexivity.
  - rewrite bool_decide_eq_false_2 by (apply Hpre; left).
    apply IH. intros c' Hin. apply Hpre. right. exact Hin.
Qed.

Lemma first_condition_none (conds : list CertificateCondition)
    (conditionType : string) :
  (forall c, c ∈ conds -> cc_Type c <> conditionType) ->
  first_condition conds conditionType = None.
Proof.
  intros Hnone. induction conds as [|c conds IH]; cbn; [reflexivity|].
  rewrite bool_decide_eq_false_2 by (apply Hnone; left).
  apply IH. intros c' Hin. apply Hnone. right. exact Hin.
Qed.

End HelperFacts.

Module UsageFacts.
Import helper HelperFacts.

(** X19.  [keyUsagesMatch] compares the extended key usages up to order: it
    is true exactly when the key usages are equal and the two slices of
    extended key usages are permutations of each other.  It is symmetric in
    its two sides, and a slice matches its own reverse. *)
Theorem X19_keyUsagesMatch_compares_up_to_order
    (aKU : Z) (aEKU : list Z) (bKU : Z) (bEKU : list Z) :
  (keyUsagesMatch aKU aEKU bKU bEKU = true <-> aKU = bKU /\ aEKU ≡ₚ bEKU)
  /\ keyUsagesMatch aKU aEKU bKU bEKU = keyUsagesMatch bKU bEKU aKU aEKU
  /\ keyUsagesMatch aKU aEKU aKU (reverse aEKU) = true.
Proof.
  split; [apply keyUsagesMatch_Permutation|]. split.
  - apply eq_true_iff_eq. rewrite !keyUsagesMatch_Permutation.
    split; intros [-> Hperm]; (split; [reflexivity | symmetry; exact Hperm]).
  - apply keyUsagesMatch_Permutation. split; [reflexivity|].
    symmetry. apply reverse_Permutation.
Qed.

(** X20.  [deduplicateExtKeyUsages] keeps each usage once, in whichever
    order [range] visits the map (each entry once): the result has no
    duplicates, holds exactly the members of the slice given, is no longer
    than it, and is a permutation of it when the slice has no duplicates. *)
Theorem X20_deduplicateExtKeyUsages_keeps_each_usage_once
    (range_map : gmap Z bool -> list (Z * bool)) (us : list Z) :
  (forall m, range_map m ≡ₚ map_to_list m) ->
  NoDup (deduplicateExtKeyUsages range_map us)
  /\ (forall e, e ∈ deduplicateExtKeyUsages range_map us <-> e ∈ us)
  /\ (length (deduplicateExtKeyUsages range_map us) <= length us)%nat
  /\ (NoDup us -> deduplicateExtKeyUsages range_map us ≡ₚ us).
Proof.
  intros Hrange.
  pose proof (deduplicateExtKeyUsages_NoDup range_map Hrange us) as Hnodup.
  pose proof (deduplicateExtKeyUsages_elem_of range_map Hrange us) as Hin.
  split; [exact Hnodup|]. split; [exact Hin|]. split.
  - apply submseteq_length, NoDup_submseteq; [exact Hnodup|].
    intros e. apply Hin.
  - intros Hus. apply NoDup_Permutation; assumption.
Qed.

(** X21.  The order in which [range] visits the map does not change the
    outcome of the usage check of [ValidateIssuedCertificate]:
    [keyUsagesMatch] against the deduplicated expected usages gives the same
    answer for any two visiting orders.  The answer is true exactly when the
    key usages are equal, the certificate's extended key usages have no
    duplicates, and they have the same members as the expected ones. *)
Theorem X21_usage_check_does_not_depend_on_map_order
    (range_map range_map' : gmap Z bool -> list (Z * bool))
    (certKU : Z) (certEKU : list Z) (expectedKU : Z) (expectedEKU : list Z) :
  (forall m, range_map m ≡ₚ map_to_list m) ->
  (forall m, range_map' m ≡ₚ map_to_list m) ->
  keyUsagesMatch certKU certEKU expectedKU
    (deduplicateExtKeyUsages range_map expectedEKU)
  = keyUsagesMatch certKU certEKU expectedKU
      (deduplicateExtKeyUsages range_map' expectedEKU)
  /\ (keyUsagesMatch certKU certEKU expectedKU
        (deduplicateExtKeyUsages range_map expectedEKU) = true
      <-> certKU = expectedKU
          /\ NoDup certEKU
          /\ forall e, e ∈ certEKU <-> e ∈ expectedEKU).
Proof.
  intros Hrange Hrange'.
  assert (Hiff : forall r, (forall m, r m ≡ₚ map_to_list m) ->
            keyUsagesMatch certKU certEKU expectedKU
              (deduplicateExtKeyUsages r expectedEKU) = true
            <-> certKU = expectedKU
                /\ NoDup certEKU
                /\ forall e, e ∈ certEKU <-> e ∈ expectedEKU).
  { intros r Hr. rewrite keyUsagesMatch_Permutation.
    pose proof (deduplicateExtKeyUsages_NoDup r Hr expectedEKU) as Hnodup.
    pose proof (deduplicateExtKeyUsages_elem_of r Hr expectedEKU) as Hin.
    split.
    - intros [-> Hperm]. split; [reflexivity|]. split.
      + rewrite Hperm. exact Hnodup.
      + intros e. rewrite Hperm. apply Hin.
    - intros (-> & Hcert & Hsame). split; [reflexivity|].
      apply NoDup_Permutation; [exact Hcert | exact Hnodup|].
      intros e. rewrite Hsame, Hin. reflexivity. }
  split; [|apply Hiff; exact Hrange].
  apply eq_true_iff_eq. rewrite !Hiff by assumption. reflexivity.
Qed.

End UsageFacts.

Module HelperLookupFacts.
Import helper HelperFacts.

(** X22.  [defaultKeyUsagesToAdd] for an issuer that is found: no error; the
    key usage is [KeyAgreement] alone (bit 4) for a Vault issuer and zero
    otherwise; [ServerAuth] is among the extended key usages exactly for an
    ACME, Vault or Venafi issuer and [ClientAuth] exactly for an ACME or
    Vault issuer; nothing else is added; and the extended key usages hold
    [ServerAuth] twice exactly when a Venafi issuer is also ACME or
    Vault. *)
Theorem X22_defaultKeyUsagesToAdd_by_issuer_type
    `{GoLib} (fmt_v_ObjectReference : ObjectReference -> string)
    (h : Helper) (ns : string) (issuerRef : ObjectReference)
    (issuerSpec : IssuerSpec) :
  (if bool_decide (Kind issuerRef = "ClusterIssuer")
   then ClusterIssuers_Get h (Name issuerRef)
   else Issuers_Get h ns (Name issuerRef)) = inl issuerSpec ->
  exists keyUsages extKeyUsages,
    fst (defaultKeyUsagesToAdd fmt_v_ObjectReference h ns issuerRef)
      = (keyUsages, extKeyUsages, None)
    /\ keyUsages = (if Vault_set issuerSpec then x509_KeyUsageKeyAgreement else 0)
    /\ (forall n, Z.testbit keyUsages n = Vault_set issuerSpec && bool_decide (n = 4))
    /\ (x509_ExtKeyUsageServerAuth ∈ extKeyUsages
        <-> ACME_set issuerSpec = true \/ Vault_set issuerSpec = true
            \/ Venafi_set issuerSpec = true)
    /\ (x509_ExtKeyUsageClientAuth ∈ extKeyUsages
        <-> ACME_set issuerSpec = true \/ Vault_set issuerSpec = true)
    /\ (forall e, e ∈ extKeyUsages ->
          e = x509_ExtKeyUsageServerAuth \/ e = x509_ExtKeyUsageClientAuth)
    /\ (NoDup extKeyUsages
        <-> ~ ((ACME_set issuerSpec = true \/ Vault_set issuerSpec = true)
               /\ Venafi_set issuerSpec = true)).
Proof.
  intros Hfound. unfold defaultKeyUsagesToAdd.
  assert (Hfst : forall (a b : (IssuerSpec + error) * list Lookup) (d : bool),
            fst (if d then a else b) = if d then fst a else fst b)
    by (intros ? ? []; reflexivity).
  rewrite Hfst. cbn [fst].
  destruct (bool_decide (Kind issuerRef = "ClusterIssuer"));
    rewrite Hfound; cbn [fst snd];
    (eexists _, _; split; [reflexivity|]; split; [reflexivity|]);
    destruct issuerSpec as [[] [] []]; cbn [ACME_set Vault_set Venafi_set orb app];
    (split; [intros n; change (Z.lor 0 x509_KeyUsageKeyAgreement) with 16;
             first [ rewrite Z.bits_0; reflexivity
                   | cbn [andb]; case_bool_decide as Hn;
                     [subst n; reflexivity|];
                     change 16 with (2 ^ 4); apply Z.pow2_bits_false; congruence ]|]);
    unfold x509_ExtKeyUsageServerAuth, x509_ExtKeyUsageClientAuth;
    rewrite ?NoDup_cons, ?elem_of_cons, ?NoDup_nil, ?elem_of_nil;
    repeat split; try (intros e; rewrite ?elem_of_cons, ?elem_of_nil);
    intuition (congruence || lia).
Qed.

(** X23.  [defaultKeyUsagesToAdd] makes exactly one lookup.  For the kind
    [ClusterIssuer], spelled so, it reads the cluster issuer of the
    reference's name; for every other kind, the empty one included, it reads
    the issuer of that name in the namespace given.  When the lookup fails
    the result is zero key usages, no extended key usages and the wrapped
    error. *)
Theorem X23_defaultKeyUsagesToAdd_looks_up_the_issuer_once
    `{GoLib} (fmt_v_ObjectReference : ObjectReference -> string)
    (h : Helper) (ns : string) (issuerRef : ObjectReference) :
  let result := defaultKeyUsagesToAdd fmt_v_ObjectReference h ns issuerRef in
  (Kind issuerRef = "ClusterIssuer" ->
   snd result = [ClusterIssuer_lookup (Name issuerRef)]
   /\ forall err,
        ClusterIssuers_Get h (Name issuerRef) = inr err ->
        fst result
        = (0, [],
           Some (fmt_Errorf "failed to find referenced ClusterIssuer %v: %s"
                   [fmt_v_ObjectReference issuerRef; error_Error err])))
  /\ (Kind issuerRef <> "ClusterIssuer" ->
      snd result = [Issuer_lookup ns (Name issuerRef)]
      /\ forall err,
           Issuers_Get h ns (Name issuerRef) = inr err ->
           fst result
           = (0, [],
              Some (fmt_Errorf "failed to find referenced Issuer %v: %s"
                      [fmt_v_ObjectReference issuerRef; error_Error err]))).
Proof.
  cbv zeta. unfold defaultKeyUsagesToAdd. split; intros Hkind.
  - rewrite (bool_decide_eq_true_2 _ Hkind). cbn [fst snd].
    split; [destruct (ClusterIssuers_Get h _); reflexivity|].
    intros err ->. reflexivity.
  - rewrite (bool_decide_eq_false_2 _ Hkind). cbn [fst snd].
    split; [destruct (Issuers_Get h ns _); reflexivity|].
    intros err ->. reflexivity.
Qed.

(** X24.  [wrapErrorWithCertificateStatusCondition] returns nil exactly when
    the poll error is nil, and then it looks nothing up; for a poll error it
    reads the Certificate once.  It returns the poll error itself when the
    Certificate cannot be read, and when the Certificate holds no condition
    of the type.  When the Certificate holds a condition of the type, it
    returns the error that [fmt.Errorf] builds from the poll error's text
    and the status, reason and message of the first such condition. *)
Theorem X24_wrapError_keeps_failure_and_success_apart
    `{GoLib} (h : Helper) (pollErr : option error) (ns name : string)
    (conditionType : string) :
  let result :=
    wrapErrorWithCertificateStatusCondition h pollErr ns name conditionType in
  (fst result = None <-> pollErr = None)
  /\ snd result
     = match pollErr with
       | None => []
       | Some _ => [Certificate_lookup ns name]
       end
  /\ (forall perr err,
        pollErr = Some perr ->
        Certificates_Get h ns name = inr err ->
        fst result = Some perr)
  /\ (forall perr conds,
        pollErr = Some perr ->
        Certificates_Get h ns name = inl conds ->
        (forall c, c ∈ conds -> cc_Type c <> conditionType) ->
        fst result = Some perr)
  /\ (forall perr pre cond rest,
        pollErr = Some perr ->
        Certificates_Get h ns name = inl (pre ++ cond :: rest)%list ->
        cc_Type cond = conditionType ->
        (forall c, c ∈ pre -> cc_Type c <> conditionType) ->
        fst result
        = Some (fmt_Errorf
                  "%s: Last Status: '%s' Reason: '%s', Message: '%s'"
                  [error_Error perr;
                   ConditionStatus_string (cc_Status cond);
                   cc_Reason cond; cc_Message cond])).
Proof.
  cbv zeta. unfold wrapErrorWithCertificateStatusCondition.
  split.
  { destruct pollErr as [perr|]; [|split; reflexivity].
    destruct (Certificates_Get h ns name) as [conds|err];
      [|split; discriminate].
    destruct (first_condition conds conditionType); split; discriminate. }
  split.
  { destruct pollErr as [perr|]; [|reflexivity].
    destruct (Certificates_Get h ns name) as [conds|err]; [|reflexivity].
    destruct (first_condition conds conditionType); reflexivity. }
  split; [intros perr err -> ->; reflexivity|].
  split.
  - intros perr conds -> -> Hnone.
    rewrite (first_condition_none conds conditionType Hnone). reflexivity.
  - intros perr pre cond rest -> -> Hty Hpre.
    rewrite (first_condition_found pre cond rest conditionType Hty Hpre).
    reflexivity.
Qed.

End HelperLookupFacts.

Module ApproverReviewed.
Import approver approver_terms ApproverFacts subjectaccessreview ApprovalFacts
  ReviewFacts.

(** X18.  The default approver is subject to the approval check.  When
    [Reconcile] approves a fetched request whose Approved condition is absent
    or not True, the pair of the fetched and the submitted object is one for
    which [Review] creates exactly one access review, with verb [approve] and
    the name joined from the request's issuer reference; a collaborator that
    answers allowed=false makes [Review] return the Forbidden error. *)
Theorem X18_approver_update_needs_the_approve_permission
    `{Predicates} (c : Controller) (req : NamespacedName)
    (cr : CertificateRequest)
    (certmanager_GroupName : string)
    (sarclient_Create : SubjectAccessReview -> SubjectAccessReview + error)
    (areq : AdmissionRequest) :
  Client_Get c req = inl cr ->
  CertificateRequestIsApproved cr = false ->
  CertificateRequestIsDenied cr = false ->
  CertificateRequestReadyReason cr <> CertificateRequestReasonFailed ->
  CertificateRequestReadyReason cr <> CertificateRequestReasonIssued ->
  (forall cond,
     apiutil.GetCertificateRequestCondition (Conditions (Status_ cr)) "Approved"
       = Some cond -> Status cond <> ConditionTrue) ->
  exists cr' review,
    filter is_Status_Update_call (snd (Reconcile c req))
      = [Status_Update_call cr']
    /\ snd (Review certmanager_GroupName sarclient_Create areq cr cr')
       = [review]
    /\ review_Verb review = Some "approve"
    /\ review_Name review
       = Some (filepath.Join [Group (IssuerRef (Spec cr));
                              Kind (IssuerRef (Spec cr))])
    /\ (forall resp,
          sarclient_Create review = inl resp ->
          Allowed (sar_Status resp) = false ->
          fst (Review certmanager_GroupName sarclient_Create areq cr cr')
          = [field_Forbidden "status.conditions"
               "user does not have permissions to set approved/deny conditions"]).
Proof.
  intros Hget Happroved Hdenied Hfailed Hissued Hold.
  destruct (Reconcile_cases c req)
    as [(err & Hget' & _) | [(cr0 & Hget' & Hsettled & _)
                            | (cr0 & Hget' & Hsettled & ->)]];
    [congruence| |].
  { exfalso. assert (cr0 = cr) as -> by congruence.
    unfold settled in Hsettled.
    rewrite Happroved, Hdenied, !bool_decide_eq_false_2 in Hsettled
      by assumption. discriminate. }
  assert (cr0 = cr) as -> by congruence. clear Hget'.
  assert (Hchanged :
    apiutil.GetCertificateRequestCondition (Conditions (Status_ cr))
      CertificateRequestConditionApproved
    <> apiutil.GetCertificateRequestCondition
         (Conditions (Status_ (approve c cr)))
         CertificateRequestConditionApproved).
  { destruct (SyncFacts.GetCondition_setCondition (Clock_Now c)
                (Conditions (Status_ cr)) "Approved" ConditionTrue
                "cert-manager.io" ApprovedMessage) as [ltt Hnew].
    unfold approve, apiutil.SetCertificateRequestCondition.
    cbn [Status_ set_Status Conditions set_Conditions].
    change CertificateRequestConditionApproved with "Approved".
    rewrite Hnew. intros Hsame. apply (Hold _ Hsame). reflexivity. }
  exists (approve c cr).
  rewrite (Review_approved_changed _ _ _ _ _ Hchanged).
  rewrite reviewRequest_exact. cbv zeta.
  eexists. cbn [snd].
  split; [destruct (Status_Update c _); cbn [app];
          rewrite filter_cons_False by (intros []);
          rewrite filter_cons_True by exact I;
          rewrite ?filter_cons_False by (intros []);
          rewrite filter_nil; reflexivity|].
  split; [destruct (sarclient_Create _); reflexivity|].
  split; [reflexivity|]. split; [reflexivity|].
  intros resp -> ->. reflexivity.
Qed.

End ApproverReviewed.

Module StatusFacts.
Import issuer certificaterequests SyncFacts ApproverFacts.

Section Status.
Context `{GoLib} `{Helpers}.
Variable c : Controller.

(** The status computation as one write of NotAfter and one of the Ready
    condition. *)
Lemma setCertificateRequestStatus_exact (cr : CertificateRequest)
    (csr : x509_CertificateRequest) (crt : x509_Certificate) :
  let temporary := isTemporaryCertificate (Some crt) in
  let expired := time_Before (cert_NotAfter crt) (clock_Now c) in
  let matches := fst (certificateMatchesSpec cr csr crt) in
  setCertificateRequestStatus c cr csr (Some crt)
  = apiutil.SetCertificateRequestCondition (apiutil_Clock_Now c)
      (set_Status
         (set_NotAfter
            (if temporary then None else Some (cert_NotAfter crt))
            (Status_ cr)) cr)
      "Ready"
      (if temporary || expired || negb matches
       then ConditionFalse else ConditionTrue)
      (if temporary then "TemporaryCertificate"
       else if expired then "Expired"
       else if negb matches then "DoesNotMatch" else "Ready")
      (if temporary
       then "Certificate issuance in progress. Temporary certificate issued."
       else if expired
       then fmt_Sprintf "Certificate has expired on %s"
              [arg_string (time_Format (cert_NotAfter crt) time_RFC822)]
       else if negb matches
       then String.concat ", " (snd (certificateMatchesSpec cr csr crt))
       else "Certificate is up to date and has not expired").
Proof.
  cbv zeta. unfold setCertificateRequestStatus.
  rewrite (certificateMatchesSpec_any_request _ cr).
  destruct (certificateMatchesSpec cr csr crt) as [matches matchErrs].
  cbn [fst snd].
  destruct (isTemporaryCertificate (Some crt)); [reflexivity|].
  destruct (time_Before _ _); [reflexivity|].
  destruct matches; reflexivity.
Qed.

End Status.

(** X25.  [setCertificateRequestStatus] on a decoded certificate always
    leaves a Ready condition, which is True or False.  It is True exactly
    when the certificate is not temporary, has not expired and matches the
    CSR.  The reason is [Expired] exactly for a certificate that is not
    temporary and has expired, and [DoesNotMatch] exactly for one that is
    neither temporary nor expired and does not match.  NotAfter is cleared
    for a temporary certificate and the certificate's own otherwise;
    Certificate, CA and the conditions of other types are untouched. *)
Theorem X25_Ready_is_True_only_for_a_valid_matching_certificate
    `{GoLib} `{Helpers} (c : Controller) (cr : CertificateRequest)
    (csr : x509_CertificateRequest) (crt : x509_Certificate) :
  let cr' := setCertificateRequestStatus c cr csr (Some crt) in
  (exists ready,
     Ready_condition (Status_ cr') = Some ready
     /\ (Status ready = ConditionTrue
         <-> isTemporaryCertificate (Some crt) = false
             /\ time_Before (cert_NotAfter crt) (clock_Now c) = false
             /\ fst (certificateMatchesSpec cr csr crt) = true)
     /\ (Status ready = ConditionTrue \/ Status ready = ConditionFalse)
     /\ (Reason ready = "Expired"
         <-> isTemporaryCertificate (Some crt) = false
             /\ time_Before (cert_NotAfter crt) (clock_Now c) = true)
     /\ (Reason ready = "DoesNotMatch"
         <-> isTemporaryCertificate (Some crt) = false
             /\ time_Before (cert_NotAfter crt) (clock_Now c) = false
             /\ fst (certificateMatchesSpec cr csr crt) = false))
  /\ NotAfter (Status_ cr')
     = (if isTemporaryCertificate (Some crt) then None
        else Some (cert_NotAfter crt))
  /\ Certificate (Status_ cr') = Certificate (Status_ cr)
  /\ CA (Status_ cr') = CA (Status_ cr)
  /\ (forall ty, ty <> "Ready" ->
        apiutil.GetCertificateRequestCondition (Conditions (Status_ cr')) ty
        = apiutil.GetCertificateRequestCondition (Conditions (Status_ cr)) ty).
Proof.
  cbv zeta. rewrite setCertificateRequestStatus_exact. cbv zeta.
  unfold Ready_condition, apiutil.SetCertificateRequestCondition.
  cbn [Status_ set_Status Conditions set_Conditions NotAfter set_NotAfter
       Certificate CA].
  change CertificateRequestConditionReady with "Ready".
  split; [|split; [reflexivity|]; split; [reflexivity|];
           split; [reflexivity|];
           intros ty Hty; apply GetCondition_setCondition_other; exact Hty].
  match goal with
  | |- context [apiutil.setCondition ?now ?conds "Ready" ?st ?reason ?msg] =>
      destruct (GetCondition_setCondition now conds "Ready" st reason msg)
        as [ltt ->]
  end.
  eexists. split; [reflexivity|]. cbn [Status Reason].
  destruct (isTemporaryCertificate (Some crt)),
    (time_Before (cert_NotAfter crt) (clock_Now c)),
    (fst (certificateMatchesSpec cr csr crt)); cbn [orb negb];
    repeat split; intros; try discriminate; try tauto;
    repeat match goal with
           | Hx : _ /\ _ |- _ => destruct Hx
           end; try discriminate; auto.
Qed.

(** X26.  [setCertificateRequestStatus] is idempotent: computing the status
    again on its own result, for the same CSR and certificate, changes
    nothing. *)
Theorem X26_status_computation_is_idempotent
    `{GoLib} `{Helpers} (c : Controller) (cr : CertificateRequest)
    (csr : x509_CertificateRequest) (cert : option x509_Certificate) :
  setCertificateRequestStatus c
    (setCertificateRequestStatus c cr csr cert) csr cert
  = setCertificateRequestStatus c cr csr cert.
Proof.
  assert (Hidem : forall now cr0 st reason message,
            apiutil.SetCertificateRequestCondition now
              (apiutil.SetCertificateRequestCondition now cr0 "Ready" st
                 reason message) "Ready" st reason message
            = apiutil.SetCertificateRequestCondition now cr0 "Ready" st
                reason message).
  { intros now cr0 st reason message.
    unfold apiutil.SetCertificateRequestCondition.
    cbn [Status_ set_Status Conditions set_Conditions].
    destruct (GetCondition_setCondition now (Conditions (Status_ cr0))
                "Ready" st reason message) as [ltt Hget].
    pose proof (setCondition_same now _
                  {| Type_ := "Ready"; Status := st; LastTransitionTime := ltt;
                     Reason := reason; Message := message |} Hget) as Hsame.
    cbn [Type_ Status Reason Message] in Hsame. rewrite Hsame.
    reflexivity. }
  destruct cert as [crt|].
  - rewrite (setCertificateRequestStatus_exact c
               (setCertificateRequestStatus c cr csr (Some crt))).
    cbv zeta.
    rewrite (certificateMatchesSpec_any_request
               (setCertificateRequestStatus c cr csr (Some crt)) cr).
    rewrite (setCertificateRequestStatus_exact c cr). cbv zeta.
    match goal with
    | |- apiutil.SetCertificateRequestCondition _
           (set_Status (set_NotAfter ?t (Status_ ?cr1)) ?cr1) _ _ _ _ = _ =>
        change (set_Status (set_NotAfter t (Status_ cr1)) cr1) with cr1
    end.
    apply Hidem.
  - unfold setCertificateRequestStatus.
    change CertificateRequestConditionReady with "Ready". apply Hidem.
Qed.

End StatusFacts.

Module TwoRounds.
Import issuer certificaterequests SyncFacts SyncStops SyncSigning.

(** X27.  Issuance settles in the next round.  When a round signs and the
    backend answers with a certificate that decodes, is not temporary, has
    not expired and matches the CSR, then the next round on the working copy
    of the first, by any controller whose clock is before the expiry, does
    not call [Sign] and ends with the Ready condition True, reason [Ready],
    NotAfter the certificate's own and the issued certificate in place. *)
Theorem X27_issued_certificate_settles_in_the_next_round
    `{GoLib} `{Helpers} (c c2 : Controller) (cr : CertificateRequest)
    (csr : x509_CertificateRequest) (crt : x509_Certificate)
    (i : issuer.Interface) (resp : IssueResponse) (der' : bytes)
    (crt' : x509_Certificate) :
  let crCopy1 := setCertificateRequestStatus c cr csr (Some crt) in
  let cr2 := crCopy (snd (Sync c cr)) in
  decodes_to cr csr crt ->
  reaches_signing c crCopy1 i ->
  isTemporaryCertificate (Some crt)
    || negb (fst (certificateMatchesSpec cr csr crt)) = true ->
  Sign i crCopy1 = (Some resp, None) ->
  resp_Certificate resp <> [] ->
  pem_Decode (resp_Certificate resp) = Some der' ->
  x509_ParseCertificate der' = inl crt' ->
  isTemporaryCertificate (Some crt') = false ->
  time_Before (cert_NotAfter crt') (clock_Now c2) = false ->
  fst (certificateMatchesSpec cr csr crt') = true ->
  filter is_Sign_call (calls (snd (Sync c2 cr2))) = []
  /\ (exists ltt,
        Ready_condition (Status_ (crCopy (snd (Sync c2 cr2))))
        = Some {| Type_ := "Ready"; Status := ConditionTrue;
                  LastTransitionTime := ltt; Reason := "Ready";
                  Message := "Certificate is up to date and has not expired" |})
  /\ NotAfter (Status_ (crCopy (snd (Sync c2 cr2)))) = Some (cert_NotAfter crt')
  /\ Certificate (Status_ (crCopy (snd (Sync c2 cr2)))) = resp_Certificate resp.
Proof.
  cbv zeta.
  intros Hdec Hreach Hneeded Hsigned Hcert Hpem Hparse Htemp Hexp Hmatch.
  assert (Hcr2 : crCopy (snd (Sync c cr))
                 = set_Status
                     (set_Certificate (resp_Certificate resp) (resp_CA resp)
                        (Status_ (setCertificateRequestStatus c cr csr (Some crt))))
                     (setCertificateRequestStatus c cr csr (Some crt))).
  { destruct (Sync_body_signs c cr csr crt i Hdec Hreach Hneeded)
      as (pre & _ & _ & Hbody).
    rewrite sign_exact in Hbody. cbn [crCopy calls] in Hbody.
    rewrite Hsigned in Hbody.
    rewrite bool_decide_eq_true_2 in Hbody
      by (destruct (resp_Certificate resp); [congruence | cbn; lia]).
    rewrite Sync_crCopy, Hbody. reflexivity. }
  rewrite Hcr2.
  set (cr2 := set_Status _ _).
  assert (Hdec2 : decodes_to cr2 csr crt').
  { destruct Hdec as (Hlen & Hcsr & _).
    destruct (setCertificateRequestStatus_Spec c cr csr (Some crt)) as [Hspec _].
    subst cr2. unfold decodes_to.
    cbn [Spec Status_ set_Status Certificate set_Certificate].
    rewrite Hspec. split; [exact Hlen|]. split; [exact Hcsr|].
    split; [destruct (resp_Certificate resp); [congruence | discriminate]|].
    exists der'. split; assumption. }
  assert (Hmatch2 : fst (certificateMatchesSpec cr2 csr crt') = true)
    by (rewrite (certificateMatchesSpec_any_request cr2 cr); exact Hmatch).
  destruct (Sync_no_sign_needed c2 cr2 csr crt' Hdec2 Htemp Hmatch2)
    as [Hnosign ->].
  split; [exact Hnosign|].
  rewrite (setCertificateRequestStatus_ready c2 cr2 csr crt' Htemp Hexp Hmatch2).
  unfold Ready_condition, apiutil.SetCertificateRequestCondition.
  cbn [Status_ set_Status Conditions set_Conditions NotAfter set_NotAfter
       Certificate].
  split; [apply (GetCondition_setCondition (apiutil_Clock_Now c2) _ "Ready")|].
  split; reflexivity.
Qed.

Lemma X27_witness :
  filter is_Sign_call
    (calls (snd (@Sync fixtures.fixture_lib fixtures.fixture_helpers
                   fixtures.exampleController
                   (crCopy (snd (@Sync fixtures.fixture_lib
                                   fixtures.fixture_helpers
                                   fixtures.exampleController
                                   fixtures.exampleTemporaryCR)))))) = [].
Proof.
  refine (proj1 (@X27_issued_certificate_settles_in_the_next_round
                   fixtures.fixture_lib fixtures.fixture_helpers
                   fixtures.exampleController fixtures.exampleController
                   fixtures.exampleTemporaryCR fixtures.csr1
                   fixtures.certTemporary fixtures.fakeIssuer
                   {| resp_Certificate := fixtures.B "PEM:cert1";
                      resp_CA := [] |}
                   (fixtures.B "cert1") fixtures.cert1
                   _ _ _ _ _ _ _ _ _ _)).
  - apply (decodes_fixture "csr1" "temporary"); reflexivity.
  - split; [reflexivity|]. exists fixtures.readyIssuer.
    repeat split; reflexivity.
  - reflexivity.
  - reflexivity.
  - discriminate.
  - reflexivity.
  - reflexivity.
  - reflexivity.
  - reflexivity.
  - reflexivity.
Defined.

End TwoRounds.

Module FurtherWitness.
Import subjectaccessreview approver helper fixtures.
Import ReviewFacts ReconcileFacts ApproverReviewed UsageFacts HelperLookupFacts.

Lemma X12_witness :
  exists review,
    snd (Review "cert-manager.io" denyAll alice
           (requestFor "cert-manager.io" "Issuer" [])
           (requestFor "cert-manager.io" "Issuer"
              [condition "Denied" ConditionTrue])) = [review]
    /\ review_Verb review = Some "deny".
Proof.
  destruct (X12_Review_checks_deny_permission "cert-manager.io" denyAll alice
              (requestFor "cert-manager.io" "Issuer" [])
              (requestFor "cert-manager.io" "Issuer"
                 [condition "Denied" ConditionTrue])
              eq_refl ltac:(discriminate))
    as (review & Hcalls & Hverb & _).
  exists review. split; assumption.
Defined.

Lemma X13_witness :
  sar_User (sar_Spec review_fixtures.approveReview)
  = Username (req_UserInfo alice)
  /\ sar_Groups (sar_Spec review_fixtures.approveReview)
     = Groups (req_UserInfo alice)
  /\ sar_UID (sar_Spec review_fixtures.approveReview)
     = UID (req_UserInfo alice)
  /\ sar_Extra (sar_Spec review_fixtures.approveReview)
     = Extra (req_UserInfo alice)
  /\ exists verb,
       (verb = "approve" \/ verb = "deny")
       /\ sar_ResourceAttributes (sar_Spec review_fixtures.approveReview)
          = Some {| ra_Namespace := "team-a";
                    ra_Verb := verb;
                    ra_Group := "cert-manager.io";
                    ra_Resource := "signers";
                    ra_Name := filepath.Join ["cert-manager.io"; "Issuer"] |}.
Proof.
  apply (X13_access_review_is_about_the_requester
           "cert-manager.io" review_fixtures.allowAll alice
           (requestFor "cert-manager.io" "Issuer" [])
           (requestFor "cert-manager.io" "Issuer"
              [condition "Approved" ConditionTrue])
           review_fixtures.approveReview).
  vm_compute. left.
Defined.

Lemma X15_witness :
  @Reconcile approver_fixtures.fixture_predicates
    (approver_fixtures.client_with (inr sync_fixtures.notFound_error) None) approver_fixtures.key
  = ((Result_zero, None), [Get_call approver_fixtures.key])
  /\ @Reconcile approver_fixtures.fixture_predicates
       (approver_fixtures.client_with (inl approver_fixtures.approvedCR) None) approver_fixtures.key
     = ((Result_zero, None), [Get_call approver_fixtures.key]).
Proof.
  split.
  - apply (proj1 (@X15_Reconcile_leaves_settled_requests_alone
                    approver_fixtures.fixture_predicates
                    (approver_fixtures.client_with (inr sync_fixtures.notFound_error) None) approver_fixtures.key)
             sync_fixtures.notFound_error eq_refl).
  - apply (proj2 (@X15_Reconcile_leaves_settled_requests_alone
                    approver_fixtures.fixture_predicates
                    (approver_fixtures.client_with (inl approver_fixtures.approvedCR) None) approver_fixtures.key)
             approver_fixtures.approvedCR eq_refl).
    left. reflexivity.
Defined.

Lemma X16_witness :
  exists cr',
    filter is_Status_Update_call
      (snd (@Reconcile approver_fixtures.fixture_predicates
              (approver_fixtures.client_with (inl approver_fixtures.pendingCR) None) approver_fixtures.key))
    = [Status_Update_call cr']
    /\ apiutil.GetCertificateRequestCondition (Conditions (Status_ cr'))
         "Approved"
       = Some {| Type_ := "Approved"; Status := ConditionTrue;
                 LastTransitionTime := Some nowTime;
                 Reason := "cert-manager.io"; Message := ApprovedMessage |}.
Proof.
  destruct (@X16_Reconcile_approves_unsettled_requests
              approver_fixtures.fixture_predicates
              (approver_fixtures.client_with (inl approver_fixtures.pendingCR) None) approver_fixtures.key approver_fixtures.pendingCR
              eq_refl eq_refl eq_refl ltac:(discriminate) ltac:(discriminate))
    as (cr' & Hcalls & _).
  exists cr'. split; [exact Hcalls|].
  vm_compute in Hcalls. injection Hcalls as <-. reflexivity.
Defined.

Lemma X18_witness :
  exists cr' review,
    filter is_Status_Update_call
      (snd (@Reconcile approver_fixtures.fixture_predicates
              (approver_fixtures.client_with (inl approver_fixtures.pendingCR)
                 (Some approver_fixtures.forbidden_error)) approver_fixtures.key))
    = [Status_Update_call cr']
    /\ snd (Review "cert-manager.io" denyAll alice approver_fixtures.pendingCR cr')
       = [review]
    /\ review_Verb review = Some "approve".
Proof.
  destruct (@X18_approver_update_needs_the_approve_permission
              approver_fixtures.fixture_predicates
              (approver_fixtures.client_with (inl approver_fixtures.pendingCR) (Some approver_fixtures.forbidden_error))
              approver_fixtures.key approver_fixtures.pendingCR "cert-manager.io" denyAll alice
              eq_refl eq_refl eq_refl ltac:(discriminate) ltac:(discriminate)
              ltac:(discriminate))
    as (cr' & review & Hcalls & Hreview & Hverb & _).
  exists cr', review. repeat split; assumption.
Defined.

Lemma X20_witness :
  NoDup (deduplicateExtKeyUsages map_to_list [1; 2; 1])
  /\ forall e, e ∈ deduplicateExtKeyUsages map_to_list [1; 2; 1]
               <-> e ∈ [1; 2; 1].
Proof.
  destruct (X20_deduplicateExtKeyUsages_keeps_each_usage_once
              map_to_list [1; 2; 1] (fun m => reflexivity _))
    as (Hnodup & Hin & _).
  split; assumption.
Defined.

Lemma X21_witness :
  keyUsagesMatch 5 [2; 1] 5
    (deduplicateExtKeyUsages map_to_list [1; 2; 1])
  = keyUsagesMatch 5 [2; 1] 5
      (deduplicateExtKeyUsages (fun m => reverse (map_to_list m)) [1; 2; 1]).
Proof.
  refine (proj1 (X21_usage_check_does_not_depend_on_map_order
                   map_to_list (fun m => reverse (map_to_list m))
                   5 [2; 1] 5 [1; 2; 1] _ _)).
  - intros m. reflexivity.
  - intros m. apply reverse_Permutation.
Defined.

Lemma X22_witness :
  exists keyUsages extKeyUsages,
    fst (@defaultKeyUsagesToAdd fixture_lib helper_fixtures.fixture_fmt_v
           helper_fixtures.fixture_Helper "team-a" (helper_fixtures.issuerRef "ClusterIssuer" "vault"))
    = (keyUsages, extKeyUsages, None)
    /\ keyUsages = x509_KeyUsageKeyAgreement.
Proof.
  destruct (@X22_defaultKeyUsagesToAdd_by_issuer_type
              fixture_lib helper_fixtures.fixture_fmt_v helper_fixtures.fixture_Helper "team-a"
              (helper_fixtures.issuerRef "ClusterIssuer" "vault") helper_fixtures.vaultIssuer eq_refl)
    as (keyUsages & extKeyUsages & Hresult & Hku & _).
  exists keyUsages, extKeyUsages. split; assumption.
Defined.

Lemma X23_witness :
  snd (@defaultKeyUsagesToAdd fixture_lib helper_fixtures.fixture_fmt_v
         helper_fixtures.fixture_Helper "team-a" (helper_fixtures.issuerRef "clusterissuer" "vault"))
  = [Issuer_lookup "team-a" "vault"]
  /\ fst (@defaultKeyUsagesToAdd fixture_lib helper_fixtures.fixture_fmt_v
            helper_fixtures.fixture_Helper "team-a" (helper_fixtures.issuerRef "clusterissuer" "vault"))
     = (0, [],
        Some (fmt_Errorf "failed to find referenced Issuer %v: %s"
                ["vault"; "error"])).
Proof.
  destruct (proj2 (@X23_defaultKeyUsagesToAdd_looks_up_the_issuer_once
                     fixture_lib helper_fixtures.fixture_fmt_v helper_fixtures.fixture_Helper "team-a"
                     (helper_fixtures.issuerRef "clusterissuer" "vault"))
              ltac:(discriminate)) as [Hcalls Herr].
  split; [exact Hcalls|]. apply (Herr helper_fixtures.lookup_failed). reflexivity.
Defined.

Lemma X24_witness :
  fst (@wrapErrorWithCertificateStatusCondition fixture_lib
         helper_fixtures.Helper_with_certificate
         (Some helper_fixtures.poll_timeout) "team-a" "test" "Ready")
  = Some (fmt_Errorf "%s: Last Status: '%s' Reason: '%s', Message: '%s'"
            ["error"; "False"; "Pending"; "Waiting for the issuer"]).
Proof.
  apply (proj2 (proj2 (proj2 (proj2
           (@X24_wrapError_keeps_failure_and_success_apart fixture_lib
              helper_fixtures.Helper_with_certificate
              (Some helper_fixtures.poll_timeout) "team-a" "test" "Ready"))))
           helper_fixtures.poll_timeout
           [helper_fixtures.issuingCondition]
           helper_fixtures.notReadyCondition []).
  - reflexivity.
  - reflexivity.
  - reflexivity.
  - intros c Hin. apply list_elem_of_singleton in Hin. subst c. discriminate.
Defined.

End FurtherWitness.
